(** * Contract Management API: session gate, login/logout and contract payloads

    A shallow embedding of the request-handling code of the API
    (server entry point, [routes/auth.js], [routes/contracts.js]) together
    with the properties of its authorization gate, its session lifecycle and
    its record-mutation layer.

    Conventions of the embedding.
    - A JavaScript string is a [string]: a sequence of code units below 256.
      This is exactly what Node's HTTP parser delivers for header values
      (Latin-1); for JSON text it restricts the model to Latin-1 text.
    - The result of [decodeURIComponent] may hold larger code units, so a
      session identifier is a [ustring], a list of UTF-16 code units.
    - A JavaScript number is a [number]: NaN, the two infinities, or a
      rational (every finite double is one; the sign of zero is not tracked,
      no operation used here observes it).
    - A JavaScript object used as a record is a [gmap string jsval].
    - An exception is an explicit [Throw] outcome.
    - The relational store is a record of tables (lists of rows); every
      statement sent to it may fail, as decided by a fault schedule that is
      part of the modelled world. *)

From Stdlib Require Import ZArith NArith QArith Ascii Bool Lia.
From stdpp Require Import base option list gmap strings pretty.

Close Scope Q_scope.
Open Scope Z_scope.

(* ===================================================================== *)
(** * JavaScript built-ins used by the code *)
(* ===================================================================== *)

Module Js.

(** Thrown values that the handlers can observe. *)
Inductive exn : Type :=
| URIError            (* decodeURIComponent on a malformed escape *)
| StoreError.         (* a rejected query / connect of the pg pool *)

Inductive result (A : Type) : Type :=
| Ok (a : A)
| Throw (e : exn).
Global Arguments Ok {A} a.
Global Arguments Throw {A} e.

Definition ustring := list N.

Definition code (a : ascii) : N := N_of_ascii a.

Fixpoint chars (s : string) : list ascii :=
  match s with
  | EmptyString => []
  | String a r => a :: chars r
  end.

Definition to_ustring (s : string) : ustring := code <$> chars s.

Fixpoint strlen (s : string) : nat :=
  match s with
  | EmptyString => O
  | String _ r => S (strlen r)
  end.

(** [WhiteSpace] and [LineTerminator] code points below 256:
    TAB, LF, VT, FF, CR, SP and NBSP. *)
Definition is_ws (a : ascii) : bool :=
  let n := code a in
  ((9 <=? n) && (n <=? 13) || (n =? 32) || (n =? 160))%N.

Fixpoint trimStart (s : string) : string :=
  match s with
  | EmptyString => EmptyString
  | String a r => if is_ws a then trimStart r else s
  end.

Fixpoint trimEnd (s : string) : string :=
  match s with
  | EmptyString => EmptyString
  | String a r =>
      match trimEnd r with
      | EmptyString => if is_ws a then EmptyString else String a EmptyString
      | r' => String a r'
      end
  end.

(** [String.prototype.trim] *)
Definition trim (s : string) : string := trimEnd (trimStart s).

(** Simple lower-case mapping of one code unit below 256: A-Z, and the
    Latin-1 capitals U+00C0..U+00DE except the multiplication sign. *)
Definition lower_char (a : ascii) : ascii :=
  let n := code a in
  if ((65 <=? n) && (n <=? 90) ||
      (192 <=? n) && (n <=? 222) && negb (n =? 215))%N
  then ascii_of_N (n + 32) else a.

(** [String.prototype.toLowerCase] *)
Fixpoint toLowerCase (s : string) : string :=
  match s with
  | EmptyString => EmptyString
  | String a r => String (lower_char a) (toLowerCase r)
  end.

(** [s.split(sep)] for a one-character separator. *)
Fixpoint split (sep : ascii) (s : string) : list string :=
  match s with
  | EmptyString => [EmptyString]
  | String a r =>
      if Ascii.eqb a sep then EmptyString :: split sep r
      else match split sep r with
           | h :: t => String a h :: t
           | [] => [String a EmptyString]
           end
  end.

(** [l.join(sep)] *)
Fixpoint join (sep : string) (l : list string) : string :=
  match l with
  | [] => EmptyString
  | [x] => x
  | x :: t => x +:+ sep +:+ join sep t
  end.

(** [s.startsWith(p)] *)
Fixpoint startsWith (s p : string) : bool :=
  match p, s with
  | EmptyString, _ => true
  | String a p', String b s' => Ascii.eqb a b && startsWith s' p'
  | String _ _, EmptyString => false
  end.

(** [s.slice(n)] for [n >= 0] *)
Fixpoint slice (n : nat) (s : string) : string :=
  match n, s with
  | O, _ => s
  | S n', String _ r => slice n' r
  | S _, EmptyString => EmptyString
  end.

(** [s.endsWith(p)] *)
Definition endsWith (s p : string) : bool :=
  (strlen p <=? strlen s)%nat &&
  String.eqb (slice (strlen s - strlen p) s) p.

(** [s.charAt(i)]: the empty string when [i] is out of range. *)
Fixpoint charAt (i : nat) (s : string) : string :=
  match s, i with
  | EmptyString, _ => EmptyString
  | String a _, O => String a EmptyString
  | String _ r, S i' => charAt i' r
  end.

(** [s.replace(/\/+$/, '')]: drop every trailing slash. *)
Fixpoint stripTrailingSlashes (s : string) : string :=
  match s with
  | EmptyString => EmptyString
  | String a r =>
      match stripTrailingSlashes r with
      | EmptyString =>
          if Ascii.eqb a "/" then EmptyString else String a EmptyString
      | r' => String a r'
      end
  end.

(** ** [decodeURIComponent]

    ECMA-262 [Decode] with an empty reserved set: every [%XX] escape is a
    byte; a byte below 0x80 is a character, a byte with 2 to 4 leading one
    bits starts a UTF-8 sequence whose remaining bytes must be escapes
    too; anything else is a URIError. *)

Definition hex_val (a : ascii) : option N :=
  let n := code a in
  if ((48 <=? n) && (n <=? 57))%N then Some (n - 48)%N
  else if ((65 <=? n) && (n <=? 70))%N then Some (n - 55)%N
  else if ((97 <=? n) && (n <=? 102))%N then Some (n - 87)%N
  else None.

Inductive token : Type :=
| Lit (a : ascii)
| Esc (b : N).

Fixpoint tokenize (s : string) : option (list token) :=
  match s with
  | EmptyString => Some []
  | String a r =>
      if Ascii.eqb a "%" then
        match r with
        | String h1 (String h2 r') =>
            match hex_val h1, hex_val h2 with
            | Some x, Some y => cons (Esc (16 * x + y)%N) <$> tokenize r'
            | _, _ => None
            end
        | _ => None
        end
      else cons (Lit a) <$> tokenize r
  end.

Definition is_cont (b : N) : bool := ((128 <=? b) && (b <? 192))%N.

Fixpoint utf8_units (ts : list token) : option ustring :=
  match ts with
  | [] => Some []
  | Lit a :: r => cons (code a) <$> utf8_units r
  | Esc b :: r =>
      if (b <? 128)%N then cons b <$> utf8_units r
      else if (b <? 192)%N then None
      else if (b <? 224)%N then
        match r with
        | Esc c1 :: r' =>
            let v := ((b - 192) * 64 + (c1 - 128))%N in
            if is_cont c1 && (128 <=? v)%N
            then cons v <$> utf8_units r' else None
        | _ => None
        end
      else if (b <? 240)%N then
        match r with
        | Esc c1 :: Esc c2 :: r' =>
            let v := ((b - 224) * 4096 + (c1 - 128) * 64 + (c2 - 128))%N in
            if is_cont c1 && is_cont c2 && (2048 <=? v)%N &&
               negb ((55296 <=? v) && (v <=? 57343))%N
            then cons v <$> utf8_units r' else None
        | _ => None
        end
      else if (b <? 248)%N then
        match r with
        | Esc c1 :: Esc c2 :: Esc c3 :: r' =>
            let v := ((b - 240) * 262144 + (c1 - 128) * 4096 +
                      (c2 - 128) * 64 + (c3 - 128))%N in
            if is_cont c1 && is_cont c2 && is_cont c3 &&
               (65536 <=? v)%N && (v <=? 1114111)%N
            then
              let w := (v - 65536)%N in
              (fun u => (55296 + w / 1024)%N :: (56320 + w mod 1024)%N :: u)
                <$> utf8_units r'
            else None
        | _ => None
        end
      else None
  end.

Definition decodeURIComponent (s : string) : result ustring :=
  match tokenize s ≫= utf8_units with
  | Some u => Ok u
  | None => Throw URIError
  end.

(** ** Numbers *)

Inductive number : Type :=
| NaN
| PInf
| NInf
| Fin (q : Q).

Definition isFinite (n : number) : bool :=
  match n with Fin _ => true | _ => false end.

(** ToBoolean on a number: NaN and zero are falsy. *)
Definition truthy_number (n : number) : bool :=
  match n with
  | NaN => false
  | Fin q => negb (Qeq_bool q 0)
  | _ => true
  end.

(** [a || d] on numbers *)
Definition or_default (a d : number) : number :=
  if truthy_number a then a else d.

Definition Math_max (a b : number) : number :=
  match a, b with
  | NaN, _ | _, NaN => NaN
  | PInf, _ | _, PInf => PInf
  | NInf, x | x, NInf => x
  | Fin p, Fin q => if Qle_bool p q then Fin q else Fin p
  end.

Definition Math_min (a b : number) : number :=
  match a, b with
  | NaN, _ | _, NaN => NaN
  | NInf, _ | _, NInf => NInf
  | PInf, x | x, PInf => x
  | Fin p, Fin q => if Qle_bool p q then Fin p else Fin q
  end.

(** [Math.trunc] on a finite number: rounding toward zero. *)
Definition Math_trunc (n : number) : number :=
  match n with
  | Fin q => Fin (inject_Z (Z.quot (Qnum q) (Zpos (Qden q))))
  | _ => n
  end.

(** [a <= b] on numbers (false as soon as one side is NaN). *)
Definition number_le (a b : number) : bool :=
  match a, b with
  | NaN, _ | _, NaN => false
  | NInf, _ | _, PInf => true
  | PInf, _ | _, NInf => false
  | Fin p, Fin q => Qle_bool p q
  end.

Definition of_Z (z : Z) : number := Fin (inject_Z z).

End Js.

Export Js.


(* ===================================================================== *)
(** * Values, requests and responses *)
(* ===================================================================== *)

(** The values a JSON body or a query string puts in a field, and
    [undefined] for a property that is read but not there. *)
Inductive jsval : Type :=
| JUndefined
| JNull
| JBool (b : bool)
| JNum (n : number)
| JStr (s : string).

(** What the code takes from its environment: two conversions of the
    language whose tables are not reproduced here, the two functions the
    store evaluates inside the queries, and the process environment. *)
Class Platform : Type := {
  (** [String(n)] for a number *)
  NumberToString : number -> string;
  (** [Number(s)] for a string *)
  StringToNumber : string -> number;
  (** the store's [lower(text)] *)
  sql_lower : string -> string;
  (** the store's [password_hash = crypt($2, password_hash)], for the
      parameter [$2] as the driver sends it *)
  password_matches : jsval -> string -> bool;
  (** [process.env.SESSION_COOKIE_NAME] *)
  env_SESSION_COOKIE_NAME : option string;
}.

(** [obj[k]] *)
Definition get (obj : gmap string jsval) (k : string) : jsval :=
  default JUndefined (obj !! k).

(** ToBoolean *)
Definition truthy (v : jsval) : bool :=
  match v with
  | JUndefined | JNull => false
  | JBool b => b
  | JNum n => truthy_number n
  | JStr s => negb (String.eqb s "")
  end.

(** [v == null] *)
Definition nullish (v : jsval) : bool :=
  match v with
  | JUndefined | JNull => true
  | _ => false
  end.

(** [String(v)] *)
Definition String_ {P : Platform} (v : jsval) : string :=
  match v with
  | JUndefined => "undefined"
  | JNull => "null"
  | JBool true => "true"
  | JBool false => "false"
  | JNum n => NumberToString n
  | JStr s => s
  end.

(** [Number(v)] *)
Definition Number {P : Platform} (v : jsval) : number :=
  match v with
  | JUndefined => NaN
  | JNull => of_Z 0
  | JBool true => of_Z 1
  | JBool false => of_Z 0
  | JNum n => n
  | JStr s => StringToNumber s
  end.

Inductive http_method : Type :=
| GET | POST | PATCH | DELETE | PUT | HEAD | OPTIONS.

Global Instance http_method_eq_dec : EqDecision http_method.
Proof. solve_decision. Defined.

(** The parts of an Express request the code reads. Header names are
    lower-cased by Node; [body] is [req.body || {}]. *)
Record request : Type := {
  method : http_method;
  path : string;
  headers : gmap string string;
  body : gmap string jsval;
  query : gmap string string;
}.

(** The account as the handlers return it ([normalizeUserRow]). *)
Record user_view : Type := {
  user_id : Z;
  username : string;
  name : option string;
  status : option string;
  last_login_at : option Z;
  created_at : Z;
  password_must_change : bool;
}.

Inductive cookie_action : Type :=
| CookieUntouched
| CookieSet (sessionId : ustring)
| CookieCleared.

Inductive json_body : Type :=
| NoBody
| ErrorBody (error : string)
| InternalErrorBody (err : exn)
| LoginBody (session_id : ustring) (user : user_view)
| UserBody (user : user_view)
| HealthBody.

Record response : Type := {
  statusCode : Z;
  payload : json_body;
  cookie : cookie_action;
}.

(** [res.status(c).json(b)] / [res.status(c).send()] *)
Definition respond (c : Z) (b : json_body) : response :=
  {| statusCode := c; payload := b; cookie := CookieUntouched |}.

Definition setSessionCookie (res : response) (sessionId : ustring) : response :=
  {| statusCode := statusCode res; payload := payload res;
     cookie := CookieSet sessionId |}.

Definition clearSessionCookie (res : response) : response :=
  {| statusCode := statusCode res; payload := payload res;
     cookie := CookieCleared |}.

(* ===================================================================== *)
(** * The store *)
(* ===================================================================== *)

Record user_account : Type := {
  ua_user_id : Z;
  ua_username : string;
  ua_name : option string;
  ua_status : option string;
  ua_created_at : Z;
  ua_last_login_at : option Z;
  ua_password_hash : string;
  ua_password_must_change : option bool;
}.

Record user_session : Type := {
  s_session_id : ustring;
  s_user_id : Z;
  s_last_seen_at : Z;
}.

(** A row of [department] or [status]: the key and the name. *)
Record lookup_row : Type := {
  row_id : Z;
  row_name : string;
}.

Record tables : Type := {
  t_user_account : list user_account;
  t_user_session : list user_session;
  t_department : list lookup_row;
  t_status : list lookup_row;
}.

Inductive statement : Type :=
| BEGIN
| COMMIT
| ROLLBACK
| SelectAccountByCredentials
| UpdateAccountOnLogin
| InsertSession
| DeleteSession
| SelectAccountBySession
| UpdateSessionActivity
| SelectDepartmentByName
| SelectStatusByName.

Inductive event : Type :=
| Connect (ok : bool)
| Query (s : statement) (ok : bool)
| Release.

Global Instance statement_eq_dec : EqDecision statement.
Proof. solve_decision. Defined.
Global Instance event_eq_dec : EqDecision event.
Proof. solve_decision. Defined.

(** The world a handler runs in.
    - [db]: the committed tables.
    - [tx]: the working copy of the transaction open on the checked-out
      client, if any; statements sent on the client read and write it.
    - [leased]: clients checked out of the pool and not yet released.
    - [faults]: the fault schedule; each call to the store (a connect or a
      statement) consumes its head, and fails when that is [true]. An
      exhausted schedule means no further fault.
    - [trace]: the calls made to the store, oldest first. *)
Record world : Type := {
  db : tables;
  tx : option tables;
  leased : nat;
  faults : list bool;
  trace : list event;
}.

(* ===================================================================== *)
(** * Effects: a state-and-exception monad *)
(* ===================================================================== *)

(** A computation over a state [S] that returns or throws. *)
Definition M (S A : Type) : Type := S -> result A * S.

Global Instance M_ret {S} : MRet (M S) := fun A a s => (Ok a, s).

Global Instance M_bind {S} : MBind (M S) := fun A B k m s =>
  match m s with
  | (Ok a, s') => k a s'
  | (Throw e, s') => (Throw e, s')
  end.

Definition throw {S A} (e : exn) : M S A := fun s => (Throw e, s).

(** A pure computation that may throw. *)
Definition lift {S A} (r : result A) : M S A := fun s => (r, s).

Definition gets {S A} (f : S -> A) : M S A := fun s => (Ok (f s), s).

Definition modify {S} (f : S -> S) : M S () := fun s => (Ok tt, f s).

(** [try { body } catch (err) { handler err }] *)
Definition try_catch {S A} (body : M S A) (handler : exn -> M S A) : M S A :=
  fun s =>
    match body s with
    | (Ok a, s') => (Ok a, s')
    | (Throw e, s') => handler e s'
    end.

(** [try { body } catch (err) { handler err } finally { fin }]: [fin] runs
    on every exit, and an exception of [fin] replaces the outcome. *)
Definition try_catch_finally {S A}
    (body : M S A) (handler : exn -> M S A) (fin : M S ()) : M S A :=
  fun s =>
    let '(r, s1) := try_catch body handler s in
    match fin s1 with
    | (Ok _, s2) => (r, s2)
    | (Throw e, s2) => (Throw e, s2)
    end.

(* ===================================================================== *)
(** * The pg pool *)
(* ===================================================================== *)

Definition record_event (ev : event) (w : world) : world :=
  {| db := db w; tx := tx w; leased := leased w; faults := faults w;
     trace := trace w ++ [ev] |}.

Definition set_db (t : tables) (w : world) : world :=
  {| db := t; tx := tx w; leased := leased w; faults := faults w;
     trace := trace w |}.

Definition set_tx (t : option tables) (w : world) : world :=
  {| db := db w; tx := t; leased := leased w; faults := faults w;
     trace := trace w |}.

Definition set_leased (n : nat) (w : world) : world :=
  {| db := db w; tx := tx w; leased := n; faults := faults w;
     trace := trace w |}.

(** Consume the head of the fault schedule. *)
Definition next_fault (w : world) : bool * world :=
  (hd false (faults w),
   {| db := db w; tx := tx w; leased := leased w; faults := tl (faults w);
      trace := trace w |}).

(** The handle of a checked-out client. *)
Inductive pg_client : Type := Client.

(** [await pool.connect()] *)
Definition pool_connect : M world pg_client := fun w =>
  let '(f, w) := next_fault w in
  if f then (Throw StoreError, record_event (Connect false) w)
  else (Ok Client, record_event (Connect true) (set_leased (S (leased w)) w)).

(** [client.release()] *)
Definition client_release (c : pg_client) : M world () := fun w =>
  (Ok tt, record_event Release (set_leased (pred (leased w)) w)).

(** A statement sent with [pool.query]: it runs on the committed tables
    and is committed at once. [run] gives the rows and the new tables. *)
Definition pool_query {A} (s : statement) (run : tables -> A * tables)
  : M world A := fun w =>
  let '(f, w) := next_fault w in
  if f then (Throw StoreError, record_event (Query s false) w)
  else
    let '(rows, t) := run (db w) in
    (Ok rows, record_event (Query s true) (set_db t w)).

(** A statement sent with [client.query]: inside a transaction it runs on
    the working copy, outside it is committed at once. *)
Definition client_query {A} (c : pg_client) (s : statement)
    (run : tables -> A * tables) : M world A := fun w =>
  let '(f, w) := next_fault w in
  if f then (Throw StoreError, record_event (Query s false) w)
  else
    match tx w with
    | Some t0 =>
        let '(rows, t) := run t0 in
        (Ok rows, record_event (Query s true) (set_tx (Some t) w))
    | None =>
        let '(rows, t) := run (db w) in
        (Ok rows, record_event (Query s true) (set_db t w))
    end.

(** [client.query('BEGIN')]: opens a transaction on the committed tables
    (a no-op inside one). *)
Definition client_begin (c : pg_client) : M world () := fun w =>
  let '(f, w) := next_fault w in
  if f then (Throw StoreError, record_event (Query BEGIN false) w)
  else
    (Ok tt, record_event (Query BEGIN true)
              (match tx w with
               | Some _ => w
               | None => set_tx (Some (db w)) w
               end)).

(** [client.query('COMMIT')]: installs the working copy. *)
Definition client_commit (c : pg_client) : M world () := fun w =>
  let '(f, w) := next_fault w in
  if f then (Throw StoreError, record_event (Query COMMIT false) w)
  else
    (Ok tt, record_event (Query COMMIT true)
              (match tx w with
               | Some t => set_tx None (set_db t w)
               | None => w
               end)).

(** [client.query('ROLLBACK')]: discards the working copy. *)
Definition client_rollback (c : pg_client) : M world () := fun w =>
  let '(f, w) := next_fault w in
  if f then (Throw StoreError, record_event (Query ROLLBACK false) w)
  else (Ok tt, record_event (Query ROLLBACK true) (set_tx None w)).

(* ===================================================================== *)
(** * The statements of [routes/auth.js] and of the server *)
(* ===================================================================== *)

Section Statements.
Context {P : Platform}.

(** [SELECT ... FROM user_account WHERE username = $1
      AND password_hash = crypt($2, password_hash) LIMIT 1] *)
Definition select_account_by_credentials (u : string) (p : jsval)
    (t : tables) : list user_account * tables :=
  (take 1 (filter (fun ua => ua_username ua = u ∧
                     password_matches p (ua_password_hash ua) = true)
             (t_user_account t)), t).

Definition promote (now : Z) (ua : user_account) : user_account :=
  {| ua_user_id := ua_user_id ua;
     ua_username := ua_username ua;
     ua_name := ua_name ua;
     ua_status := if decide (ua_status ua = Some "pending")
                  then Some "active" else ua_status ua;
     ua_created_at := ua_created_at ua;
     ua_last_login_at := Some now;
     ua_password_hash := ua_password_hash ua;
     ua_password_must_change := ua_password_must_change ua |}.

(** [UPDATE user_account
      SET status = CASE WHEN status = 'pending' THEN 'active' ELSE status END,
          last_login_at = NOW()
      WHERE user_id = $1] *)
Definition update_account_on_login (now : Z) (uid : Z)
    (t : tables) : () * tables :=
  (tt, {| t_user_account :=
            (fun ua => if decide (ua_user_id ua = uid)
                       then promote now ua else ua) <$> t_user_account t;
          t_user_session := t_user_session t;
          t_department := t_department t;
          t_status := t_status t |}).

(** Modelled from the spec: the table definition of [user_session] is not
    part of the sources; a session row carries, besides the identifier and
    the owning account, a last-seen time, which the insert leaves to the
    column default, the current time.

    [INSERT INTO user_session (session_id, user_id) VALUES ($1, $2)] *)
Definition insert_session (now : Z) (sid : ustring) (uid : Z)
    (t : tables) : () * tables :=
  (tt, {| t_user_account := t_user_account t;
          t_user_session :=
            t_user_session t ++
            [{| s_session_id := sid; s_user_id := uid; s_last_seen_at := now |}];
          t_department := t_department t;
          t_status := t_status t |}).

(** [DELETE FROM user_session WHERE session_id = $1] *)
Definition delete_session (sid : ustring) (t : tables) : () * tables :=
  (tt, {| t_user_account := t_user_account t;
          t_user_session :=
            filter (fun s => s_session_id s ≠ sid) (t_user_session t);
          t_department := t_department t;
          t_status := t_status t |}).

(** [SELECT ua.* FROM user_session s
      JOIN user_account ua ON ua.user_id = s.user_id
      WHERE s.session_id = $1 LIMIT 1] *)
Definition select_account_by_session (sid : ustring)
    (t : tables) : list user_account * tables :=
  (take 1
     (s ← t_user_session t;
      ua ← t_user_account t;
      if decide (ua_user_id ua = s_user_id s ∧ s_session_id s = sid)
      then [ua] else []), t).

(** [UPDATE user_session SET last_seen_at = NOW() WHERE session_id = $1] *)
Definition update_session_activity (now : Z) (sid : ustring)
    (t : tables) : () * tables :=
  (tt, {| t_user_account := t_user_account t;
          t_user_session :=
            (fun s => if decide (s_session_id s = sid)
                      then {| s_session_id := s_session_id s;
                              s_user_id := s_user_id s;
                              s_last_seen_at := now |}
                      else s) <$> t_user_session t;
          t_department := t_department t;
          t_status := t_status t |}).

(** [SELECT id FROM <table> WHERE lower(name) = lower($1) LIMIT 1] *)
Definition select_id_by_name (rows : list lookup_row) (n : string)
    : list Z :=
  take 1 (row_id <$>
          filter (fun r => sql_lower (row_name r) = sql_lower n) rows).

End Statements.

(* ===================================================================== *)
(** * [routes/auth.js] *)
(* ===================================================================== *)

Section Auth.
Context {P : Platform}.

Definition USER_STATUSES : list string := ["pending"; "active"; "inactive"].

(** [process.env.SESSION_COOKIE_NAME || 'cm_session'] *)
Definition SESSION_COOKIE_NAME : string :=
  match env_SESSION_COOKIE_NAME with
  | Some n => if String.eqb n "" then "cm_session" else n
  | None => "cm_session"
  end.

(** The loop of [extractSessionId] over the pieces of the cookie header:
    the value of the first piece whose key is the cookie name, still
    percent-encoded. *)
Fixpoint find_session_cookie (cookies : list string) : option string :=
  match cookies with
  | [] => None
  | cookie :: cookies' =>
      match split "=" (trim cookie) with
      | key :: rest =>
          if String.eqb key SESSION_COOKIE_NAME then Some (join "=" rest)
          else find_session_cookie cookies'
      | [] => find_session_cookie cookies'
      end
  end.

(** The [X-Session-Id] and [Authorization: Bearer] fallbacks. *)
Definition header_session_id (req : request) : option ustring :=
  match headers req !! "x-session-id" with
  | Some headerToken =>
      if (0 <? strlen (trim headerToken))%nat
      then Some (to_ustring (trim headerToken)) else None
  | None => None
  end.

Definition bearer_session_id (req : request) : option ustring :=
  match headers req !! "authorization" with
  | Some auth =>
      if startsWith (toLowerCase auth) "bearer " then
        let token := trim (slice 7 auth) in
        if negb (String.eqb token "") then Some (to_ustring token) else None
      else None
  | None => None
  end.

(** [extractSessionId(req)]: [Ok None] is [null]. *)
Definition extractSessionId (req : request) : result (option ustring) :=
  let cookieHeader := headers req !! "cookie" in
  match
    match cookieHeader with
    | Some h =>
        if negb (String.eqb h "") then find_session_cookie (split ";" h)
        else None
    | None => None
    end
  with
  | Some raw =>
      match decodeURIComponent raw with
      | Ok v => Ok (Some v)
      | Throw e => Throw e
      end
  | None =>
      match header_session_id req with
      | Some t => Ok (Some t)
      | None =>
          match bearer_session_id req with
          | Some t => Ok (Some t)
          | None => Ok None
          end
      end
  end.

(** ToBoolean on what [extractSessionId] returns: [null] and the empty
    string are falsy. *)
Definition session_id_given (sessionId : option ustring) : option ustring :=
  match sessionId with
  | Some [] | None => None
  | Some sid => Some sid
  end.

Definition normalizeUserRow (row : user_account) : user_view :=
  {| user_id := ua_user_id row;
     username := ua_username row;
     name := ua_name row;
     status := ua_status row;
     last_login_at := ua_last_login_at row;
     created_at := ua_created_at row;
     password_must_change :=
       match ua_password_must_change row with
       | Some b => b
       | None => false
       end |}.

(** [fetchUserBySession(sessionId)] *)
Definition fetchUserBySession (sessionId : ustring)
    : M world (option user_view) :=
  rows ← pool_query SelectAccountBySession
           (select_account_by_session sessionId);
  mret (match rows with
        | row :: _ => Some (normalizeUserRow row)
        | [] => None
        end).

End Auth.

Section Handlers.
Context {P : Platform}.

(** The local variable [client] of the login handler next to the world it
    runs in. *)
Record frame : Type := {
  fw : world;
  client : option pg_client;
}.

Definition in_world {A} (m : M world A) : M frame A := fun f =>
  let '(r, w) := m (fw f) in (r, {| fw := w; client := client f |}).

Definition set_client (c : option pg_client) : M frame () :=
  modify (fun f => {| fw := fw f; client := c |}).

(** The body of the [try] block of [router.post('/login')]. [uuid] is the
    value [randomUUID()] draws, [now] the store's [NOW()]. *)
Definition login_try (uuid : ustring) (now : Z) (req : request)
    : M frame response :=
  let username := get (body req) "username" in
  let password := get (body req) "password" in
  if negb (truthy username) || negb (truthy password) then
    mret (respond 400 (ErrorBody "username and password are required"))
  else
    c ← in_world pool_connect;
    set_client (Some c);;
    in_world (client_begin c);;
    rows ← in_world
             (client_query c SelectAccountByCredentials
                (select_account_by_credentials
                   (toLowerCase (trim (String_ username))) password));
    match rows with
    | [] =>
        in_world (client_rollback c);;
        mret (respond 401 (ErrorBody "Invalid username or password"))
    | user :: _ =>
        let normalizedStatus :=
          toLowerCase (trim (default "" (ua_status user))) in
        if negb (bool_decide (normalizedStatus ∈ USER_STATUSES))
           || String.eqb normalizedStatus "inactive"
        then
          in_world (client_rollback c);;
          let message :=
            if String.eqb normalizedStatus "inactive"
            then "User account is inactive"
            else "User status does not permit login" in
          mret (respond 403 (ErrorBody message))
        else
          let sessionId := uuid in
          in_world (client_query c UpdateAccountOnLogin
                      (update_account_on_login now (ua_user_id user)));;
          in_world (client_query c InsertSession
                      (insert_session now sessionId (ua_user_id user)));;
          in_world (client_commit c);;
          in_world (client_release c);;
          set_client None;;
          mret (setSessionCookie
                  (respond 200 (LoginBody sessionId (normalizeUserRow user)))
                  sessionId)
    end.

(** The [catch] block of the login handler. *)
Definition login_catch (err : exn) : M frame response :=
  cl ← gets client;
  match cl with
  | Some c =>
      try_catch (in_world (client_rollback c)) (fun _ => mret tt);;
      in_world (client_release c);;
      set_client None
  | None => mret tt
  end;;
  mret (respond 500 (InternalErrorBody err)).

(** The [finally] block of the login handler. *)
Definition login_finally : M frame () :=
  cl ← gets client;
  match cl with
  | Some c => in_world (client_release c)
  | None => mret tt
  end.

(** [router.post('/login', ...)] *)
Definition login (uuid : ustring) (now : Z) (req : request)
    : M world response := fun w =>
  let '(r, f) :=
    try_catch_finally (login_try uuid now req) login_catch login_finally
      {| fw := w; client := None |} in
  (r, fw f).

(** [router.post('/logout', ...)] *)
Definition logout (req : request) : M world response :=
  try_catch
    (sessionId ← lift (extractSessionId req);
     match session_id_given sessionId with
     | Some sid => pool_query DeleteSession (delete_session sid)
     | None => mret tt
     end;;
     mret (clearSessionCookie (respond 204 NoBody)))
    (fun err => mret (respond 500 (InternalErrorBody err))).

(* ===================================================================== *)
(** * The server: CORS, the authorization gate *)
(* ===================================================================== *)

Definition AUTH_EXEMPT_PATHS : list string := ["/auth/login"; "/auth/logout"].

(** [isAuthExemptPath(pathname)] *)
Definition isAuthExemptPath (pathname : string) : bool :=
  if String.eqb pathname "" then false
  else
    let normalized :=
      if (1 <? strlen pathname)%nat then stripTrailingSlashes pathname
      else pathname in
    if bool_decide (normalized ∈ AUTH_EXEMPT_PATHS) then true
    else
      existsb
        (fun exempt =>
           (strlen exempt <? strlen normalized)%nat &&
           endsWith normalized exempt &&
           String.eqb
             (charAt (strlen normalized - strlen exempt - 1) normalized) "/")
        AUTH_EXEMPT_PATHS.

(** The CORS middleware: [Some] is the answer it sends itself, [None] is
    [next()]. The headers it sets are not part of [response]. *)
Definition cors (req : request) : option response :=
  if decide (method req = OPTIONS) then Some (respond 204 NoBody) else None.

(** [updateSessionActivity(sessionId)], called without [await]: the update
    is sent at once, its failure is logged and goes no further. *)
Definition updateSessionActivity (now : Z) (sessionId : ustring)
    : M world () :=
  try_catch
    (pool_query UpdateSessionActivity (update_session_activity now sessionId))
    (fun _ => mret tt).

Definition allowedWhenMustChange : list string :=
  ["/auth/change-password"; "/auth/logout"; "/auth/me"; "/health"].

(** The two rejections of the gate. *)
Definition not_authenticated : response :=
  clearSessionCookie (respond 401 (ErrorBody "Not authenticated")).

Definition password_change_required : response :=
  respond 403 (ErrorBody "Password change required").

(** What a middleware does with a request: it answers, or it calls
    [next()], having set [req.sessionId] and [req.user] or not. *)
Inductive middleware_outcome : Type :=
| Responds (res : response)
| Next (identity : option (ustring * user_view)).

(** The global authorization gate, [app.use(async (req, res, next) => ...)]. *)
Definition gate (now : Z) (req : request) : M world middleware_outcome :=
  try_catch
    (if bool_decide (method req = OPTIONS) || isAuthExemptPath (path req)
     then mret (Next None)
     else
       sessionId ← lift (extractSessionId req);
       match session_id_given sessionId with
       | None =>
           mret (Responds (clearSessionCookie
                             (respond 401 (ErrorBody "Not authenticated"))))
       | Some sessionId =>
           user ← fetchUserBySession sessionId;
           match user with
           | None =>
               mret (Responds (clearSessionCookie
                                 (respond 401 (ErrorBody "Not authenticated"))))
           | Some user =>
               updateSessionActivity now sessionId;;
               if password_must_change user
                  && negb (bool_decide (path req ∈ allowedWhenMustChange))
               then mret (Responds
                            (respond 403 (ErrorBody "Password change required")))
               else mret (Next (Some (sessionId, user)))
           end
       end)
    (fun err => mret (Responds (respond 500 (InternalErrorBody err)))).

(** The middleware chain in front of the mounted routers: CORS, then the
    gate. [Next] hands the request to the matched handler. *)
Definition middlewares (now : Z) (req : request)
    : M world middleware_outcome :=
  match cors req with
  | Some res => mret (Responds res)
  | None => gate now req
  end.

(** ** The shape of the calls one login makes to the store *)




(** What a login that succeeds commits: the promotion of the account and
    the new session row, together. *)
Definition login_effect (now : Z) (sessionId : ustring) (uid : Z)
    (t : tables) : tables :=
  (insert_session now sessionId uid (update_account_on_login now uid t).2).2.

(** The account the credential check of a login selects, if any. *)
Definition matching_account (req : request) (t : tables)
    : option user_account :=
  head (select_account_by_credentials
          (toLowerCase (trim (String_ (get (body req) "username"))))
          (get (body req) "password") t).1.

(** [String(user.status ?? '').trim().toLowerCase()] *)
Definition normalizedStatus (user : user_account) : string :=
  toLowerCase (trim (default "" (ua_status user))).


(** A world whose store will not fail: no fault is scheduled. *)
Definition quiet (w : world) : bool := forallb negb (faults w).

(** The allow-list as the specification words it: the path, without its
    trailing slashes, is an exempt path or ends with one. An exempt path
    starts with a slash, so such an end starts a path segment. *)
Definition exempt_by_suffix (pathname : string) : Prop :=
  let normalized :=
    if (1 <? strlen pathname)%nat then stripTrailingSlashes pathname
    else pathname in
  exists exempt before,
    exempt ∈ AUTH_EXEMPT_PATHS /\ normalized = before +:+ exempt.

End Handlers.

(* ===================================================================== *)
(** * [routes/contracts.js] *)
(* ===================================================================== *)

Section Contracts.
Context {P : Platform}.

Definition FIELDS : list string :=
  [ "title";
    "counterparty_name";
    "counterparty_contact";
    "counterparty_email";
    "internal_owner";
    "department";
    "department_id";
    "contract_type";
    "status";
    "status_id";
    "signed_date";
    "effective_date";
    "start_date";
    "end_date";
    "auto_renew";
    "renewal_term_months";
    "termination_notice_days";
    "termination_notice_deadline";
    "notes";
    "file_name" ].

(** [v === ''] *)
Definition is_empty_string (v : jsval) : bool :=
  match v with
  | JStr s => String.eqb s ""
  | _ => false
  end.

Definition coerceBoolean (v : jsval) : jsval :=
  if nullish v || is_empty_string v then JNull
  else
    match v with
    | JBool _ => v
    | _ =>
        let s := toLowerCase (trim (String_ v)) in
        if bool_decide (s ∈ ["true"; "1"; "yes"; "y"; "on"]) then JBool true
        else if bool_decide (s ∈ ["false"; "0"; "no"; "n"; "off"])
             then JBool false
        else JNull
    end.

Definition coerceInteger (v : jsval) : jsval :=
  if nullish v || is_empty_string v then JNull
  else
    let n := Number v in
    if negb (isFinite n) then JNull
    else JNum (Math_trunc n).

(** The fields [coerceInteger] is applied to. *)
Definition integer_field (k : string) : bool :=
  String.eqb k "renewal_term_months" || String.eqb k "termination_notice_days"
  || String.eqb k "department_id" || String.eqb k "status_id".

(** The body of the loop shared by the two sanitizers, from [let v] on:
    the value stored under [k]. *)
Definition sanitize_value (k : string) (v : jsval) : jsval :=
  let v := if String.eqb k "auto_renew" then coerceBoolean v else v in
  let v := if integer_field k then coerceInteger v else v in
  let v := match v with JStr s => JStr (trim s) | _ => v end in
  if is_empty_string v then JNull else v.

(** [sanitizeCreatePayload(payload)] *)
Definition sanitizeCreatePayload (payload : gmap string jsval)
    : gmap string jsval :=
  foldl (fun data k =>
           match get payload k with
           | JUndefined => data
           | v => <[k := sanitize_value k v]> data
           end) ∅ FIELDS.

(** [sanitizePatchPayload(payload)] *)
Definition sanitizePatchPayload (payload : gmap string jsval)
    : gmap string jsval :=
  foldl (fun data k =>
           if bool_decide (is_Some (payload !! k))
           then <[k := sanitize_value k (get payload k)]> data
           else data) ∅ FIELDS.

(** [req.query[k]] *)
Definition query_param (req : request) (k : string) : jsval :=
  match query req !! k with
  | Some s => JStr s
  | None => JUndefined
  end.

(** [const limit] and [const offset] of [router.get('/')]: the two
    parameters of the list query. *)
Definition list_limit (req : request) : number :=
  Math_min
    (Math_max (or_default (Number (query_param req "limit")) (of_Z 200))
       (of_Z 1))
    (of_Z 1000).

Definition list_offset (req : request) : number :=
  Math_max (or_default (Number (query_param req "offset")) (of_Z 0)) (of_Z 0).

(** One of the two blocks of [resolveIdsFromNames]: [id_key] is filled from
    the row of [table] whose name is the value under [name_key]. *)
Definition resolve_pair (s : statement) (table : tables -> list lookup_row)
    (id_key name_key : string) (resolved : gmap string jsval)
    : M world (gmap string jsval) :=
  match get resolved name_key with
  | JStr n =>
      if nullish (get resolved id_key) && negb (String.eqb (trim n) "")
      then
        rows ← pool_query s (fun t => (select_id_by_name (table t) (trim n), t));
        match rows with
        | id :: _ => mret (<[id_key := JNum (of_Z id)]> resolved)
        | [] => mret resolved
        end
      else mret resolved
  | _ => mret resolved
  end.

(** [resolveIdsFromNames(client, data)], with the pool as [client]. *)
Definition resolveIdsFromNames (data : gmap string jsval)
    : M world (gmap string jsval) :=
  let resolved := data in
  resolved ← resolve_pair SelectDepartmentByName t_department
                "department_id" "department" resolved;
  resolve_pair SelectStatusByName t_status "status_id" "status" resolved.

(** The first two steps of [router.post('/')] and of
    [router.patch('/:contract_id')]. *)
Definition create_body (payload : gmap string jsval)
    : M world (gmap string jsval) :=
  resolveIdsFromNames (sanitizeCreatePayload payload).

Definition patch_body (payload : gmap string jsval)
    : M world (gmap string jsval) :=
  resolveIdsFromNames (sanitizePatchPayload payload).

(** What name resolution leaves under [id_key], for the record [data] it
    was given and the rows of the lookup table:
    - an id that is there (neither null nor absent) is kept, the name is
      not looked at;
    - with the id null or absent and a text [n] under [name_key], the id of
      the first row whose name equals [n] up to case is stored; when no row
      does, the id field is left as it was. *)
Definition resolution (rows : list lookup_row) (id_key name_key : string)
    (data resolved : gmap string jsval) : Prop :=
  (nullish (get data id_key) = false -> resolved !! id_key = data !! id_key) /\
  (forall n, nullish (get data id_key) = true ->
             get data name_key = JStr n ->
             match select_id_by_name rows n with
             | id :: _ => resolved !! id_key = Some (JNum (of_Z id))
             | [] => resolved !! id_key = data !! id_key
             end).

End Contracts.

(* ===================================================================== *)
(** * The other routes *)
(* ===================================================================== *)

(** A statement sent with [pool.query] for which [statement] has no name:
    it consumes the fault schedule and runs on the committed tables like
    [pool_query], and leaves no entry in the trace. *)
Definition pool_statement {A} (run : tables -> A * tables) : M world A :=
  fun w =>
    let '(f, w) := next_fault w in
    if f then (Throw StoreError, w)
    else
      let '(rows, t) := run (db w) in
      (Ok rows, set_db t w).

(** [Number.isInteger(n)] *)
Definition isInteger (n : number) : bool :=
  match n with
  | Fin q => Qnum q mod Zpos (Qden q) =? 0
  | _ => false
  end.

(** The integer that a number with [isInteger] is. *)
Definition integer_of (n : number) : Z :=
  match n with
  | Fin q => Qnum q / Zpos (Qden q)
  | _ => 0
  end.

Section AuthRoutes.
Context {P : Platform}.

(** The store's [password_hash(text)], which makes the hash of a new
    password. *)
Variable store_password_hash : string -> string.

(** [router.get('/me', ...)] *)
Definition me (req : request) : M world response :=
  try_catch
    (sessionId ← lift (extractSessionId req);
     match session_id_given sessionId with
     | None =>
         mret (clearSessionCookie (respond 401 (ErrorBody "Not authenticated")))
     | Some sessionId =>
         user ← fetchUserBySession sessionId;
         match user with
         | None =>
             mret (clearSessionCookie
                     (respond 401 (ErrorBody "Not authenticated")))
         | Some user => mret (respond 200 (UserBody user))
         end
     end)
    (fun err => mret (respond 500 (InternalErrorBody err))).

(** [String(v || '')] *)
Definition String_or_empty (v : jsval) : string :=
  if truthy v then String_ v else "".

(** [SELECT 1 FROM user_account
      WHERE user_id = $1 AND password_hash = crypt($2, password_hash)]:
    the row count. *)
Definition count_account_password (uid : Z) (p : string)
    (t : tables) : nat * tables :=
  (length (filter (fun ua => ua_user_id ua = uid /\
                     password_matches (JStr p) (ua_password_hash ua) = true)
             (t_user_account t)), t).

(** [UPDATE user_account
      SET password_hash = password_hash($1), password_must_change = FALSE
      WHERE user_id = $2] *)
Definition update_password (p : string) (uid : Z)
    (t : tables) : () * tables :=
  (tt, {| t_user_account :=
            (fun ua =>
               if decide (ua_user_id ua = uid)
               then {| ua_user_id := ua_user_id ua;
                       ua_username := ua_username ua;
                       ua_name := ua_name ua;
                       ua_status := ua_status ua;
                       ua_created_at := ua_created_at ua;
                       ua_last_login_at := ua_last_login_at ua;
                       ua_password_hash := store_password_hash p;
                       ua_password_must_change := Some false |}
               else ua) <$> t_user_account t;
          t_user_session := t_user_session t;
          t_department := t_department t;
          t_status := t_status t |}).

(** [router.post('/change-password', ...)] *)
Definition change_password (req : request) : M world response :=
  try_catch
    (sessionId ← lift (extractSessionId req);
     match session_id_given sessionId with
     | None => mret (respond 401 (ErrorBody "Not authenticated"))
     | Some sessionId =>
         currentUser ← fetchUserBySession sessionId;
         match currentUser with
         | None => mret (respond 401 (ErrorBody "Not authenticated"))
         | Some currentUser =>
             let cur := String_or_empty (get (body req) "current_password") in
             let nxt := String_or_empty (get (body req) "new_password") in
             if (strlen cur =? 0)%nat || (strlen nxt =? 0)%nat then
               mret (respond 400
                       (ErrorBody
                          "current_password and new_password are required"))
             else if (strlen nxt <? 8)%nat then
               mret (respond 400
                       (ErrorBody "New password must be at least 8 characters"))
             else
               rowCount ← pool_statement
                            (count_account_password (user_id currentUser) cur);
               if negb (rowCount =? 1)%nat then
                 mret (respond 400 (ErrorBody "Current password is incorrect"))
               else
                 pool_statement (update_password nxt (user_id currentUser));;
                 mret (respond 204 NoBody)
         end
     end)
    (fun err => mret (respond 500 (InternalErrorBody err))).

End AuthRoutes.

(** The auth router of [src/unnamed/part_001], which reads the session
    identifier from the cookie only. *)
Module CookieOnly.
Section CookieOnly.
Context {P : Platform}.

(** [extractSessionId(req)] *)
Definition extractSessionId (req : request) : result (option ustring) :=
  let cookieHeader := headers req !! "cookie" in
  match cookieHeader with
  | Some h =>
      if negb (String.eqb h "") then
        match find_session_cookie (split ";" h) with
        | Some raw =>
            match decodeURIComponent raw with
            | Ok v => Ok (Some v)
            | Throw e => Throw e
            end
        | None => Ok None
        end
      else Ok None
  | None => Ok None
  end.

End CookieOnly.
End CookieOnly.

Section LookupRoutes.
Context {P : Platform}.

(** [DELETE FROM department WHERE department_id = $1]: the row count. *)
Definition delete_department (id : Z) (t : tables) : nat * tables :=
  (length (filter (fun r => row_id r = id) (t_department t)),
   {| t_user_account := t_user_account t;
      t_user_session := t_user_session t;
      t_department := filter (fun r => row_id r ≠ id) (t_department t);
      t_status := t_status t |}).

(** [DELETE FROM status WHERE status_id = $1]: the row count. *)
Definition delete_status (id : Z) (t : tables) : nat * tables :=
  (length (filter (fun r => row_id r = id) (t_status t)),
   {| t_user_account := t_user_account t;
      t_user_session := t_user_session t;
      t_department := t_department t;
      t_status := filter (fun r => row_id r ≠ id) (t_status t) |}).

(** [router.delete('/:department_id', ...)] of [routes/departments.js] *)
Definition departments_delete (department_id : string) : M world response :=
  try_catch
    (let id := Number (JStr department_id) in
     if negb (isInteger id) then
       mret (respond 400 (ErrorBody "Invalid department_id"))
     else
       rowCount ← pool_statement (delete_department (integer_of id));
       if (rowCount =? 0)%nat then
         mret (respond 404 (ErrorBody "Department not found"))
       else mret (respond 204 NoBody))
    (fun err => mret (respond 500 (InternalErrorBody err))).

(** [router.delete('/:status_id', ...)] of [routes/statuses.js] *)
Definition statuses_delete (status_id : string) : M world response :=
  try_catch
    (let id := Number (JStr status_id) in
     if negb (isInteger id) then
       mret (respond 400 (ErrorBody "Invalid status_id"))
     else
       rowCount ← pool_statement (delete_status (integer_of id));
       if (rowCount =? 0)%nat then
         mret (respond 404 (ErrorBody "Status not found"))
       else mret (respond 204 NoBody))
    (fun err => mret (respond 500 (InternalErrorBody err))).

End LookupRoutes.

Section ContractWrites.
Context {P : Platform}.

(** [req.user?.user_id || null], for the identity the gate attached. *)
Definition actorId (identity : option (ustring * user_view)) : option Z :=
  match identity with
  | Some (_, user) => if user_id user =? 0 then None else Some (user_id user)
  | None => None
  end.

(** The audit fields of [router.post('/')]. *)
Definition set_audit_fields (actor : option Z) (body : gmap string jsval)
    : gmap string jsval :=
  match actor with
  | Some a =>
      let body :=
        if nullish (get body "created_by")
        then <["created_by" := JNum (of_Z a)]> body else body in
      if nullish (get body "updated_by")
      then <["updated_by" := JNum (of_Z a)]> body else body
  | None => body
  end.

(** [router.post('/')] up to the insert: the answer it gives itself, or the
    record whose keys become the columns and whose values the parameters
    of the INSERT. *)
Definition create_record (identity : option (ustring * user_view))
    (payload : gmap string jsval)
    : M world (response + gmap string jsval) :=
  body ← create_body payload;
  if negb (truthy (get body "title")) then
    mret (inl (respond 400 (ErrorBody "title is required")))
  else mret (inr (set_audit_fields (actorId identity) body)).

(** [`$${n}`] *)
Definition placeholder (n : nat) : string := "$" +:+ pretty n.

(** The double quote. *)
Definition dquote : ascii := ascii_of_N 34.

(** [`"${k}" = $${n}`] *)
Definition assignment (k : string) (n : nat) : string :=
  String dquote k +:+ String dquote " = " +:+ placeholder n.

(** What [router.patch('/:contract_id')] sends: the SET clauses, the
    parameters, and the number of the placeholder in the WHERE clause. *)
Record update_statement : Type := {
  setClauses : list string;
  values : list jsval;
  where_placeholder : nat;
}.

(** The construction of the UPDATE from the entries of the record, the
    contract id and the acting user. *)
Definition build_update (entries : list (string * jsval)) (id : number)
    (actor : option Z) : update_statement :=
  let '(setClauses, values) :=
    foldl (fun '(setClauses, values) '(k, v) =>
             (setClauses ++ [assignment k (length values + 1)],
              values ++ [v]))
          ([], []) entries in
  let setClauses := setClauses ++ ["updated_at = NOW()"] in
  let setClauses :=
    match actor with
    | Some _ => setClauses ++ ["updated_by = " +:+ placeholder (length values + 2)]
    | None => setClauses
    end in
  let values := values ++ [JNum id] in
  let values :=
    match actor with
    | Some a => values ++ [JNum (of_Z a)]
    | None => values
    end in
  {| setClauses := setClauses;
     values := values;
     where_placeholder :=
       match actor with
       | Some _ => length values - 1
       | None => length values
       end |}.

(** [Object.entries(body)]. The record model keeps no insertion order; the
    entries come in the order of [map_to_list]. *)
Definition Object_entries (body : gmap string jsval)
    : list (string * jsval) := map_to_list body.

(** [router.patch('/:contract_id')] up to the update: the answer it gives
    itself, or the statement it sends. *)
Definition patch_record (contract_id : string)
    (identity : option (ustring * user_view)) (payload : gmap string jsval)
    : M world (response + update_statement) :=
  let id := Number (JStr contract_id) in
  if negb (isInteger id) then
    mret (inl (respond 400 (ErrorBody "Invalid contract_id")))
  else
    body ← patch_body payload;
    let entries := Object_entries body in
    if (length entries =? 0)%nat then
      mret (inl (respond 400 (ErrorBody "No fields provided for update")))
    else mret (inr (build_update entries id (actorId identity))).

End ContractWrites.

(* ===================================================================== *)
(** * Notions used to state the properties *)
(* ===================================================================== *)

(** [path.length > 1 ? path.replace(/\/+$/, '') : path] *)
Definition normalized_path (pathname : string) : string :=
  if (1 <? strlen pathname)%nat then stripTrailingSlashes pathname
  else pathname.

(** No character of [s] is [c]. *)
Fixpoint free_of (c : ascii) (s : string) : bool :=
  match s with
  | EmptyString => true
  | String a r => negb (Ascii.eqb a c) && free_of c r
  end.

(** No character of [s] is white space. *)
Fixpoint no_space (s : string) : bool :=
  match s with
  | EmptyString => true
  | String a r => negb (is_ws a) && no_space r
  end.

Definition cookie_text (s : string) : bool := no_space s && free_of ";" s.


(** The tables [t'] are the tables [t] but for the last-seen times of the
    sessions. *)
Definition same_but_last_seen (t t' : tables) : Prop :=
  t_user_account t' = t_user_account t /\
  (fun s => (s_session_id s, s_user_id s)) <$> t_user_session t' =
  (fun s => (s_session_id s, s_user_id s)) <$> t_user_session t /\
  t_department t' = t_department t /\
  t_status t' = t_status t.

(* ===================================================================== *)
(** * A platform and a store to run the code on *)
(* ===================================================================== *)

(** The functions of [Platform] here are small stand-ins, good for the
    values the examples use; the theorems hold for every platform. *)
Module Example.

Fixpoint digits (acc : Z) (s : string) : option Z :=
  match s with
  | EmptyString => Some acc
  | String a r =>
      let n := code a in
      if ((48 <=? n) && (n <=? 57))%N
      then digits (10 * acc + Z.of_N (n - 48)) r
      else None
  end.

(** Decimal integers only; every other text is taken as NaN. *)
Definition parse_number (s : string) : number :=
  match trim s with
  | EmptyString => of_Z 0
  | String "-" r =>
      match r with
      | EmptyString => NaN
      | _ => match digits 0 r with Some z => of_Z (- z) | None => NaN end
      end
  | t => match digits 0 t with Some z => of_Z z | None => NaN end
  end.

(** Exact on the integers that print without an exponent; the fraction of
    another finite number is not printed (the examples have none). *)
Definition print_number (n : number) : string :=
  match n with
  | NaN => "NaN"
  | PInf => "Infinity"
  | NInf => "-Infinity"
  | Fin q => pretty (Z.quot (Qnum q) (Zpos (Qden q)))
  end.

(** A stand-in for [crypt]: the hash of a password is the password behind
    a fixed salt. *)
Definition salted_match (p : jsval) (hash : string) : bool :=
  match p with
  | JStr s => String.eqb ("$salt$" +:+ s) hash
  | _ => false
  end.

Definition platform : Platform :=
  {| NumberToString := print_number;
     StringToNumber := parse_number;
     sql_lower := toLowerCase;
     password_matches := salted_match;
     env_SESSION_COOKIE_NAME := None |}.

(** The account seeded by the test suite, with the password [secret]. *)
Definition defaultUser : user_account :=
  {| ua_user_id := 101;
     ua_username := "user@example.com";
     ua_name := Some "Example User";
     ua_status := Some "active";
     ua_created_at := 0;
     ua_last_login_at := None;
     ua_password_hash := "$salt$secret";
     ua_password_must_change := Some false |}.

Definition state : tables :=
  {| t_user_account := [defaultUser];
     t_user_session := [];
     t_department :=
       [ {| row_id := 1; row_name := "operations" |};
         {| row_id := 2; row_name := "shelters" |} ];
     t_status :=
       [ {| row_id := 1; row_name := "pending" |};
         {| row_id := 2; row_name := "active" |} ] |}.

(** The test suite's account, asked to change its password, with one
    session. *)
Definition must_change_state : tables :=
  {| t_user_account :=
       [ {| ua_user_id := 101;
            ua_username := "user@example.com";
            ua_name := Some "Example User";
            ua_status := Some "active";
            ua_created_at := 0;
            ua_last_login_at := None;
            ua_password_hash := "$salt$secret";
            ua_password_must_change := Some true |} ];
     t_user_session :=
       [ {| s_session_id := to_ustring "s1"; s_user_id := 101;
            s_last_seen_at := 0 |} ];
     t_department := t_department state;
     t_status := t_status state |}.

(** A quiet world: nothing open, nothing leased, no fault to come. *)
Definition world0 (t : tables) : world :=
  {| db := t; tx := None; leased := 0; faults := []; trace := [] |}.

(** The same world with a fault schedule. *)
Definition with_faults (fs : list bool) (w : world) : world :=
  {| db := db w; tx := tx w; leased := leased w; faults := fs;
     trace := trace w |}.

Definition request0 (m : http_method) (p : string) : request :=
  {| method := m; path := p; headers := ∅; body := ∅; query := ∅ |}.

Definition with_header (k v : string) (req : request) : request :=
  {| method := method req; path := path req;
     headers := <[k := v]> (headers req);
     body := body req; query := query req |}.

Definition with_body (b : gmap string jsval) (req : request) : request :=
  {| method := method req; path := path req; headers := headers req;
     body := b; query := query req |}.

Definition with_query (q : gmap string string) (req : request) : request :=
  {| method := method req; path := path req; headers := headers req;
     body := body req; query := q |}.

Definition credentials (u p : string) : gmap string jsval :=
  <["username" := JStr u]> (<["password" := JStr p]> ∅).

Definition login_request (u p : string) : request :=
  with_body (credentials u p) (request0 POST "/auth/login").

Definition uuid1 : ustring := to_ustring "6f1c2d9e-0000-4000-8000-000000000001".

Definition contract_payload : gmap string jsval :=
  <["title" := JStr "  Lease  "]>
    (<["department" := JStr " Operations "]>
       (<["status" := JStr "archived"]>
          (<["auto_renew" := JStr " Yes "]>
             (<["renewal_term_months" := JStr "12"]>
                (<["notes" := JStr "   "]>
                   (<["owner_ssn" := JStr "x"]> ∅)))))).

(** A request to change the password [secret] of the test suite's account. *)
Definition change_request : request :=
  with_body (<["current_password" := JStr "secret"]>
               (<["new_password" := JStr "longer-secret"]> ∅))
    (with_header "x-session-id" "s1" (request0 POST "/auth/change-password")).




End Example.

(* ===================================================================== *)
(** * Properties of the built-ins *)
(* ===================================================================== *)

Section BuiltinProperties.

Lemma trimEnd_head a r :
  is_ws a = false -> exists r', trimEnd (String a r) = String a r'.
Proof.
  intros Ha. simpl. rewrite Ha. destruct (trimEnd r); eauto.
Qed.

Lemma trimStart_head s :
  trimStart s = "" \/ exists a r, trimStart s = String a r /\ is_ws a = false.
Proof.
  induction s as [|a s IH]; [by left|].
  simpl. destruct (is_ws a) eqn:Ha; [exact IH|].
  right. eauto.
Qed.

Lemma trim_head s :
  trim s = "" \/ exists a r, trim s = String a r /\ is_ws a = false.
Proof.
  unfold trim. destruct (trimStart_head s) as [-> | (a & r & -> & Ha)].
  - by left.
  - right. destruct (trimEnd_head a r Ha) as [r' Hr']. eauto.
Qed.

Lemma trimEnd_idem s : trimEnd (trimEnd s) = trimEnd s.
Proof.
  induction s as [|a s IH]; [done|].
  simpl. destruct (trimEnd s) as [|b r'] eqn:Hs.
  - destruct (is_ws a) eqn:Ha; [done|]. simpl. by rewrite Ha.
  - change (trimEnd (String a (String b r'))) with
      (match trimEnd (String b r') with
       | EmptyString => if is_ws a then EmptyString else String a EmptyString
       | r'' => String a r''
       end).
    by rewrite IH.
Qed.

(** Trimming twice is trimming once. *)
Lemma trim_idem s : trim (trim s) = trim s.
Proof.
  destruct (trim_head s) as [-> | (a & r & Hs & Ha)]; [done|].
  rewrite Hs. unfold trim at 1. simpl. rewrite Ha.
  rewrite <- Hs. unfold trim. apply trimEnd_idem.
Qed.

Lemma slice_suffix k s :
  (k <= strlen s)%nat -> exists before, s = before +:+ slice k s.
Proof.
  revert s. induction k as [|k IH]; intros s Hk.
  - by exists "".
  - destruct s as [|a s]; simpl in *; [lia|].
    destruct (IH s) as [before Hb]; [lia|].
    exists (String a before).
    change (String a s = String a (before +:+ slice k s)). by rewrite <- Hb.
Qed.

Lemma endsWith_suffix s p :
  endsWith s p = true -> exists before, s = before +:+ p.
Proof.
  unfold endsWith. intros Hs. apply andb_prop in Hs as [Hlen Heq].
  apply Nat.leb_le in Hlen. apply String.eqb_eq in Heq.
  destruct (slice_suffix (strlen s - strlen p) s) as [before Hb]; [lia|].
  exists before. by rewrite Heq in Hb.
Qed.

End BuiltinProperties.

(* ===================================================================== *)
(** * Properties of the authorization gate *)
(* ===================================================================== *)

Section GateProperties.
Context {P : Platform}.

Lemma bind_Ok {S A B} (m : M S A) (k : A -> M S B) s a s' :
  m s = (Ok a, s') -> (m ≫= k) s = k a s'.
Proof. intros Hm. unfold mbind, M_bind. by rewrite Hm. Qed.

Lemma bind_Throw {S A B} (m : M S A) (k : A -> M S B) s e s' :
  m s = (Throw e, s') -> (m ≫= k) s = (Throw e, s').
Proof. intros Hm. unfold mbind, M_bind. by rewrite Hm. Qed.

(** The gate passes OPTIONS on without a look at the session. *)
Lemma gate_OPTIONS now req w :
  method req = OPTIONS -> gate now req w = (Ok (Next None), w).
Proof.
  intros Hm. unfold gate, try_catch.
  rewrite Hm. reflexivity.
Qed.

(** C10. A request with method OPTIONS is answered 204 by the CORS
    middleware, so the chain never runs the gate on it; the gate itself
    would pass it on without reading the session or the store. Whatever the
    session and the must-change-password flag, the answer is neither 401
    nor 403. *)
Theorem options_never_rejected now req w :
  method req = OPTIONS ->
  cors req = Some (respond 204 NoBody) /\
  gate now req w = (Ok (Next None), w) /\
  middlewares now req w = (Ok (Responds (respond 204 NoBody)), w) /\
  (forall res w', middlewares now req w = (Ok (Responds res), w') ->
                  statusCode res <> 401 /\ statusCode res <> 403).
Proof.
  intros Hm.
  assert (Hc : cors req = Some (respond 204 NoBody)).
  { unfold cors. rewrite Hm. reflexivity. }
  assert (Hmw : middlewares now req w = (Ok (Responds (respond 204 NoBody)), w)).
  { unfold middlewares. rewrite Hc. reflexivity. }
  split; [exact Hc|]. split; [by apply gate_OPTIONS|]. split; [exact Hmw|].
  intros res w' Heq. rewrite Hmw in Heq. inversion Heq; subst.
  simpl. lia.
Qed.

Lemma next_fault_db w : db (next_fault w).2 = db w.
Proof. reflexivity. Qed.

Lemma fetchUserBySession_db sid w r w1 :
  fetchUserBySession sid w = (r, w1) -> db w1 = db w.
Proof.
  unfold fetchUserBySession, pool_query, mbind, M_bind, mret, M_ret.
  pose proof (next_fault_db w) as Hdb.
  destruct (next_fault w) as [[|] w0]; simpl in *; intros [= <- <-];
    simpl; done.
Qed.

(** The reading of the session by the gate sees what the join returns. *)
Lemma fetchUserBySession_Ok sid w u w1 :
  fetchUserBySession sid w = (Ok u, w1) ->
  u = normalizeUserRow <$> head (select_account_by_session sid (db w)).1.
Proof.
  unfold fetchUserBySession, pool_query, mbind, M_bind, mret, M_ret.
  pose proof (next_fault_db w) as Hdb.
  destruct (next_fault w) as [[|] w0]; simpl in *; [done|].
  intros [= <- <-]. rewrite Hdb.
  by destruct (take 1 _).
Qed.

(** The activity update never fails the request, and touches nothing but
    the last-seen time of the session. *)
Lemma updateSessionActivity_Ok now sid w :
  exists w', updateSessionActivity now sid w = (Ok tt, w') /\
    (db w' = db w \/ db w' = (update_session_activity now sid (db w)).2).
Proof.
  unfold updateSessionActivity, try_catch, pool_query.
  pose proof (next_fault_db w) as Hdb.
  destruct (next_fault w) as [[|] w0]; simpl in *.
  - eexists; split; [reflexivity|]. left. done.
  - eexists; split; [reflexivity|]. right. simpl. by rewrite Hdb.
Qed.

Lemma select_account_by_session_activity now sid sid' t :
  (select_account_by_session sid' (update_session_activity now sid t).2).1 =
  (select_account_by_session sid' t).1.
Proof.
  unfold select_account_by_session, update_session_activity. simpl.
  f_equal. induction (t_user_session t) as [|s l IH]; [done|].
  rewrite fmap_cons, !bind_cons, IH. f_equal.
  destruct (decide (s_session_id s = sid)); done.
Qed.

(** A path the code exempts is exempt in the words of the specification:
    a path that is not, in those words, gets the full gate. *)
Lemma isAuthExemptPath_suffix pathname :
  isAuthExemptPath pathname = true -> exempt_by_suffix pathname.
Proof.
  unfold isAuthExemptPath, exempt_by_suffix.
  destruct (String.eqb pathname ""); [done|].
  set (normalized := if (1 <? strlen pathname)%nat then _ else _).
  case_bool_decide as Hin.
  - intros _. exists normalized, "". done.
  - intros Hex. apply existsb_exists in Hex as (exempt & Hin' & Hc).
    apply andb_prop in Hc as [Hc _]. apply andb_prop in Hc as [_ Hc].
    apply endsWith_suffix in Hc as [before Hb].
    exists exempt, before. split; [by apply list_elem_of_In|done].
Qed.

Lemma gate_enter now req w :
  method req <> OPTIONS ->
  isAuthExemptPath (path req) = false ->
  gate now req w =
  try_catch
    (sessionId ← lift (extractSessionId req);
     match session_id_given sessionId with
     | None => mret (Responds not_authenticated)
     | Some sessionId =>
         user ← fetchUserBySession sessionId;
         match user with
         | None => mret (Responds not_authenticated)
         | Some user =>
             updateSessionActivity now sessionId;;
             if password_must_change user
                && negb (bool_decide (path req ∈ allowedWhenMustChange))
             then mret (Responds password_change_required)
             else mret (Next (Some (sessionId, user)))
         end
     end)
    (fun err => mret (Responds (respond 500 (InternalErrorBody err)))) w.
Proof.
  intros Hm Hp. unfold gate.
  rewrite bool_decide_eq_false_2 by done. rewrite Hp. reflexivity.
Qed.

Lemma middlewares_gate now req w :
  method req <> OPTIONS -> middlewares now req w = gate now req w.
Proof.
  intros Hm. unfold middlewares, cors.
  destruct (decide (method req = OPTIONS)); done.
Qed.

(** C1, as the code has it. A request other than OPTIONS, on a path that is
    not exempt, whose session identifier is absent (none, or empty) or
    resolves to no account row, is answered 401 "Not authenticated" with
    the session cookie cleared; the chain does not call [next()], so the
    matched handler is not reached, and the tables are as they were. *)
Theorem gate_rejects_unauthenticated now req w sessionId :
  method req <> OPTIONS ->
  isAuthExemptPath (path req) = false ->
  extractSessionId req = Ok sessionId ->
  (session_id_given sessionId = None \/
   exists sid w1, session_id_given sessionId = Some sid /\
                  fetchUserBySession sid w = (Ok None, w1)) ->
  exists w', middlewares now req w = (Ok (Responds not_authenticated), w') /\
             statusCode not_authenticated = 401 /\
             cookie not_authenticated = CookieCleared /\
             db w' = db w.
Proof.
  intros Hm Hp Hx Hs.
  rewrite middlewares_gate, gate_enter by done.
  unfold try_catch, lift, mbind, M_bind. rewrite Hx.
  destruct Hs as [Hnone | (sid & w1 & Hsome & Hfetch)].
  - rewrite Hnone. exists w. done.
  - rewrite Hsome, Hfetch. exists w1. repeat split.
    by eapply fetchUserBySession_db.
Qed.

(** C2. A request that passed identity resolution (not OPTIONS, path not
    exempt, a session that resolves to an account) for an account that
    must change its password goes on to its handler exactly when its path
    is one of /auth/change-password, /auth/logout, /auth/me, /health, and
    is answered 403 "Password change required" otherwise. The gate keeps no
    record of the check: what it leaves in the store resolves every session
    to the same account as before, so the next request is checked again. *)
Theorem gate_password_change now req w sessionId sid user w1 :
  method req <> OPTIONS ->
  isAuthExemptPath (path req) = false ->
  extractSessionId req = Ok sessionId ->
  session_id_given sessionId = Some sid ->
  fetchUserBySession sid w = (Ok (Some user), w1) ->
  password_must_change user = true ->
  exists w',
    middlewares now req w =
      (Ok (if bool_decide (path req ∈ ["/auth/change-password"; "/auth/logout";
                                        "/auth/me"; "/health"])
           then Next (Some (sid, user))
           else Responds (respond 403 (ErrorBody "Password change required"))),
       w') /\
    (forall sid', (select_account_by_session sid' (db w')).1 =
                  (select_account_by_session sid' (db w)).1).
Proof.
  intros Hm Hp Hx Hs Hfetch Hflag.
  rewrite middlewares_gate, gate_enter by done.
  unfold try_catch, lift, mbind, M_bind. rewrite Hx, Hs, Hfetch.
  destruct (updateSessionActivity_Ok now sid w1) as (w2 & Hact & Hdb).
  rewrite Hact, Hflag. simpl.
  apply fetchUserBySession_db in Hfetch.
  exists w2. split.
  - unfold allowedWhenMustChange. by case_bool_decide.
  - intros sid'. destruct Hdb as [-> | ->]; rewrite ?Hfetch; [done|].
    apply select_account_by_session_activity.
Qed.

End GateProperties.

(* ===================================================================== *)
(** * Properties of login and logout *)
(* ===================================================================== *)

Section LoginProperties.
Context {P : Platform}.

Ltac unfold_store :=
  unfold login, logout, try_catch_finally, login_try, login_catch,
    login_finally, try_catch, lift, mbind, M_bind, mret, M_ret, in_world,
    set_client, modify, gets, pool_connect, pool_query, client_begin,
    client_query, client_commit, client_rollback, client_release, next_fault,
    record_event, set_db, set_tx, set_leased.




Lemma quiet_hd fs : forallb negb fs = true -> hd false fs = false.
Proof. destruct fs as [|[|] fs]; simpl; congruence. Qed.

Lemma quiet_tail fs : forallb negb fs = true -> forallb negb (tail fs) = true.
Proof. destruct fs as [|[|] fs]; simpl; congruence. Qed.

(** The next call to a quiet store does not fail. *)
Ltac quiet_step H :=
  lazymatch goal with
  | |- context [if hd false ?l then _ else _] =>
      rewrite (quiet_hd l) by (repeat apply quiet_tail; exact H); simpl
  end.

Lemma head_take_1 {A} (l : list A) : head (take 1 l) = head l.
Proof. by destruct l. Qed.

Lemma take_1_head {A} (l : list A) (x : A) :
  head (take 1 l) = Some x -> take 1 l = [x].
Proof. destruct l; simpl; [done|]. rewrite take_0. by intros [= ->]. Qed.

Lemma take_1_head_None {A} (l : list A) :
  head (take 1 l) = None -> take 1 l = [].
Proof. by destruct l. Qed.

(** The account selected by the credential check is a stored account with
    the normalized username, whose hash the password matches. *)
Lemma matching_account_Some req t user :
  matching_account req t = Some user ->
  user ∈ t_user_account t /\
  ua_username user = toLowerCase (trim (String_ (get (body req) "username"))) /\
  password_matches (get (body req) "password") (ua_password_hash user) = true.
Proof.
  unfold matching_account, select_account_by_credentials. simpl.
  rewrite head_take_1. intros Hh.
  apply head_Some_elem_of in Hh. apply list_elem_of_filter in Hh.
  tauto.
Qed.


(** What login does on a request that carries both credentials, in a world
    whose store does not fail. *)
Lemma login_quiet uuid now req w :
  truthy (get (body req) "username") = true ->
  truthy (get (body req) "password") = true ->
  tx w = None ->
  quiet w = true ->
  match matching_account req (db w) with
  | None =>
      (login uuid now req w).1 =
        Ok (respond 401 (ErrorBody "Invalid username or password")) /\
      db (login uuid now req w).2 = db w
  | Some user =>
      if negb (bool_decide (normalizedStatus user ∈ USER_STATUSES))
         || String.eqb (normalizedStatus user) "inactive"
      then
        (login uuid now req w).1 =
          Ok (respond 403
                (ErrorBody (if String.eqb (normalizedStatus user) "inactive"
                            then "User account is inactive"
                            else "User status does not permit login"))) /\
        db (login uuid now req w).2 = db w
      else
        (login uuid now req w).1 =
          Ok (setSessionCookie
                (respond 200 (LoginBody uuid (normalizeUserRow user))) uuid) /\
        db (login uuid now req w).2 =
          login_effect now uuid (ua_user_id user) (db w)
  end.
Proof.
  destruct w as [d t l fs tr]. unfold quiet. simpl.
  intros Hu Hp -> Hq.
  destruct (matching_account req d) as [user|] eqn:Hm;
    unfold matching_account in Hm; simpl in Hm;
    [apply take_1_head in Hm | apply take_1_head_None in Hm];
    unfold normalizedStatus;
    unfold_store; rewrite Hu, Hp; simpl;
    do 3 quiet_step Hq; rewrite Hm; simpl.
  - destruct (negb (bool_decide (_ ∈ USER_STATUSES)) || _) eqn:Hstatus; simpl.
    + quiet_step Hq. done.
    + do 3 quiet_step Hq. done.
  - quiet_step Hq. done.
Qed.



(** ** Logout *)

Lemma delete_session_absent sid t :
  forall s, s ∈ t_user_session (delete_session sid t).2 -> s_session_id s <> sid.
Proof.
  intros s Hin. unfold delete_session in Hin. simpl in Hin.
  apply list_elem_of_filter in Hin. tauto.
Qed.

Lemma filter_idem {A} (Q : A -> Prop) `{forall x, Decision (Q x)} (l : list A) :
  filter Q (filter Q l) = filter Q l.
Proof.
  induction l as [|x l IH]; [done|].
  rewrite filter_cons. destruct (decide (Q x)) as [Hq|Hq].
  - rewrite filter_cons_True by done. by rewrite IH.
  - exact IH.
Qed.

Lemma delete_session_idem sid t :
  (delete_session sid (delete_session sid t).2).2 = (delete_session sid t).2.
Proof. unfold delete_session. simpl. f_equal. apply filter_idem. Qed.

(** Logout of a request whose session identifier can be extracted, on a
    store that does not fail: the answer is 204 with the cookie cleared,
    whether the session exists or not and whether an identifier is given
    or not; the named session is gone afterwards; a second call gives the
    same answer and changes nothing. *)
Lemma logout_idempotent req w sessionId :
  extractSessionId req = Ok sessionId ->
  quiet w = true ->
  (logout req w).1 = Ok (clearSessionCookie (respond 204 NoBody)) /\
  (forall sid, session_id_given sessionId = Some sid ->
     forall s, s ∈ t_user_session (db (logout req w).2) ->
               s_session_id s <> sid) /\
  (logout req (logout req w).2).1 = Ok (clearSessionCookie (respond 204 NoBody)) /\
  db (logout req (logout req w).2).2 = db (logout req w).2.
Proof.
  destruct w as [d t l fs tr]. unfold quiet. simpl. intros Hx Hq.
  unfold_store. rewrite Hx. simpl.
  destruct (session_id_given sessionId) as [sid|] eqn:Hs; simpl.
  - do 2 quiet_step Hq. repeat split.
    + intros sid' [= <-]. apply delete_session_absent.
    + f_equal. apply filter_idem.
  - repeat split. intros sid' [=].
Qed.

End LoginProperties.

(* ===================================================================== *)
(** * Properties of session-id extraction *)
(* ===================================================================== *)

Section ExtractProperties.
Context {P : Platform}.

(** The named cookie wins: its percent-decoded value is the result, and a
    malformed escape in it is the URIError of [decodeURIComponent]. *)
Lemma extractSessionId_cookie req h raw :
  headers req !! "cookie" = Some h ->
  h <> "" ->
  find_session_cookie (split ";" h) = Some raw ->
  extractSessionId req =
    match decodeURIComponent raw with
    | Ok v => Ok (Some v)
    | Throw e => Throw e
    end.
Proof.
  intros Hh Hne Hc. unfold extractSessionId. rewrite Hh.
  apply String.eqb_neq in Hne. rewrite Hne. simpl. by rewrite Hc.
Qed.

(** Without the named cookie, the three remaining cases in order. *)
Lemma extractSessionId_no_cookie req :
  match headers req !! "cookie" with
  | Some h => h = "" \/ find_session_cookie (split ";" h) = None
  | None => True
  end ->
  extractSessionId req =
    Ok (match header_session_id req with
        | Some t => Some t
        | None => bearer_session_id req
        end).
Proof.
  intros Hc. unfold extractSessionId.
  destruct (headers req !! "cookie") as [h|].
  - destruct Hc as [-> | Hc]; simpl.
    + destruct (header_session_id req); [done|].
      by destruct (bearer_session_id req).
    + rewrite Hc. destruct (negb _);
        (destruct (header_session_id req); [done|];
         by destruct (bearer_session_id req)).
  - destruct (header_session_id req); [done|].
    by destruct (bearer_session_id req).
Qed.

End ExtractProperties.


(* ===================================================================== *)
(** * Properties of the contract routes *)
(* ===================================================================== *)

Section ContractProperties.
Context {P : Platform}.

(** ** Pagination *)

Lemma Qle_bool_false p q : Qle_bool p q = false -> (q < p)%Q.
Proof.
  intros Hb. apply Qnot_le_lt. intros Hle.
  apply Qle_bool_iff in Hle. congruence.
Qed.

(** [Math.min(Math.max(n || 200, 1), 1000)] lies in [1, 1000]. *)
Lemma limit_in_range n :
  exists q, Math_min (Math_max (or_default n (of_Z 200)) (of_Z 1)) (of_Z 1000)
            = Fin q /\ (1 <= q)%Q /\ (q <= 1000)%Q.
Proof.
  unfold of_Z.
  destruct n as [| | |q]; try (eexists; split; [reflexivity|]; done).
  unfold or_default, truthy_number.
  destruct (Qeq_bool q 0); simpl; [eexists; split; [reflexivity|]; done|].
  destruct (Qle_bool q (inject_Z 1)) eqn:H1; simpl.
  - eexists; split; [reflexivity|]. done.
  - apply Qle_bool_false in H1.
    destruct (Qle_bool q (inject_Z 1000)) eqn:H2; simpl.
    + apply Qle_bool_iff in H2. eexists; split; [reflexivity|].
      split; [by apply Qlt_le_weak | done].
    + eexists; split; [reflexivity|]. done.
Qed.

(** [Math.max(n || 0, 0)] is at least 0. *)
Lemma offset_in_range n :
  number_le (of_Z 0) (Math_max (or_default n (of_Z 0)) (of_Z 0)) = true.
Proof.
  unfold of_Z.
  destruct n as [| | |q]; try reflexivity.
  unfold or_default, truthy_number.
  destruct (Qeq_bool q 0); simpl; [reflexivity|].
  destruct (Qle_bool q (inject_Z 0)) eqn:H0; simpl; [reflexivity|].
  apply Qle_bool_false in H0. apply Qle_bool_iff. by apply Qlt_le_weak.
Qed.

(** [Math.min(Math.max(n || 200, 1), 1000)], value by value. *)
Lemma limit_value n :
  match n with
  | NaN => Math_min (Math_max (or_default n (of_Z 200)) (of_Z 1)) (of_Z 1000)
           = of_Z 200
  | PInf => Math_min (Math_max (or_default n (of_Z 200)) (of_Z 1)) (of_Z 1000)
            = of_Z 1000
  | NInf => Math_min (Math_max (or_default n (of_Z 200)) (of_Z 1)) (of_Z 1000)
            = of_Z 1
  | Fin q =>
      ((q == 0)%Q ->
       Math_min (Math_max (or_default n (of_Z 200)) (of_Z 1)) (of_Z 1000)
       = of_Z 200) /\
      (~ (q == 0)%Q -> (q <= 1)%Q ->
       Math_min (Math_max (or_default n (of_Z 200)) (of_Z 1)) (of_Z 1000)
       = of_Z 1) /\
      ((1 < q)%Q -> (q <= 1000)%Q ->
       Math_min (Math_max (or_default n (of_Z 200)) (of_Z 1)) (of_Z 1000)
       = Fin q) /\
      ((1000 < q)%Q ->
       Math_min (Math_max (or_default n (of_Z 200)) (of_Z 1)) (of_Z 1000)
       = of_Z 1000)
  end.
Proof.
  destruct n as [| | |q]; try reflexivity.
  unfold of_Z, or_default, truthy_number.
  destruct (Qeq_bool q 0) eqn:H0; simpl.
  { apply Qeq_bool_iff in H0. split; [done|]. split; [done|].
    split; intros Hq; rewrite H0 in Hq; done. }
  apply Qeq_bool_neq in H0. split; [done|].
  destruct (Qle_bool q (inject_Z 1)) eqn:H1; simpl.
  - apply Qle_bool_iff in H1. split; [done|].
    split; intros Hq.
    + apply Qlt_not_le in Hq. contradiction.
    + exfalso. apply (Qlt_not_le _ _ Hq).
      apply (Qle_trans _ (inject_Z 1)); done.
  - apply Qle_bool_false in H1. split.
    { intros _ Hq. apply Qlt_not_le in H1. contradiction. }
    destruct (Qle_bool q (inject_Z 1000)) eqn:H2; simpl.
    + apply Qle_bool_iff in H2. split; [done|].
      intros Hq. apply Qlt_not_le in Hq. contradiction.
    + apply Qle_bool_false in H2. split; [|done].
      intros _ Hq. apply Qlt_not_le in H2. contradiction.
Qed.

(** [Math.max(n || 0, 0)], value by value. *)
Lemma offset_value n :
  match n with
  | NaN | NInf => Math_max (or_default n (of_Z 0)) (of_Z 0) = of_Z 0
  | PInf => Math_max (or_default n (of_Z 0)) (of_Z 0) = PInf
  | Fin q =>
      ((q <= 0)%Q -> Math_max (or_default n (of_Z 0)) (of_Z 0) = of_Z 0) /\
      ((0 < q)%Q -> Math_max (or_default n (of_Z 0)) (of_Z 0) = Fin q)
  end.
Proof.
  destruct n as [| | |q]; try reflexivity.
  unfold of_Z, or_default, truthy_number.
  destruct (Qeq_bool q 0) eqn:H0; simpl.
  { apply Qeq_bool_iff in H0. split; [done|].
    intros Hq. rewrite H0 in Hq. done. }
  destruct (Qle_bool q (inject_Z 0)) eqn:H1; simpl.
  - apply Qle_bool_iff in H1. split; [done|].
    intros Hq. apply Qlt_not_le in Hq. contradiction.
  - apply Qle_bool_false in H1. split; [|done].
    intros Hq. apply Qlt_not_le in H1. contradiction.
Qed.

(** C9, as the code has it. For every list request the limit sent to the
    store is a number between 1 and 1000. It is 200 when the parameter is
    absent, is not a number, or is zero; otherwise it is the parameter
    clamped: 1 when the parameter is at most 1 (minus infinity included),
    1000 when it is above 1000 (infinity included), the parameter itself in
    between. The offset sent is at least 0. It is 0 when the parameter is
    absent, is not a number, or is at most 0 (minus infinity included), and
    the parameter itself when that is positive. The parameters are the
    texts of the query string, read as numbers by [Number]. *)
Theorem list_pagination req :
  (exists q, list_limit req = Fin q /\ (1 <= q)%Q /\ (q <= 1000)%Q) /\
  (query req !! "limit" = None -> list_limit req = of_Z 200) /\
  (forall s, query req !! "limit" = Some s ->
     match StringToNumber s with
     | NaN => list_limit req = of_Z 200
     | PInf => list_limit req = of_Z 1000
     | NInf => list_limit req = of_Z 1
     | Fin q =>
         ((q == 0)%Q -> list_limit req = of_Z 200) /\
         (~ (q == 0)%Q -> (q <= 1)%Q -> list_limit req = of_Z 1) /\
         ((1 < q)%Q -> (q <= 1000)%Q -> list_limit req = Fin q) /\
         ((1000 < q)%Q -> list_limit req = of_Z 1000)
     end) /\
  number_le (of_Z 0) (list_offset req) = true /\
  (query req !! "offset" = None -> list_offset req = of_Z 0) /\
  (forall s, query req !! "offset" = Some s ->
     match StringToNumber s with
     | NaN | NInf => list_offset req = of_Z 0
     | PInf => list_offset req = PInf
     | Fin q =>
         ((q <= 0)%Q -> list_offset req = of_Z 0) /\
         ((0 < q)%Q -> list_offset req = Fin q)
     end).
Proof.
  unfold list_limit, list_offset.
  split; [|split; [|split; [|split; [|split]]]].
  - destruct (limit_in_range (Number (query_param req "limit")))
      as (q & Hq & H1 & H2).
    exists q. done.
  - intros Hn. unfold query_param. rewrite Hn. reflexivity.
  - intros s Hs. unfold query_param. rewrite Hs.
    change (Number (JStr s)) with (StringToNumber s).
    apply (limit_value (StringToNumber s)).
  - apply offset_in_range.
  - intros Hn. unfold query_param. rewrite Hn. reflexivity.
  - intros s Hs. unfold query_param. rewrite Hs.
    change (Number (JStr s)) with (StringToNumber s).
    apply (offset_value (StringToNumber s)).
Qed.

(** ** Sanitization *)

Lemma create_fold_lookup (payload : gmap string jsval) (fields : list string)
    (data : gmap string jsval) (k : string) :
  foldl (fun data k =>
           match get payload k with
           | JUndefined => data
           | v => <[k := sanitize_value k v]> data
           end) data fields !! k =
  if bool_decide (k ∈ fields) then
    match get payload k with
    | JUndefined => data !! k
    | v => Some (sanitize_value k v)
    end
  else data !! k.
Proof.
  revert data. induction fields as [|x fields IH]; intros data; [done|].
  simpl. rewrite IH. clear IH.
  destruct (decide (k = x)) as [->|Hne].
  - rewrite (bool_decide_eq_true_2 (x ∈ x :: fields)) by (by left).
    destruct (get payload x) eqn:Hg;
      rewrite ?lookup_insert_eq; by case_bool_decide.
  - assert (Hmem : bool_decide (k ∈ x :: fields) = bool_decide (k ∈ fields)).
    { apply bool_decide_ext. rewrite elem_of_cons. tauto. }
    rewrite Hmem.
    destruct (get payload x); rewrite ?lookup_insert_ne by done; done.
Qed.

Lemma patch_fold_lookup (payload : gmap string jsval) (fields : list string)
    (data : gmap string jsval) (k : string) :
  foldl (fun data k =>
           if bool_decide (is_Some (payload !! k))
           then <[k := sanitize_value k (get payload k)]> data
           else data) data fields !! k =
  if bool_decide (k ∈ fields) then
    match payload !! k with
    | Some v => Some (sanitize_value k v)
    | None => data !! k
    end
  else data !! k.
Proof.
  revert data. induction fields as [|x fields IH]; intros data; [done|].
  simpl. rewrite IH. clear IH.
  destruct (decide (k = x)) as [->|Hne].
  - rewrite (bool_decide_eq_true_2 (x ∈ x :: fields)) by (by left).
    unfold get. destruct (payload !! x) eqn:Hg; simpl.
    + rewrite lookup_insert_eq. by case_bool_decide.
    + by case_bool_decide.
  - assert (Hmem : bool_decide (k ∈ x :: fields) = bool_decide (k ∈ fields)).
    { apply bool_decide_ext. rewrite elem_of_cons. tauto. }
    rewrite Hmem.
    destruct (bool_decide (is_Some (payload !! x)));
      rewrite ?lookup_insert_ne by done; done.
Qed.

(** The boolean field goes by the trimmed, lower-cased text of the value. *)
Lemma sanitize_auto_renew v :
  sanitize_value "auto_renew" v =
  let s := toLowerCase (trim (String_ v)) in
  if bool_decide (s ∈ ["true"; "1"; "yes"; "y"; "on"]) then JBool true
  else if bool_decide (s ∈ ["false"; "0"; "no"; "n"; "off"]) then JBool false
  else JNull.
Proof.
  unfold sanitize_value, coerceBoolean. simpl.
  destruct v as [| |[|]|n|s]; try reflexivity.
  - simpl. repeat case_bool_decide; reflexivity.
  - destruct s as [|a s]; [reflexivity|]. simpl.
    repeat case_bool_decide; reflexivity.
Qed.

Lemma integer_field_not_boolean k :
  integer_field k = true -> String.eqb k "auto_renew" = false.
Proof.
  unfold integer_field. intros Hk.
  repeat (apply orb_prop in Hk; destruct Hk as [Hk|Hk]);
    apply String.eqb_eq in Hk; subst; reflexivity.
Qed.

(** An integer field holds the truncated number, or null. *)
Lemma sanitize_integer k v :
  integer_field k = true ->
  sanitize_value k v =
  if nullish v || is_empty_string v then JNull
  else if isFinite (Number v) then JNum (Math_trunc (Number v))
  else JNull.
Proof.
  intros Hk. unfold sanitize_value, coerceInteger.
  rewrite (integer_field_not_boolean k Hk), Hk.
  destruct (nullish v || is_empty_string v); [reflexivity|].
  destruct (isFinite (Number v)); reflexivity.
Qed.

(** A text in any other field is trimmed, and null when nothing is left. *)
Lemma sanitize_text k s :
  String.eqb k "auto_renew" = false ->
  integer_field k = false ->
  sanitize_value k (JStr s) =
  if String.eqb (trim s) "" then JNull else JStr (trim s).
Proof.
  intros Hb Hi. unfold sanitize_value. rewrite Hb, Hi. reflexivity.
Qed.

Lemma sanitize_null k : sanitize_value k JNull = JNull.
Proof.
  unfold sanitize_value.
  destruct (String.eqb k "auto_renew"), (integer_field k); reflexivity.
Qed.

(** C7. Sanitization of a contract payload.
    - Create: a whitelisted field whose value is undefined in the payload
      is not in the result; one that has a value is in the result with the
      sanitized value.
    - Patch: a whitelisted field is in the result exactly when its key is
      in the payload, with the sanitized value; an explicit null is kept
      as null.
    - A key that is not whitelisted is in neither result.
    - The sanitized value of auto_renew is true for true/1/yes/y/on, false
      for false/0/no/n/off (trimmed, case-insensitive), null for anything
      else; that of an integer field is the truncated number, null when the
      value is null, empty or not a finite number; a text elsewhere is
      trimmed, and null when empty. *)
Theorem sanitize_payload payload k :
  (k ∈ FIELDS -> get payload k = JUndefined ->
     sanitizeCreatePayload payload !! k = None) /\
  (k ∈ FIELDS -> get payload k <> JUndefined ->
     sanitizeCreatePayload payload !! k
       = Some (sanitize_value k (get payload k))) /\
  (k ∈ FIELDS ->
     sanitizePatchPayload payload !! k = sanitize_value k <$> payload !! k) /\
  (k ∈ FIELDS -> payload !! k = Some JNull ->
     sanitizePatchPayload payload !! k = Some JNull) /\
  (k ∉ FIELDS ->
     sanitizeCreatePayload payload !! k = None /\
     sanitizePatchPayload payload !! k = None) /\
  (forall v,
     sanitize_value "auto_renew" v =
       let s := toLowerCase (trim (String_ v)) in
       if bool_decide (s ∈ ["true"; "1"; "yes"; "y"; "on"]) then JBool true
       else if bool_decide (s ∈ ["false"; "0"; "no"; "n"; "off"])
            then JBool false
       else JNull) /\
  (forall v,
     k ∈ ["renewal_term_months"; "termination_notice_days";
          "department_id"; "status_id"] ->
     sanitize_value k v =
       if nullish v || is_empty_string v then JNull
       else if isFinite (Number v) then JNum (Math_trunc (Number v))
       else JNull) /\
  (forall s,
     k ∉ ["auto_renew"; "renewal_term_months"; "termination_notice_days";
          "department_id"; "status_id"] ->
     sanitize_value k (JStr s) =
       if String.eqb (trim s) "" then JNull else JStr (trim s)).
Proof.
  unfold sanitizeCreatePayload, sanitizePatchPayload.
  rewrite create_fold_lookup, patch_fold_lookup.
  split; [|split; [|split; [|split; [|split; [|split; [|split]]]]]].
  - intros Hk Hu. rewrite bool_decide_eq_true_2 by done. by rewrite Hu.
  - intros Hk Hu. rewrite bool_decide_eq_true_2 by done.
    by destruct (get payload k).
  - intros Hk. rewrite bool_decide_eq_true_2 by done.
    by destruct (payload !! k).
  - intros Hk Hn. rewrite bool_decide_eq_true_2 by done.
    rewrite Hn. by rewrite sanitize_null.
  - intros Hk. by rewrite !bool_decide_eq_false_2 by done.
  - apply sanitize_auto_renew.
  - intros v Hk. apply sanitize_integer.
    rewrite !elem_of_cons in Hk.
    destruct Hk as [->|[->|[->|[->|Hk]]]]; try reflexivity.
    by apply elem_of_nil in Hk.
  - intros s Hk. rewrite !not_elem_of_cons in Hk.
    destruct Hk as (Hb & H1 & H2 & H3 & H4 & _).
    apply sanitize_text.
    + by apply String.eqb_neq.
    + unfold integer_field.
      apply String.eqb_neq in H1, H2, H3, H4. by rewrite H1, H2, H3, H4.
Qed.

(** ** Name resolution *)

(** A text that comes out of sanitization is trimmed and not empty. *)
Lemma sanitize_value_text k v n :
  sanitize_value k v = JStr n -> trim n = n /\ n <> "".
Proof.
  unfold sanitize_value.
  destruct (if integer_field k then _ else _) as [| | | |s]; simpl;
    try discriminate.
  destruct (String.eqb (trim s) "") eqn:He; [discriminate|].
  intros [= <-]. split; [apply trim_idem | by apply String.eqb_neq].
Qed.

Lemma sanitized_text payload data k n :
  data = sanitizeCreatePayload payload \/ data = sanitizePatchPayload payload ->
  get data k = JStr n ->
  trim n = n /\ n <> "".
Proof.
  unfold get, sanitizeCreatePayload, sanitizePatchPayload.
  intros [-> | ->]; rewrite ?create_fold_lookup, ?patch_fold_lookup;
    case_bool_decide; rewrite ?lookup_empty; simpl; try discriminate.
  - destruct (get payload k); simpl; try discriminate;
      apply sanitize_value_text.
  - destruct (payload !! k); simpl; try discriminate.
    apply sanitize_value_text.
Qed.

(** The rows a case-insensitive lookup selects from. *)
Lemma select_id_by_name_Some rows n id ids :
  select_id_by_name rows n = id :: ids ->
  exists r, r ∈ rows /\ row_id r = id /\
            sql_lower (row_name r) = sql_lower n.
Proof.
  unfold select_id_by_name.
  induction rows as [|r rows IH]; [done|].
  rewrite filter_cons. destruct (decide _) as [Hr|Hr].
  - simpl. rewrite take_0. intros [= <- <-]. exists r. split; [by left|done].
  - intros Hs. destruct (IH Hs) as (r' & Hin & Hid & Hn).
    exists r'. split; [by right|done].
Qed.

Lemma select_id_by_name_None rows n :
  select_id_by_name rows n = [] ->
  forall r, r ∈ rows -> sql_lower (row_name r) <> sql_lower n.
Proof.
  unfold select_id_by_name.
  induction rows as [|r rows IH]; intros Hs r' Hin.
  - by apply elem_of_nil in Hin.
  - rewrite filter_cons in Hs. destruct (decide _) as [Hr|Hr].
    + simpl in Hs. discriminate.
    + apply elem_of_cons in Hin as [-> | Hin]; [done|]. by apply IH.
Qed.

(** One pair, on a store that does not fail. *)
Lemma resolve_pair_quiet s table id_key name_key data w :
  quiet w = true ->
  exists resolved w',
    resolve_pair s table id_key name_key data w = (Ok resolved, w') /\
    db w' = db w /\ quiet w' = true /\
    (forall k, k <> id_key -> resolved !! k = data !! k) /\
    (nullish (get data id_key) = false -> resolved = data) /\
    (forall n, nullish (get data id_key) = true ->
               get data name_key = JStr n -> trim n = n -> n <> "" ->
               match select_id_by_name (table (db w)) n with
               | id :: _ => resolved = <[id_key := JNum (of_Z id)]> data
               | [] => resolved = data
               end).
Proof.
  destruct w as [d t l fs tr]. unfold quiet. simpl. intros Hq.
  unfold resolve_pair.
  destruct (get data name_key) as [| | | |n] eqn:Hname;
    try (exists data; eexists; repeat split; done).
  destruct (nullish (get data id_key)) eqn:Hid; simpl;
    [|exists data; eexists; repeat split; done].
  destruct (String.eqb (trim n) "") eqn:Hblank; simpl.
  { exists data; eexists; repeat split; try done.
    intros n' _ [= <-] Htrim Hne. rewrite Htrim in Hblank.
    apply String.eqb_eq in Hblank. done. }
  unfold pool_query, mbind, M_bind, mret, M_ret, next_fault, record_event,
    set_db. simpl.
  rewrite (quiet_hd fs Hq). simpl.
  destruct (select_id_by_name (table d) (trim n)) as [|id ids] eqn:Hsel.
  - exists data; eexists; repeat split; try done.
    + simpl. by apply quiet_tail.
    + intros n' _ [= <-] Htrim _. rewrite Htrim in Hsel. by rewrite Hsel.
  - eexists; eexists; repeat split; try done.
    + simpl. by apply quiet_tail.
    + intros k Hk. by rewrite lookup_insert_ne.
    + intros n' _ [= <-] Htrim _. rewrite Htrim in Hsel. by rewrite Hsel.
Qed.

(** C8, as the code has it. Name resolution on the sanitized payload of a
    create or a patch, on a store that does not fail. The call returns,
    without an error and without writing to the store, a record in which,
    for the department
    pair and for the status pair alike:
    - an id that is present is kept and the name is not looked up;
    - with the id null or absent and a name (a text, which sanitization
      has made non-empty), the id of the row of the lookup table whose name
      equals it up to case is stored under the id field;
    - when no row has that name, the id field stays as it was, null or
      absent, and nothing is rejected.
    Every field other than the two ids, the names included, is the same in
    the result as in the record given: a name stays in the record whether
    it resolved or not. *)
Theorem resolve_ids_from_names payload data w :
  data = sanitizeCreatePayload payload \/ data = sanitizePatchPayload payload ->
  quiet w = true ->
  exists resolved w',
    resolveIdsFromNames data w = (Ok resolved, w') /\
    db w' = db w /\
    (forall k, k <> "department_id" -> k <> "status_id" ->
               resolved !! k = data !! k) /\
    resolution (t_department (db w)) "department_id" "department"
      data resolved /\
    resolution (t_status (db w)) "status_id" "status" data resolved.
Proof.
  intros Hdata Hq. unfold resolveIdsFromNames.
  destruct (resolve_pair_quiet SelectDepartmentByName t_department
              "department_id" "department" data w Hq)
    as (r1 & w1 & Hrun1 & Hdb1 & Hq1 & Hother1 & Hkept1 & Hfound1).
  destruct (resolve_pair_quiet SelectStatusByName t_status
              "status_id" "status" r1 w1 Hq1)
    as (r2 & w2 & Hrun2 & Hdb2 & Hq2 & Hother2 & Hkept2 & Hfound2).
  exists r2, w2.
  assert (Hsid : get r1 "status_id" = get data "status_id").
  { unfold get. by rewrite Hother1. }
  assert (Hsname : get r1 "status" = get data "status").
  { unfold get. by rewrite Hother1. }
  split; [|split; [|split; [|split]]].
  - unfold mbind, M_bind. by rewrite Hrun1.
  - congruence.
  - intros k Hk1 Hk2. rewrite Hother2, Hother1; done.
  - split.
    + intros Hid. rewrite Hother2 by done. by rewrite Hkept1.
    + intros n Hid Hname. rewrite Hother2 by done.
      destruct (sanitized_text payload data "department" n Hdata Hname)
        as [Htrim Hne].
      specialize (Hfound1 n Hid Hname Htrim Hne).
      destruct (select_id_by_name (t_department (db w)) n).
      * by rewrite Hfound1.
      * rewrite Hfound1. by rewrite lookup_insert_eq.
  - rewrite Hsid, Hsname, Hdb1 in *. split.
    + intros Hid. rewrite Hkept2 by done. by rewrite Hother1.
    + intros n Hid Hname.
      destruct (sanitized_text payload data "status" n Hdata Hname)
        as [Htrim Hne].
      specialize (Hfound2 n Hid Hname Htrim Hne).
      destruct (select_id_by_name (t_status (db w)) n).
      * rewrite Hfound2. by rewrite Hother1.
      * rewrite Hfound2. by rewrite lookup_insert_eq.
Qed.

End ContractProperties.

(* ===================================================================== *)
(** * The exempt paths *)
(* ===================================================================== *)

Section StringFacts.

Lemma append_String a s t : String a s +:+ t = String a (s +:+ t).
Proof. reflexivity. Qed.

Lemma append_empty_l t : "" +:+ t = t.
Proof. reflexivity. Qed.

Lemma append_empty_r s : s +:+ "" = s.
Proof. induction s as [|a s IH]; [done|]. by rewrite append_String, IH. Qed.

Lemma append_assoc s t u : (s +:+ t) +:+ u = s +:+ (t +:+ u).
Proof. induction s as [|a s IH]; [done|]. by rewrite !append_String, IH. Qed.

Lemma strlen_append s t : strlen (s +:+ t) = (strlen s + strlen t)%nat.
Proof. induction s as [|a s IH]; [done|]. rewrite append_String. simpl. by rewrite IH. Qed.

Lemma slice_append s t : slice (strlen s) (s +:+ t) = t.
Proof. induction s as [|a s IH]; [by destruct t|]. by rewrite append_String. Qed.

Lemma endsWith_append s t : endsWith (s +:+ t) t = true.
Proof.
  unfold endsWith. rewrite strlen_append.
  replace (strlen s + strlen t - strlen t)%nat with (strlen s) by lia.
  rewrite slice_append, String.eqb_refl.
  rewrite andb_true_r. apply Nat.leb_le. lia.
Qed.

Lemma charAt_append s c t : charAt (strlen s) (s +:+ String c t) = String c "".
Proof. induction s as [|a s IH]; [done|]. by rewrite append_String. Qed.

Lemma charAt_inv i s c :
  charAt i s = String c "" ->
  exists a b, s = a +:+ String c b /\ strlen a = i.
Proof.
  revert i. induction s as [|x s IH]; intros i; [by destruct i|].
  destruct i as [|i]; simpl.
  - intros [= ->]. by exists "", s.
  - intros Hc. destruct (IH i Hc) as (a & b & -> & Hl).
    exists (String x a), b. simpl. by rewrite Hl.
Qed.

Lemma append_inj_length s1 t1 s2 t2 :
  s1 +:+ t1 = s2 +:+ t2 -> strlen s1 = strlen s2 -> s1 = s2 /\ t1 = t2.
Proof.
  revert s2. induction s1 as [|a s1 IH]; intros [|b s2]; simpl; try done.
  rewrite !append_String. intros [= -> Heq] [= Hl].
  destruct (IH s2 Heq Hl) as [-> ->]. done.
Qed.


(** The suffix test of one exempt path. *)
Lemma suffix_test_iff normalized exempt :
  (strlen exempt <? strlen normalized)%nat &&
  endsWith normalized exempt &&
  String.eqb (charAt (strlen normalized - strlen exempt - 1) normalized) "/"
  = true <->
  exists before, normalized = before +:+ "/" +:+ exempt.
Proof.
  split.
  - intros Ht. apply andb_prop in Ht as [Ht Hc].
    apply andb_prop in Ht as [Hlen He].
    apply Nat.ltb_lt in Hlen. apply String.eqb_eq in Hc.
    apply endsWith_suffix in He as [pre Hpre].
    apply charAt_inv in Hc as (a & b & Hab & Hla).
    assert (Hl : strlen normalized = (strlen pre + strlen exempt)%nat).
    { rewrite Hpre at 1. apply strlen_append. }
    exists a.
    assert (Heq : (a +:+ "/") +:+ b = pre +:+ exempt).
    { rewrite append_assoc. change ("/" +:+ b) with (String "/" b).
      congruence. }
    apply append_inj_length in Heq as [Hp Hb].
    + rewrite Hpre, <- Hp. by rewrite append_assoc.
    + rewrite strlen_append. simpl. lia.
  - intros [before ->].
    rewrite <- append_assoc.
    rewrite endsWith_append, strlen_append.
    replace (strlen (before +:+ "/") + strlen exempt - strlen exempt - 1)%nat
      with (strlen before) by (rewrite strlen_append; simpl; lia).
    rewrite append_assoc. change ("/" +:+ exempt) with (String "/" exempt).
    rewrite charAt_append.
    rewrite andb_true_r. simpl. rewrite andb_true_r.
    apply Nat.ltb_lt. rewrite strlen_append. simpl. lia.
Qed.

(** X1. A path is exempt from the session check exactly when it is not
    empty and, once its trailing slashes are removed (a path of one
    character is kept as it is), it is [/auth/login] or [/auth/logout], or
    it is some text, then a slash, then one of the two: the character
    before the exempt path, which itself starts with a slash, has to be a
    slash too. So [/api//auth/login] is exempt and [/api/auth/login] is
    not. *)
Theorem isAuthExemptPath_iff pathname :
  isAuthExemptPath pathname = true <->
  pathname <> "" /\
  exists exempt, exempt ∈ ["/auth/login"; "/auth/logout"] /\
    (normalized_path pathname = exempt \/
     exists before, normalized_path pathname = before +:+ "/" +:+ exempt).
Proof.
  unfold isAuthExemptPath. fold (normalized_path pathname).
  destruct (String.eqb pathname "") eqn:He.
  { apply String.eqb_eq in He. split; [done|]. by intros [? _]. }
  apply String.eqb_neq in He.
  set (n := normalized_path pathname).
  case_bool_decide as Hin.
  - split; [|done]. intros _. split; [done|]. exists n. eauto.
  - rewrite existsb_exists. split.
    + intros (exempt & Hex & Ht). split; [done|].
      exists exempt. split; [by apply list_elem_of_In|].
      right. by apply suffix_test_iff.
    + intros (_ & exempt & Hex & [Heq | Hb]).
      * exfalso. apply Hin. by rewrite Heq.
      * exists exempt. split; [by apply list_elem_of_In|].
        by apply suffix_test_iff.
Qed.

Lemma stripTrailingSlashes_slash s :
  stripTrailingSlashes (s +:+ "/") = stripTrailingSlashes s.
Proof.
  induction s as [|a s IH]; [done|].
  rewrite append_String. simpl. by rewrite IH.
Qed.

(** A path of fewer than eleven characters is not exempt. *)
Lemma short_not_exempt pathname :
  (strlen (normalized_path pathname) < 11)%nat ->
  isAuthExemptPath pathname = false.
Proof.
  intros Hl. unfold isAuthExemptPath. fold (normalized_path pathname).
  destruct (String.eqb pathname ""); [done|].
  case_bool_decide as Hin.
  - unfold AUTH_EXEMPT_PATHS in Hin. rewrite !elem_of_cons in Hin.
    destruct Hin as [Hn | [Hn | Hn]];
      [rewrite Hn in Hl; simpl in Hl; lia ..|by apply elem_of_nil in Hn].
  - apply not_true_is_false. rewrite existsb_exists.
    intros (exempt & Hex & Ht).
    apply andb_prop in Ht as [Ht _]. apply andb_prop in Ht as [Ht _].
    apply Nat.ltb_lt in Ht.
    destruct Hex as [<- | [<- | []]]; simpl in Ht; lia.
Qed.

(** X2. One more trailing slash never changes whether a path is exempt. *)
Theorem isAuthExemptPath_trailing_slash pathname :
  isAuthExemptPath (pathname +:+ "/") = isAuthExemptPath pathname.
Proof.
  destruct pathname as [|a [|b s]].
  - reflexivity.
  - rewrite !short_not_exempt; [done | | ].
    + unfold normalized_path. simpl. lia.
    + unfold normalized_path. simpl.
      destruct (Ascii.eqb a "/"); simpl; lia.
  - assert (Hn : normalized_path (String a (String b s) +:+ "/")
                 = normalized_path (String a (String b s))).
    { unfold normalized_path. rewrite strlen_append. simpl.
      apply (stripTrailingSlashes_slash (String a (String b s))). }
    unfold isAuthExemptPath. fold (normalized_path (String a (String b s) +:+ "/")).
    fold (normalized_path (String a (String b s))).
    rewrite Hn. reflexivity.
Qed.

End StringFacts.

(* ===================================================================== *)
(** * The session cookie *)
(* ===================================================================== *)

Section CookieFacts.
Context {P : Platform}.

Lemma split_free c s : free_of c s = true -> split c s = [s].
Proof.
  induction s as [|a s IH]; [done|]. simpl.
  intros Hf. apply andb_prop in Hf as [Ha Hs].
  apply negb_true_iff in Ha. rewrite Ha, (IH Hs). done.
Qed.

Lemma split_nonempty c s : split c s <> [].
Proof.
  induction s as [|a s IH]; [done|]. simpl.
  destruct (Ascii.eqb a c); [done|]. by destruct (split c s).
Qed.

(** Splitting at the separator that follows a text free of it. *)
Lemma split_append c s t :
  free_of c s = true -> split c (s +:+ String c t) = s :: split c t.
Proof.
  induction s as [|a s IH]; simpl.
  - intros _. change (split c (String c t) = "" :: split c t).
    simpl. by rewrite Ascii.eqb_refl.
  - intros Hf. apply andb_prop in Hf as [Ha Hs].
    apply negb_true_iff in Ha.
    rewrite Ha, (IH Hs). done.
Qed.

(** Splitting at any separator: the pieces of the two sides. *)
Lemma split_app c s t :
  split c (s +:+ String c t) = split c s ++ split c t.
Proof.
  induction s as [|a s IH].
  - change (split c (String c t) = "" :: split c t).
    simpl. by rewrite Ascii.eqb_refl.
  - rewrite append_String. simpl.
    destruct (Ascii.eqb a c); [by rewrite IH|].
    rewrite IH. pose proof (split_nonempty c s).
    by destruct (split c s).
Qed.

(** Joining what was split gives the text back. *)
Lemma join_split c s : join (String c "") (split c s) = s.
Proof.
  induction s as [|a s IH]; [done|]. simpl.
  destruct (Ascii.eqb a c) eqn:Ha.
  - apply Ascii.eqb_eq in Ha as ->.
    pose proof (split_nonempty c s) as Hne.
    simpl. destruct (split c s) as [|h t] eqn:Hs; [done|].
    change (join (String c "") ("" :: h :: t)) with
      ("" +:+ String c "" +:+ join (String c "") (h :: t)).
    rewrite IH. reflexivity.
  - pose proof (split_nonempty c s) as Hne.
    destruct (split c s) as [|h t] eqn:Hs; [done|].
    destruct t as [|h' t].
    + simpl in *. by rewrite IH.
    + change (join (String c "") (String a h :: h' :: t)) with
        (String a h +:+ String c "" +:+ join (String c "") (h' :: t)).
      change (join (String c "") (h :: h' :: t)) with
        (h +:+ String c "" +:+ join (String c "") (h' :: t)) in IH.
      rewrite append_String. by rewrite IH.
Qed.

Lemma trimEnd_no_space s : no_space s = true -> trimEnd s = s.
Proof.
  induction s as [|a s IH]; [done|]. simpl.
  intros Hn. apply andb_prop in Hn as [Ha Hs].
  apply negb_true_iff in Ha. rewrite (IH Hs), Ha. by destruct s.
Qed.

Lemma trim_no_space s : no_space s = true -> trim s = s.
Proof.
  intros Hn. unfold trim.
  assert (Hs : trimStart s = s).
  { destruct s as [|a s]; [done|]. simpl in *.
    apply andb_prop in Hn as [Ha _]. apply negb_true_iff in Ha.
    by rewrite Ha. }
  rewrite Hs. by apply trimEnd_no_space.
Qed.

Lemma no_space_append s t :
  no_space (s +:+ t) = no_space s && no_space t.
Proof.
  induction s as [|a s IH]; [done|].
  rewrite append_String. simpl. by rewrite IH, andb_assoc.
Qed.

(** A text without a percent sign decodes to itself. *)
Lemma decodeURIComponent_plain s :
  free_of "%" s = true -> decodeURIComponent s = Ok (to_ustring s).
Proof.
  intros Hf. unfold decodeURIComponent, to_ustring.
  assert (Ht : tokenize s = Some (Lit <$> chars s)).
  { induction s as [|a s IH]; [done|]. simpl in *.
    apply andb_prop in Hf as [Ha Hs]. apply negb_true_iff in Ha.
    rewrite Ha, (IH Hs). done. }
  rewrite Ht.
  change (Some (Lit <$> chars s) ≫= utf8_units)
    with (utf8_units (Lit <$> chars s)).
  assert (Hu : forall cs, utf8_units (Lit <$> cs) = Some (code <$> cs)).
  { induction cs as [|c cs IH]; [done|].
    rewrite !fmap_cons. simpl. by rewrite IH. }
  by rewrite Hu.
Qed.


Lemma free_of_append c s t :
  free_of c (s +:+ t) = free_of c s && free_of c t.
Proof.
  induction s as [|a s IH]; [done|].
  rewrite append_String. simpl. by rewrite IH, andb_assoc.
Qed.

Lemma find_session_cookie_app l1 l2 :
  find_session_cookie (l1 ++ l2) =
  match find_session_cookie l1 with
  | Some raw => Some raw
  | None => find_session_cookie l2
  end.
Proof.
  induction l1 as [|c l1 IH]; [done|]. simpl.
  destruct (split "=" (trim c)) as [|key rest]; [exact IH|].
  destruct (String.eqb key SESSION_COOKIE_NAME); [done|exact IH].
Qed.

(** The one cookie [name=v] is found with the value [v]. *)
Lemma find_session_cookie_pair v :
  no_space SESSION_COOKIE_NAME = true ->
  free_of "=" SESSION_COOKIE_NAME = true ->
  no_space v = true ->
  find_session_cookie [SESSION_COOKIE_NAME +:+ "=" +:+ v] = Some v.
Proof.
  intros Hn He Hv.
  assert (Hp : no_space (SESSION_COOKIE_NAME +:+ "=" +:+ v) = true).
  { change ("=" +:+ v) with (String "=" v).
    rewrite no_space_append, Hn.
    change (no_space (String "=" v)) with (no_space v). exact Hv. }
  simpl. rewrite trim_no_space by exact Hp.
  change ("=" +:+ v) with (String "=" v).
  rewrite split_append by done.
  rewrite String.eqb_refl. f_equal. apply (join_split "=").
Qed.

(** X3. The session cookie round trip: when the cookie header is the pair
    [name=v] written by the login response, alone or after other cookies
    none of which has the session cookie's name, the session id read from
    the request is [v], whatever the other headers hold. The value has no
    white space, semicolon or percent sign (a UUID has none). *)
Theorem cookie_round_trip req h v :
  cookie_text SESSION_COOKIE_NAME = true ->
  free_of "=" SESSION_COOKIE_NAME = true ->
  cookie_text v = true ->
  free_of "%" v = true ->
  headers req !! "cookie" = Some h ->
  (h = SESSION_COOKIE_NAME +:+ "=" +:+ v \/
   exists others,
     find_session_cookie (split ";" others) = None /\
     h = others +:+ "; " +:+ SESSION_COOKIE_NAME +:+ "=" +:+ v) ->
  extractSessionId req = Ok (Some (to_ustring v)).
Proof.
  intros Hname Heq Hv Hpct Hh Hform.
  apply andb_prop in Hname as [Hns Hnsemi].
  apply andb_prop in Hv as [Hvs Hvsemi].
  set (pair := SESSION_COOKIE_NAME +:+ "=" +:+ v) in *.
  assert (Hpair_semi : free_of ";" pair = true).
  { unfold pair. change ("=" +:+ v) with (String "=" v).
    rewrite free_of_append, Hnsemi.
    change (free_of ";" (String "=" v)) with (free_of ";" v). exact Hvsemi. }
  assert (Hpair_space : no_space pair = true).
  { unfold pair. change ("=" +:+ v) with (String "=" v).
    rewrite no_space_append, Hns.
    change (no_space (String "=" v)) with (no_space v). exact Hvs. }
  assert (Hfind : find_session_cookie (split ";" h) = Some v).
  { destruct Hform as [-> | (others & Hnone & ->)].
    - rewrite split_free by done. by apply find_session_cookie_pair.
    - change ("; " +:+ pair) with (String ";" (" " +:+ pair)).
      rewrite split_app, find_session_cookie_app, Hnone.
      rewrite split_free
        by (change (" " +:+ pair) with (String " " pair); simpl; done).
      pose proof (find_session_cookie_pair v Hns Heq Hvs) as Hp.
      simpl in *. fold pair in Hp.
      change (trim (" " +:+ pair)) with (trim pair). exact Hp. }
  assert (Hne : h <> "").
  { intros ->. destruct Hform as [Hf | (others & _ & Hf)].
    - unfold pair in Hf. destruct SESSION_COOKIE_NAME; discriminate.
    - destruct others; discriminate. }
  unfold extractSessionId. rewrite Hh.
  apply String.eqb_neq in Hne. rewrite Hne. simpl. rewrite Hfind.
  by rewrite decodeURIComponent_plain.
Qed.

End CookieFacts.

(* ===================================================================== *)
(** * The gate, for every store *)
(* ===================================================================== *)

Section MoreGate.
Context {P : Platform}.

Ltac unfold_gate :=
  unfold gate, me, logout, fetchUserBySession, updateSessionActivity,
    try_catch, lift, mbind, M_bind, mret, M_ret, pool_query, pool_statement,
    next_fault, record_event, set_db.

Lemma same_but_last_seen_refl t : same_but_last_seen t t.
Proof. by repeat split. Qed.

Lemma same_but_last_seen_activity now sid t :
  same_but_last_seen t (update_session_activity now sid t).2.
Proof.
  repeat split. simpl. rewrite <- list_fmap_compose.
  apply list_fmap_ext. intros i s _. simpl.
  by destruct (decide (s_session_id s = sid)).
Qed.

(** X4. Whatever the request and whatever the store does (any fault
    schedule), the gate returns: it answers or calls [next()], it never
    throws. When it answers, the status is 401, 403 or 500. The only thing
    it may change in the tables is the last-seen time of sessions; it
    opens no transaction and leases no client. *)
Theorem gate_answers now req w :
  exists out w',
    gate now req w = (Ok out, w') /\
    (forall res, out = Responds res -> statusCode res ∈ [401; 403; 500]) /\
    same_but_last_seen (db w) (db w') /\
    tx w' = tx w /\ leased w' = leased w.
Proof.
  destruct w as [d t l fs tr]. unfold_gate. simpl.
  destruct (bool_decide (method req = OPTIONS) || isAuthExemptPath (path req)).
  { eexists _, _. split; [reflexivity|]. repeat split; try done.
    all: try apply same_but_last_seen_refl. }
  destruct (extractSessionId req) as [sessionId|e]; simpl.
  2: { eexists _, _. split; [reflexivity|]. repeat split; try done.
       intros res [= <-]. simpl. set_solver. }
  destruct (session_id_given sessionId) as [sid|]; simpl.
  2: { eexists _, _. split; [reflexivity|]. repeat split; try done.
       intros res [= <-]. simpl. set_solver. }
  destruct (hd false fs); simpl.
  { eexists _, _. split; [reflexivity|]. repeat split; try done.
    intros res [= <-]. simpl. set_solver. }
  destruct (take 1 _) as [|row rows]; simpl.
  { eexists _, _. split; [reflexivity|]. repeat split; try done.
    intros res [= <-]. simpl. set_solver. }
  destruct (hd false (tail fs)); simpl;
    (destruct (_ && _);
     (eexists _, _; split; [reflexivity|]; simpl; split; [|split; [|done]];
      [ intros res [= <-] || (intros res Heq; discriminate Heq); simpl; set_solver
      | first [apply same_but_last_seen_refl
              | apply (same_but_last_seen_activity now sid d)] ])).
Qed.

(** X5. A request that is not OPTIONS, on a path that is not exempt, whose
    session resolves to an account row that need not change its password
    (or whose path is allowed to such an account) goes on to its handler
    with that session and the normalised row as identity. A failure of
    the last-seen update does not stop it and leaves the tables as they
    were; when the update runs, every session row with that identifier
    has the current time as last-seen time. *)
Theorem gate_accepts now req w sid row :
  method req <> OPTIONS ->
  isAuthExemptPath (path req) = false ->
  extractSessionId req = Ok (Some sid) ->
  sid <> [] ->
  hd false (faults w) = false ->
  head (select_account_by_session sid (db w)).1 = Some row ->
  (ua_password_must_change row = Some true ->
   path req ∈ allowedWhenMustChange) ->
  exists w',
    gate now req w = (Ok (Next (Some (sid, normalizeUserRow row))), w') /\
    (hd false (tail (faults w)) = true -> db w' = db w) /\
    (hd false (tail (faults w)) = false ->
     forall s, s ∈ t_user_session (db w') ->
               s_session_id s = sid -> s_last_seen_at s = now).
Proof.
  destruct w as [d t l fs tr]. simpl.
  intros Hm Hp Hx Hsid Hf Hrow Hflag.
  unfold_gate. simpl.
  rewrite bool_decide_eq_false_2, Hp, Hx by done. simpl.
  destruct sid as [|c sid]; [done|]. simpl. rewrite Hf. simpl.
  destruct (take 1 _) as [|row' rows] eqn:Hrows; simpl in Hrow; [done|].
  injection Hrow as ->. simpl.
  assert (password_must_change (normalizeUserRow row)
          && negb (bool_decide (path req ∈ allowedWhenMustChange)) = false)
    as Hgo.
  { unfold normalizeUserRow. simpl.
    destruct (ua_password_must_change row) as [[|]|]; simpl; try done.
    rewrite bool_decide_eq_true_2; [done|]. by apply Hflag. }
  simpl in Hgo.
  destruct (hd false (tail fs)) eqn:Hact; simpl; rewrite Hgo;
    eexists; (split; [reflexivity|]); simpl; split; try done.
  intros _ s Hin Hs. apply list_elem_of_fmap in Hin as (s0 & -> & _).
  destruct (decide (s_session_id s0 = c :: sid)) as [|Hne]; [done|].
  by destruct Hne.
Qed.

End MoreGate.

(* ===================================================================== *)
(** * The life of a session *)
(* ===================================================================== *)

Section SessionLife.
Context {P : Platform}.

Ltac unfold_route :=
  unfold gate, me, logout, fetchUserBySession, updateSessionActivity,
    try_catch, lift, mbind, M_bind, mret, M_ret, pool_query, pool_statement,
    next_fault, record_event, set_db.

(** The join of one session row with the accounts. *)
Lemma join_accounts (sid : ustring) uid (accounts : list user_account) :
  (ua ← accounts;
   if decide (ua_user_id ua = uid /\ sid = sid) then [ua] else [])
  = filter (fun ua => ua_user_id ua = uid) accounts.
Proof.
  induction accounts as [|ua accounts IH]; [done|].
  rewrite bind_cons, IH, filter_cons.
  destruct (decide (ua_user_id ua = uid)) as [Hid|Hid].
  - rewrite decide_True by done. done.
  - rewrite decide_False by tauto. done.
Qed.

(** No session row with the identifier: the join is empty. *)
Lemma join_no_session (sid : ustring) (sessions : list user_session)
    (accounts : list user_account) :
  (forall s, s ∈ sessions -> s_session_id s <> sid) ->
  (s ← sessions;
   ua ← accounts;
   if decide (ua_user_id ua = s_user_id s /\ s_session_id s = sid)
   then [ua] else []) = [].
Proof.
  induction sessions as [|s sessions IH]; intros Hno; [done|].
  rewrite bind_cons, IH by (intros s' Hin; apply Hno; by right).
  rewrite app_nil_r.
  assert (s_session_id s <> sid) as Hs by (apply Hno; by left).
  clear -Hs. induction accounts as [|ua accounts IH]; [done|].
  rewrite bind_cons, IH, decide_False by tauto. done.
Qed.

Lemma select_account_by_session_unknown sid t :
  (forall s, s ∈ t_user_session t -> s_session_id s <> sid) ->
  (select_account_by_session sid t).1 = [].
Proof.
  intros Hno. unfold select_account_by_session. simpl.
  by rewrite join_no_session.
Qed.

(** An account row that is the only one with its identifier. *)
Lemma filter_key (user : user_account) (f : user_account -> user_account)
    (accounts : list user_account) :
  user ∈ accounts ->
  (forall ua, ua ∈ accounts -> ua_user_id ua = ua_user_id user -> ua = user) ->
  (forall ua, ua_user_id (f ua) = ua_user_id ua) ->
  head (filter (fun ua => ua_user_id ua = ua_user_id user) (f <$> accounts))
  = Some (f user).
Proof.
  intros Hin Hkey Hf.
  induction accounts as [|ua accounts IH]; [by apply elem_of_nil in Hin|].
  rewrite fmap_cons, filter_cons.
  destruct (decide (ua_user_id (f ua) = ua_user_id user)) as [Hid|Hid].
  - rewrite Hf in Hid. rewrite (Hkey ua) by (done || by left). done.
  - apply elem_of_cons in Hin as [->|Hin]; [by rewrite Hf in Hid|].
    apply IH; [done|]. intros ua' Hin'. apply Hkey. by right.
Qed.

Lemma select_after_login now uuid user t :
  user ∈ t_user_account t ->
  (forall ua, ua ∈ t_user_account t ->
              ua_user_id ua = ua_user_id user -> ua = user) ->
  (forall s, s ∈ t_user_session t -> s_session_id s <> uuid) ->
  head (select_account_by_session uuid
          (login_effect now uuid (ua_user_id user) t)).1
  = Some (promote now user).
Proof.
  intros Hin Hkey Hfresh.
  unfold select_account_by_session, login_effect. simpl.
  rewrite head_take_1, bind_app, join_no_session by done. simpl.
  rewrite app_nil_r, join_accounts.
  rewrite (filter_key user
             (fun ua => if decide (ua_user_id ua = ua_user_id user)
                        then promote now ua else ua)); try done.
  - by rewrite decide_True.
  - intros ua. by destruct (decide _).
Qed.

Lemma matching_account_elem req t user :
  matching_account req t = Some user -> user ∈ t_user_account t.
Proof.
  unfold matching_account, select_account_by_credentials. simpl.
  rewrite head_take_1. intros Hh.
  apply head_Some_elem_of in Hh. by apply list_elem_of_filter in Hh as [_ ?].
Qed.

(** X6. Login, then [/auth/me] with the new session: when the store does
    not fail, the matching account is pending or active and is the only
    row with its user id, and the new session identifier is not in use,
    login answers 200 with the account row as it was selected, before the
    update; [/auth/me] with the new session then answers 200 with the
    updated row: last login at the time of the login and a pending status
    turned active. *)
Theorem me_after_login uuid now req w user req' w1 :
  truthy (get (body req) "username") = true ->
  truthy (get (body req) "password") = true ->
  tx w = None ->
  quiet w = true ->
  matching_account req (db w) = Some user ->
  normalizedStatus user ∈ ["pending"; "active"] ->
  (forall ua, ua ∈ t_user_account (db w) ->
              ua_user_id ua = ua_user_id user -> ua = user) ->
  (forall s, s ∈ t_user_session (db w) -> s_session_id s <> uuid) ->
  uuid <> [] ->
  extractSessionId req' = Ok (Some uuid) ->
  db w1 = db (login uuid now req w).2 ->
  hd false (faults w1) = false ->
  (login uuid now req w).1 =
    Ok (setSessionCookie
          (respond 200 (LoginBody uuid (normalizeUserRow user))) uuid) /\
  (me req' w1).1 =
    Ok (respond 200 (UserBody (normalizeUserRow (promote now user)))).
Proof.
  intros Hu Hp Htx Hq Hm Hst Hkey Hfresh Hne Hx Hdb Hf.
  pose proof (login_quiet uuid now req w Hu Hp Htx Hq) as Hlogin.
  rewrite Hm in Hlogin.
  assert (negb (bool_decide (normalizedStatus user ∈ USER_STATUSES))
          || String.eqb (normalizedStatus user) "inactive" = false) as Hok.
  { unfold USER_STATUSES.
    rewrite !elem_of_cons in Hst. destruct Hst as [-> | [-> | Hst]]; try done.
    by apply elem_of_nil in Hst. }
  rewrite Hok in Hlogin. destruct Hlogin as [Hres Heff].
  split; [done|].
  rewrite Heff in Hdb.
  pose proof (select_after_login now uuid user (db w)
                (matching_account_elem _ _ _ Hm) Hkey Hfresh) as Hsel.
  rewrite <- Hdb in Hsel.
  destruct w1 as [d1 t1 l1 fs1 tr1]. simpl in *.
  unfold_route. simpl. rewrite Hx. simpl.
  destruct uuid as [|c uuid]; [done|]. simpl. rewrite Hf. simpl.
  unfold select_account_by_session in Hsel. simpl in Hsel.
  destruct (take 1 _) as [|row rows]; simpl in Hsel; [done|].
  by injection Hsel as ->.
Qed.

(** Deleting a session leaves the join for every other identifier as it
    was. *)
Lemma join_delete_other (sid sid' : ustring) (sessions : list user_session)
    (accounts : list user_account) :
  sid' <> sid ->
  (s ← filter (fun s => s_session_id s ≠ sid) sessions;
   ua ← accounts;
   if decide (ua_user_id ua = s_user_id s /\ s_session_id s = sid')
   then [ua] else [])
  = (s ← sessions;
     ua ← accounts;
     if decide (ua_user_id ua = s_user_id s /\ s_session_id s = sid')
     then [ua] else []).
Proof.
  intros Hne. induction sessions as [|s sessions IH]; [done|].
  rewrite filter_cons, bind_cons.
  destruct (decide (s_session_id s ≠ sid)) as [Hs|Hs].
  - by rewrite bind_cons, IH.
  - rewrite IH. apply dec_stable in Hs.
    assert (forall s', s' ∈ [s] -> s_session_id s' <> sid') as Hno.
    { intros s' Hin. apply list_elem_of_singleton in Hin as ->. congruence. }
    apply (join_no_session sid' [s] accounts) in Hno.
    rewrite bind_cons in Hno. simpl in Hno. rewrite app_nil_r in Hno.
    by rewrite Hno.
Qed.

(** X7. Logout, then a request with the same session: when the store does
    not fail, logout answers 204 with the cookie cleared; afterwards the
    gate answers a request carrying that session 401 "Not authenticated",
    and so does [/auth/me]; every other session resolves as before. *)
Theorem session_ends_at_logout now req w sid req' w1 :
  extractSessionId req = Ok (Some sid) ->
  sid <> [] ->
  hd false (faults w) = false ->
  method req' <> OPTIONS ->
  isAuthExemptPath (path req') = false ->
  extractSessionId req' = Ok (Some sid) ->
  db w1 = db (logout req w).2 ->
  hd false (faults w1) = false ->
  (logout req w).1 = Ok (clearSessionCookie (respond 204 NoBody)) /\
  (gate now req' w1).1 = Ok (Responds not_authenticated) /\
  (me req' w1).1 = Ok not_authenticated /\
  forall sid', sid' <> sid ->
    (select_account_by_session sid' (db w1)).1 =
    (select_account_by_session sid' (db w)).1.
Proof.
  intros Hx Hne Hf Hm Hp Hx' Hdb Hf1.
  destruct w as [d t l fs tr], w1 as [d1 t1 l1 fs1 tr1]. simpl in *.
  revert Hdb. unfold_route. simpl. rewrite Hx, Hx'. simpl.
  destruct sid as [|c sid]; [done|]. simpl. rewrite Hf. simpl.
  intros ->.
  rewrite bool_decide_eq_false_2, Hp by done. simpl.
  rewrite join_no_session.
  2: { intros s Hin. by apply list_elem_of_filter in Hin as [? _]. }
  simpl. rewrite Hf1. simpl. do 3 (split; [done|]).
  intros sid' Hsid'. by rewrite join_delete_other.
Qed.

End SessionLife.

(* ===================================================================== *)
(** * Changing the password *)
(* ===================================================================== *)

Section PasswordChange.
Context {P : Platform}.
Variable store_password_hash : string -> string.

Ltac unfold_route :=
  unfold gate, me, change_password, logout, fetchUserBySession,
    updateSessionActivity,
    try_catch, lift, mbind, M_bind, mret, M_ret, pool_query, pool_statement,
    next_fault, record_event, set_db.

Ltac fault_case :=
  lazymatch goal with
  | |- context [if hd false ?l then _ else _] =>
      destruct (hd false l) eqn:?; simpl
  end.

(** X8. The change-password handler returns for every request and every
    fault schedule, with status 204, 400, 401 or 500. Unless the status is
    204 the tables are as they were. A 204 means: the session resolved to
    an account, the new password has at least 8 characters, exactly one
    row with that account's user id matched the current password, and the
    tables are those after the password update of that user id. *)
Theorem change_password_outcome req w :
  exists res w',
    change_password store_password_hash req w = (Ok res, w') /\
    statusCode res ∈ [204; 400; 401; 500] /\
    (statusCode res <> 204 -> db w' = db w) /\
    (statusCode res = 204 ->
     exists sid row,
       extractSessionId req = Ok (Some sid) /\
       head (select_account_by_session sid (db w)).1 = Some row /\
       (8 <= strlen (String_or_empty (get (body req) "new_password")))%nat /\
       (count_account_password (ua_user_id row)
          (String_or_empty (get (body req) "current_password")) (db w)).1
       = 1%nat /\
       db w' = (update_password store_password_hash
                  (String_or_empty (get (body req) "new_password"))
                  (ua_user_id row) (db w)).2).
Proof.
  destruct w as [d t l fs tr]. unfold_route. simpl.
  destruct (extractSessionId req) as [[[|c sid]|]|e]; simpl;
    try (eexists _, _; split; [reflexivity|]; simpl;
         split; [set_solver|]; split; [done|]; intros; discriminate).
  fault_case;
    try (eexists _, _; split; [reflexivity|]; simpl;
         split; [set_solver|]; split; [done|]; intros; discriminate).
  destruct (take 1 _) as [|row rows] eqn:Hrows; simpl;
    try (eexists _, _; split; [reflexivity|]; simpl;
         split; [set_solver|]; split; [done|]; intros; discriminate).
  destruct ((strlen _ =? 0)%nat || (strlen _ =? 0)%nat); simpl;
    try (eexists _, _; split; [reflexivity|]; simpl;
         split; [set_solver|]; split; [done|]; intros; discriminate).
  destruct (strlen _ <? 8)%nat eqn:Hlen; simpl;
    try (eexists _, _; split; [reflexivity|]; simpl;
         split; [set_solver|]; split; [done|]; intros; discriminate).
  fault_case;
    try (eexists _, _; split; [reflexivity|]; simpl;
         split; [set_solver|]; split; [done|]; intros; discriminate).
  destruct (negb _) eqn:Hcount; simpl;
    try (eexists _, _; split; [reflexivity|]; simpl;
         split; [set_solver|]; split; [done|]; intros; discriminate).
  fault_case;
    try (eexists _, _; split; [reflexivity|]; simpl;
         split; [set_solver|]; split; [done|]; intros; discriminate).
  eexists _, _. split; [reflexivity|]. simpl.
  split; [set_solver|]. split; [done|]. intros _.
  exists (c :: sid), row. split; [done|].
  split; [unfold select_account_by_session; simpl; by rewrite Hrows|].
  split; [apply Nat.ltb_ge in Hlen; done|].
  split; [|done].
  apply negb_false_iff, Nat.eqb_eq in Hcount. done.
Qed.

(** A change of the accounts that keeps the identifiers goes through the
    join of sessions and accounts. *)
Lemma join_fmap (sid : ustring) (f : user_account -> user_account)
    (sessions : list user_session) (accounts : list user_account) :
  (forall ua, ua_user_id (f ua) = ua_user_id ua) ->
  (s ← sessions;
   ua ← f <$> accounts;
   if decide (ua_user_id ua = s_user_id s /\ s_session_id s = sid)
   then [ua] else [])
  = f <$> (s ← sessions;
           ua ← accounts;
           if decide (ua_user_id ua = s_user_id s /\ s_session_id s = sid)
           then [ua] else []).
Proof.
  intros Hf. induction sessions as [|s sessions IH]; [done|].
  rewrite !bind_cons, fmap_app, IH. f_equal.
  clear IH. induction accounts as [|ua accounts IH]; [done|].
  rewrite fmap_cons, !bind_cons, fmap_app, IH, Hf. f_equal.
  by destruct (decide _).
Qed.

(** X9. Changing the password lifts the must-change block: when the store
    does not fail, the session resolves to an account, the current
    password is given and matches exactly one row of that user id, and
    the new password has at least 8 characters, the handler answers 204;
    afterwards the gate lets a request with that session through on any
    path that is not exempt, with an identity of the same user id whose
    must-change flag is off. *)
Theorem change_password_unblocks req w sid row :
  extractSessionId req = Ok (Some sid) ->
  sid <> [] ->
  quiet w = true ->
  head (select_account_by_session sid (db w)).1 = Some row ->
  String_or_empty (get (body req) "current_password") <> "" ->
  (8 <= strlen (String_or_empty (get (body req) "new_password")))%nat ->
  (count_account_password (ua_user_id row)
     (String_or_empty (get (body req) "current_password")) (db w)).1 = 1%nat ->
  (change_password store_password_hash req w).1 = Ok (respond 204 NoBody) /\
  forall now req' w1,
    method req' <> OPTIONS ->
    isAuthExemptPath (path req') = false ->
    extractSessionId req' = Ok (Some sid) ->
    db w1 = db (change_password store_password_hash req w).2 ->
    hd false (faults w1) = false ->
    exists user,
      (gate now req' w1).1 = Ok (Next (Some (sid, user))) /\
      user_id user = ua_user_id row /\
      password_must_change user = false.
Proof.
  destruct w as [d t l fs tr]. unfold quiet. simpl.
  intros Hx Hne Hq Hrow Hcur Hlen Hcount.
  assert (hd false fs = false) as Hf0 by by apply quiet_hd.
  assert (hd false (tail fs) = false) as Hf1
    by by apply quiet_hd, quiet_tail.
  assert (hd false (tail (tail fs)) = false) as Hf2
    by by apply quiet_hd, quiet_tail, quiet_tail.
  unfold_route. simpl. rewrite Hx. simpl.
  destruct sid as [|c sid]; [done|]. simpl. rewrite Hf0. simpl.
  destruct (take 1 _) as [|row' rows] eqn:Hrows; simpl in Hrow; [done|].
  injection Hrow as ->. simpl.
  assert ((strlen (String_or_empty (get (body req) "current_password")) =? 0)%nat
          = false) as ->.
  { apply Nat.eqb_neq. by destruct (String_or_empty _). }
  assert ((strlen (String_or_empty (get (body req) "new_password")) =? 0)%nat
          = false) as -> by (apply Nat.eqb_neq; lia).
  assert ((strlen (String_or_empty (get (body req) "new_password")) <? 8)%nat
          = false) as -> by (apply Nat.ltb_ge; lia).
  simpl. rewrite Hf1. simpl. simpl in Hcount. rewrite Hcount. simpl.
  rewrite Hf2. simpl. split; [done|].
  intros now req' [d1 t1 l1 fs1 tr1] Hm Hp Hx' Hdb Hf. simpl in *. subst d1.
  rewrite bool_decide_eq_false_2, Hp, Hx' by done. simpl. rewrite Hf. simpl.
  rewrite join_fmap by (intros ua; by destruct (decide _)).
  rewrite <- fmap_take, Hrows. simpl.
  rewrite decide_True by done. simpl.
  destruct (hd false (tail fs1)); simpl; eexists; done.
Qed.

End PasswordChange.

(* ===================================================================== *)
(** * The write routes of [routes/contracts.js] *)
(* ===================================================================== *)

Section ContractWriteProperties.
Context {P : Platform}.

(** ** Name resolution, for every store *)

(** One pair, whatever the store does: the tables are not written, at
    most one statement is sent, and a result differs from the record
    given in the id field at most. *)
Lemma resolve_pair_reads s table id_key name_key
    (data : gmap string jsval) w :
  exists r w',
    resolve_pair s table id_key name_key data w = (r, w') /\
    db w' = db w /\ tx w' = tx w /\ leased w' = leased w /\
    (exists evs, trace w' = trace w ++ evs /\ (length evs <= 1)%nat /\
                 forall ev, ev ∈ evs -> exists ok, ev = Query s ok) /\
    (forall resolved, r = Ok resolved ->
       (forall k, k <> id_key -> resolved !! k = data !! k) /\
       (resolved !! id_key = data !! id_key \/
        nullish (get data id_key) = true /\
        exists id, resolved !! id_key = Some (JNum (of_Z id)))).
Proof.
  destruct w as [d t l fs tr]. unfold resolve_pair.
  assert (forall tr0 : list event,
            exists evs, tr0 = tr0 ++ evs /\ (length evs <= 1)%nat /\
                        forall ev, ev ∈ evs -> exists ok, ev = Query s ok)
    as Hnone.
  { intros tr0. exists []. rewrite app_nil_r. split; [done|].
    split; [simpl; lia|].
    intros ev Hin. by apply elem_of_nil in Hin. }
  assert (forall (tr0 : list event) ok0,
            exists evs,
              tr0 ++ [Query s ok0] = tr0 ++ evs /\ (length evs <= 1)%nat /\
              forall ev, ev ∈ evs -> exists ok, ev = Query s ok) as Hone.
  { intros tr0 ok0. eexists [_]. split; [reflexivity|]. split; [simpl; lia|].
    intros ev Hin. apply list_elem_of_singleton in Hin as ->. eauto. }
  destruct (get data name_key) as [| | | |n] eqn:Hname;
    try (eexists _, _; split; [reflexivity|];
         do 3 (split; [done|]); split; [apply Hnone|];
         intros ? [= <-]; auto).
  destruct (nullish (get data id_key) && negb (String.eqb (trim n) ""))
    eqn:Hcond;
    [|eexists _, _; split; [reflexivity|];
      do 3 (split; [done|]); split; [apply Hnone|];
      intros ? [= <-]; auto].
  apply andb_prop in Hcond as [Hid _].
  unfold pool_query, mbind, M_bind, mret, M_ret, next_fault, record_event,
    set_db. simpl.
  destruct (hd false fs); simpl.
  { eexists _, _. split; [reflexivity|]. simpl.
    do 3 (split; [done|]). split; [apply Hone|]. intros ? [=]. }
  destruct (select_id_by_name (table d) (trim n)) as [|id ids].
  - eexists _, _. split; [reflexivity|]. simpl.
    do 3 (split; [done|]). split; [apply Hone|]. intros ? [= <-]; auto.
  - eexists _, _. split; [reflexivity|]. simpl.
    do 3 (split; [done|]). split; [apply Hone|]. intros ? [= <-]. split.
    + intros k Hk. by rewrite lookup_insert_ne.
    + right. split; [done|]. exists id. by rewrite lookup_insert_eq.
Qed.

(** X10. Name resolution only reads, whatever the store does and whatever
    record it is given: it returns or throws with the tables, the open
    transaction and the leased clients as they were, having sent at most
    two statements, each a lookup by name. A record it returns differs
    from the one given in [department_id] and [status_id] at most, and has
    no other new key. *)
Theorem resolveIdsFromNames_reads (data : gmap string jsval) w :
  exists r w',
    resolveIdsFromNames data w = (r, w') /\
    db w' = db w /\ tx w' = tx w /\ leased w' = leased w /\
    (exists evs,
       trace w' = trace w ++ evs /\ (length evs <= 2)%nat /\
       forall ev, ev ∈ evs ->
         exists ok, ev = Query SelectDepartmentByName ok \/
                    ev = Query SelectStatusByName ok) /\
    (forall resolved, r = Ok resolved ->
       (forall k, k <> "department_id" -> k <> "status_id" ->
                  resolved !! k = data !! k) /\
       (forall k, is_Some (resolved !! k) ->
                  is_Some (data !! k) \/ k = "department_id" \/
                  k = "status_id")).
Proof.
  unfold resolveIdsFromNames, mbind, M_bind.
  destruct (resolve_pair_reads SelectDepartmentByName t_department
              "department_id" "department" data w)
    as (r1 & w1 & Hrun1 & Hdb1 & Htx1 & Hl1 & (evs1 & Htr1 & Hlen1 & Hev1)
        & Hres1).
  rewrite Hrun1. destruct r1 as [resolved1|e].
  2: { eexists _, _. split; [reflexivity|]. do 3 (split; [done|]).
       split; [|intros ? [=]].
       exists evs1. split; [done|]. split; [lia|].
       intros ev Hin. destruct (Hev1 ev Hin) as [ok ->]. eauto. }
  destruct (resolve_pair_reads SelectStatusByName t_status
              "status_id" "status" resolved1 w1)
    as (r2 & w2 & Hrun2 & Hdb2 & Htx2 & Hl2 & (evs2 & Htr2 & Hlen2 & Hev2)
        & Hres2).
  rewrite Hrun2. eexists _, _. split; [reflexivity|].
  split; [congruence|]. split; [congruence|]. split; [congruence|].
  split.
  - exists (evs1 ++ evs2). rewrite Htr2, Htr1, app_assoc. split; [done|].
    split; [rewrite length_app; lia|].
    intros ev Hin. apply elem_of_app in Hin as [Hin|Hin].
    + destruct (Hev1 ev Hin) as [ok ->]. eauto.
    + destruct (Hev2 ev Hin) as [ok ->]. eauto.
  - intros resolved ->.
    destruct (Hres1 resolved1 eq_refl) as [Hother1 _].
    destruct (Hres2 resolved eq_refl) as [Hother2 _].
    split.
    + intros k Hk1 Hk2. by rewrite Hother2, Hother1.
    + intros k Hk.
      destruct (decide (k = "department_id")) as [->|Hk1]; [tauto|].
      destruct (decide (k = "status_id")) as [->|Hk2]; [tauto|].
      left. by rewrite <- Hother1, <- Hother2.
Qed.

(** ** The records the write routes build *)

Lemma resolveIdsFromNames_keys (data resolved : gmap string jsval) w w' :
  resolveIdsFromNames data w = (Ok resolved, w') ->
  db w' = db w /\
  forall k, k <> "department_id" -> k <> "status_id" ->
            resolved !! k = data !! k.
Proof.
  unfold resolveIdsFromNames, mbind, M_bind.
  destruct (resolve_pair_reads SelectDepartmentByName t_department
              "department_id" "department" data w)
    as (r1 & w1 & Hrun1 & Hdb1 & _ & _ & _ & Hres1).
  rewrite Hrun1. destruct r1 as [resolved1|e]; [|discriminate].
  destruct (resolve_pair_reads SelectStatusByName t_status
              "status_id" "status" resolved1 w1)
    as (r2 & w2 & Hrun2 & Hdb2 & _ & _ & _ & Hres2).
  rewrite Hrun2. intros [= -> ->].
  destruct (Hres1 resolved1 eq_refl) as [Hother1 _].
  destruct (Hres2 resolved eq_refl) as [Hother2 _].
  split; [congruence|]. intros k Hk1 Hk2. by rewrite Hother2, Hother1.
Qed.

Lemma sanitizeCreatePayload_keys (payload : gmap string jsval) k :
  is_Some (sanitizeCreatePayload payload !! k) -> k ∈ FIELDS.
Proof.
  unfold sanitizeCreatePayload. rewrite create_fold_lookup.
  case_bool_decide; [done|]. rewrite lookup_empty. by intros [? ?].
Qed.

Lemma sanitizePatchPayload_keys (payload : gmap string jsval) k :
  is_Some (sanitizePatchPayload payload !! k) -> k ∈ FIELDS.
Proof.
  unfold sanitizePatchPayload. rewrite patch_fold_lookup.
  case_bool_decide; [done|]. rewrite lookup_empty. by intros [? ?].
Qed.

Lemma resolved_keys (data resolved : gmap string jsval) w w' k :
  (forall k, is_Some (data !! k) -> k ∈ FIELDS) ->
  resolveIdsFromNames data w = (Ok resolved, w') ->
  is_Some (resolved !! k) -> k ∈ FIELDS.
Proof.
  intros Hdata Hrun Hk.
  destruct (resolveIdsFromNames_keys _ _ _ _ Hrun) as [_ Hother].
  destruct (decide (k = "department_id")) as [->|Hk1];
    [unfold FIELDS; rewrite !elem_of_cons; tauto|].
  destruct (decide (k = "status_id")) as [->|Hk2];
    [unfold FIELDS; rewrite !elem_of_cons; tauto|].
  apply Hdata. by rewrite <- Hother.
Qed.

(** X11. The record the create route inserts, whenever it gets that far
    (any store): the tables are still untouched; the title is truthy; every
    key, which becomes a column name of the INSERT, is a whitelisted field
    or one of the two audit fields; and the audit fields are the acting
    user's id when the gate attached one (whatever the payload held under
    [created_by] and [updated_by]), and absent when there is none. *)
Theorem create_record_columns identity (payload : gmap string jsval)
    w record w' :
  create_record identity payload w = (Ok (inr record), w') ->
  db w' = db w /\
  truthy (get record "title") = true /\
  (forall k, is_Some (record !! k) ->
             k ∈ FIELDS \/ k = "created_by" \/ k = "updated_by") /\
  match actorId identity with
  | Some a => record !! "created_by" = Some (JNum (of_Z a)) /\
              record !! "updated_by" = Some (JNum (of_Z a))
  | None => record !! "created_by" = None /\
            record !! "updated_by" = None
  end.
Proof.
  unfold create_record, create_body, mbind, M_bind.
  destruct (resolveIdsFromNames (sanitizeCreatePayload payload) w)
    as [[body|e] w1] eqn:Hrun; [|discriminate].
  destruct (resolveIdsFromNames_keys _ _ _ _ Hrun) as [Hdb Hother].
  assert (forall k, is_Some (body !! k) -> k ∈ FIELDS) as Hkeys.
  { intros k. apply (resolved_keys _ _ _ _ k (sanitizeCreatePayload_keys payload)
                       Hrun). }
  assert (forall k, k ∉ FIELDS -> body !! k = None) as Hnot.
  { intros k Hk. destruct (body !! k) eqn:Hb; [|done].
    destruct Hk. apply Hkeys. by rewrite Hb. }
  assert (body !! "created_by" = None) as Hc.
  { apply Hnot. unfold FIELDS. rewrite !elem_of_cons, elem_of_nil.
    intros H. repeat (destruct H as [H|H]; [discriminate|]). done. }
  assert (body !! "updated_by" = None) as Hu.
  { apply Hnot. unfold FIELDS. rewrite !elem_of_cons, elem_of_nil.
    intros H. repeat (destruct H as [H|H]; [discriminate|]). done. }
  destruct (truthy (get body "title")) eqn:Htitle; simpl; [|discriminate].
  unfold mret, M_ret. intros [= <- <-]. split; [done|].
  unfold set_audit_fields.
  destruct (actorId identity) as [a|].
  - assert (get body "created_by" = JUndefined) as ->
      by (unfold get; by rewrite Hc).
    simpl.
    assert (get (<["created_by" := JNum (of_Z a)]> body) "updated_by"
            = JUndefined) as ->
      by (unfold get; by rewrite lookup_insert_ne, Hu).
    simpl. split.
    { unfold get. rewrite !lookup_insert_ne by done. exact Htitle. }
    split.
    { intros k Hk.
      destruct (decide (k = "updated_by")) as [->|Hk1]; [tauto|].
      destruct (decide (k = "created_by")) as [->|Hk2]; [tauto|].
      left. apply Hkeys. by rewrite !lookup_insert_ne in Hk. }
    split; [by rewrite lookup_insert_ne, lookup_insert_eq
           | by rewrite lookup_insert_eq].
  - split; [done|]. split; [|done]. intros k Hk. left. by apply Hkeys.
Qed.

(** The loop of the PATCH route over the entries. *)
Lemma build_update_loop (entries : list (string * jsval))
    (clauses : list string) (vals : list jsval) :
  foldl (fun '(setClauses, values) '(k, v) =>
           (setClauses ++ [assignment k (length values + 1)],
            values ++ [v]))
        (clauses, vals) entries
  = (clauses ++ imap (fun i e => assignment e.1 (length vals + i + 1)) entries,
     vals ++ (snd <$> entries)).
Proof.
  revert clauses vals.
  induction entries as [|[k v] entries IH]; intros clauses vals; simpl.
  - by rewrite !app_nil_r.
  - rewrite IH, <- !app_assoc. simpl. f_equal. f_equal.
    + f_equal; [f_equal; lia|]. apply imap_ext. intros i e _. simpl.
      rewrite length_app. simpl. f_equal. lia.
Qed.

(** X12. The placeholders of the UPDATE the patch route builds point at
    their values (placeholder [$n] is the [n]-th parameter): the clause of
    the [i]-th entry names its key and the placeholder [i+1], where its
    value is; [updated_at = NOW()] follows the entries; the WHERE
    placeholder is the position of the contract id; with an acting user,
    a last clause [updated_by] names the position after it, where the
    user id is, and without one there is no further clause or parameter. *)
Theorem build_update_placeholders (entries : list (string * jsval))
    (id : number) (actor : option Z) :
  let st := build_update entries id actor in
  (forall i k v, entries !! i = Some (k, v) ->
     setClauses st !! i = Some (assignment k (S i)) /\
     values st !! i = Some v) /\
  setClauses st !! length entries = Some "updated_at = NOW()" /\
  where_placeholder st = S (length entries) /\
  values st !! length entries = Some (JNum id) /\
  match actor with
  | Some a =>
      setClauses st !! S (length entries) =
        Some ("updated_by = " +:+ placeholder (S (S (length entries)))) /\
      values st !! S (length entries) = Some (JNum (of_Z a)) /\
      length (setClauses st) = S (S (length entries)) /\
      length (values st) = S (S (length entries))
  | None =>
      length (setClauses st) = S (length entries) /\
      length (values st) = S (length entries)
  end.
Proof.
  unfold build_update. rewrite build_update_loop. simpl.
  assert (length (imap (fun i (e : string * jsval) => assignment e.1 (i + 1))
                    entries) = length entries) as Hlen
    by apply length_imap.
  assert (length (snd <$> entries) = length entries) as Hlen'
    by apply length_fmap.
  split; [|split; [|split; [|split]]].
  - intros i k v Hi.
    assert (i < length entries)%nat as Hlt by (by eapply lookup_lt_Some).
    destruct actor as [a|]; simpl.
    + rewrite <- !app_assoc, !lookup_app_l by (rewrite ?Hlen, ?Hlen'; done).
      rewrite list_lookup_imap, list_lookup_fmap, Hi. simpl.
      by replace (i + 1)%nat with (S i) by lia.
    + rewrite !lookup_app_l by (rewrite ?Hlen, ?Hlen'; done).
      rewrite list_lookup_imap, list_lookup_fmap, Hi. simpl.
      by replace (i + 1)%nat with (S i) by lia.
  - destruct actor as [a|]; simpl.
    + rewrite <- app_assoc, lookup_app_r by (rewrite Hlen; done).
      by rewrite Hlen, Nat.sub_diag.
    + rewrite lookup_app_r by (rewrite Hlen; done).
      by rewrite Hlen, Nat.sub_diag.
  - destruct actor as [a|]; simpl; rewrite !length_app, Hlen'; simpl; lia.
  - destruct actor as [a|]; simpl.
    + rewrite <- app_assoc, lookup_app_r by (rewrite Hlen'; done).
      by rewrite Hlen', Nat.sub_diag.
    + rewrite lookup_app_r by (rewrite Hlen'; done).
      by rewrite Hlen', Nat.sub_diag.
  - destruct actor as [a|]; simpl.
    + rewrite !length_app, Hlen, Hlen'. simpl.
      rewrite <- !app_assoc.
      rewrite !lookup_app_r by (rewrite ?Hlen, ?Hlen'; lia).
      rewrite ?Hlen, ?Hlen'.
      replace (S (length entries) - length entries)%nat with 1%nat by lia.
      simpl.
      replace (length entries + 2)%nat with (S (S (length entries))) by lia.
      split; [done|]. split; [|lia].
      rewrite lookup_app_r by (rewrite Hlen'; lia). rewrite Hlen'.
      by replace (S (length entries) - length entries)%nat with 1%nat by lia.
    + rewrite !length_app, Hlen, Hlen'. simpl. lia.
Qed.

(** X13. A patch whose payload has none of the whitelisted keys is answered
    400 "No fields provided for update" without a single call to the
    store, whatever else the payload holds. *)
Theorem patch_record_nothing_to_update contract_id identity
    (payload : gmap string jsval) w :
  isInteger (Number (JStr contract_id)) = true ->
  (forall k, k ∈ FIELDS -> payload !! k = None) ->
  patch_record contract_id identity payload w =
    (Ok (inl (respond 400 (ErrorBody "No fields provided for update"))), w).
Proof.
  intros Hid Hnone. unfold patch_record. rewrite Hid. simpl.
  assert (sanitizePatchPayload payload = ∅) as Hempty.
  { apply map_eq. intros k. unfold sanitizePatchPayload.
    rewrite patch_fold_lookup, lookup_empty.
    case_bool_decide; [|done]. by rewrite Hnone. }
  unfold patch_body, resolveIdsFromNames, resolve_pair, mbind, M_bind.
  rewrite Hempty. unfold get. rewrite !lookup_empty. simpl.
  unfold get. rewrite lookup_empty. simpl.
  unfold Object_entries. by rewrite map_to_list_empty.
Qed.

(** X14. When the patch route gets to its UPDATE (any store), the contract
    id is an integer, the tables are still untouched, and the statement is
    built from a non-empty list of entries whose keys are whitelisted
    fields, no key twice: no other name reaches the SET clauses. *)
Theorem patch_record_columns contract_id identity
    (payload : gmap string jsval) w st w' :
  patch_record contract_id identity payload w = (Ok (inr st), w') ->
  isInteger (Number (JStr contract_id)) = true /\
  db w' = db w /\
  exists entries,
    entries <> [] /\
    (forall k v, (k, v) ∈ entries -> k ∈ FIELDS) /\
    NoDup entries.*1 /\
    st = build_update entries (Number (JStr contract_id)) (actorId identity).
Proof.
  unfold patch_record, patch_body, mbind, M_bind.
  destruct (isInteger (Number (JStr contract_id))); simpl; [|discriminate].
  destruct (resolveIdsFromNames (sanitizePatchPayload payload) w)
    as [[body|e] w1] eqn:Hrun; [|discriminate].
  destruct (resolveIdsFromNames_keys _ _ _ _ Hrun) as [Hdb _].
  destruct (length (Object_entries body) =? 0)%nat eqn:Hlen; [discriminate|].
  unfold mret, M_ret. intros [= <- <-].
  split; [done|]. split; [done|].
  exists (Object_entries body). split.
  { intros Hnil. by rewrite Hnil in Hlen. }
  split; [|split; [apply NoDup_fst_map_to_list|done]].
  intros k v Hin. apply elem_of_map_to_list in Hin.
  apply (resolved_keys _ _ _ _ k (sanitizePatchPayload_keys payload) Hrun).
  by rewrite Hin.
Qed.

End ContractWriteProperties.

(* ===================================================================== *)
(** * The sanitizers as functions on records *)
(* ===================================================================== *)

Section SanitizerProperties.
Context {P : Platform}.

Lemma Math_trunc_idem n : Math_trunc (Math_trunc n) = Math_trunc n.
Proof.
  destruct n as [| | |q]; try reflexivity. simpl.
  by rewrite Z.quot_1_r.
Qed.

Lemma isFinite_trunc n : isFinite n = true -> isFinite (Math_trunc n) = true.
Proof. by destruct n. Qed.

Lemma sanitize_value_idem k v :
  sanitize_value k (sanitize_value k v) = sanitize_value k v.
Proof.
  destruct (integer_field k) eqn:Hi.
  - rewrite !(sanitize_integer k _ Hi).
    destruct (nullish v || is_empty_string v); [reflexivity|].
    destruct (isFinite (Number v)) eqn:Hfin; [|reflexivity].
    simpl. by rewrite isFinite_trunc, Math_trunc_idem.
  - destruct (String.eqb k "auto_renew") eqn:Hb.
    + apply String.eqb_eq in Hb as ->. rewrite (sanitize_auto_renew v).
      simpl.
      destruct (bool_decide (_ ∈ ["true"; "1"; "yes"; "y"; "on"]));
        [|destruct (bool_decide (_ ∈ ["false"; "0"; "no"; "n"; "off"]))];
        rewrite sanitize_auto_renew; reflexivity.
    + destruct v as [| | b | n | s];
        try (unfold sanitize_value; rewrite Hb, Hi; reflexivity).
      rewrite (sanitize_text k s Hb Hi).
      destruct (String.eqb (trim s) "") eqn:He; [apply sanitize_null|].
      by rewrite (sanitize_text k _ Hb Hi), trim_idem, He.
Qed.

Lemma sanitize_value_defined k v :
  sanitize_value k v = JUndefined -> v = JUndefined.
Proof.
  destruct (integer_field k) eqn:Hi.
  - rewrite (sanitize_integer k _ Hi).
    destruct (nullish v || is_empty_string v); [discriminate|].
    destruct (isFinite (Number v)); discriminate.
  - destruct (String.eqb k "auto_renew") eqn:Hb.
    + apply String.eqb_eq in Hb as ->. rewrite sanitize_auto_renew.
      simpl. repeat case_bool_decide; discriminate.
    + destruct v as [| | b | n | s]; try done;
        try (unfold sanitize_value; rewrite Hb, Hi; discriminate).
      rewrite (sanitize_text k s Hb Hi).
      destruct (String.eqb (trim s) ""); discriminate.
Qed.

(** X15. Both sanitizers are idempotent: sanitizing a sanitized record
    changes nothing. *)
Theorem sanitizers_idempotent (payload : gmap string jsval) :
  sanitizeCreatePayload (sanitizeCreatePayload payload)
    = sanitizeCreatePayload payload /\
  sanitizePatchPayload (sanitizePatchPayload payload)
    = sanitizePatchPayload payload.
Proof.
  split; apply map_eq; intros k.
  - unfold sanitizeCreatePayload. rewrite !create_fold_lookup.
    case_bool_decide as Hk; [|done]. rewrite lookup_empty.
    unfold get at 1. rewrite create_fold_lookup.
    rewrite bool_decide_eq_true_2, lookup_empty by done.
    destruct (get payload k) as [| |b|n|s] eqn:Hg; simpl; try done.
    all: lazymatch goal with
         | |- _ = Some (sanitize_value ?k0 ?v) =>
             pose proof (sanitize_value_idem k0 v) as Hidem;
             pose proof (sanitize_value_defined k0 v) as Hdef;
             destruct (sanitize_value k0 v);
             [specialize (Hdef eq_refl); discriminate
             | cbv beta iota; rewrite ?Hidem; done ..]
         end.
  - unfold sanitizePatchPayload. rewrite !patch_fold_lookup.
    case_bool_decide as Hk; [|done]. rewrite lookup_empty.
    destruct (payload !! k); simpl; [|done].
    by rewrite sanitize_value_idem.
Qed.

(** X16. On a payload in which no whitelisted key holds [undefined] (every
    payload parsed from JSON), the create and the patch sanitizer give the
    same record. *)
Theorem sanitizers_agree (payload : gmap string jsval) :
  (forall k, k ∈ FIELDS -> payload !! k <> Some JUndefined) ->
  sanitizeCreatePayload payload = sanitizePatchPayload payload.
Proof.
  intros Hdef. apply map_eq. intros k.
  unfold sanitizeCreatePayload, sanitizePatchPayload.
  rewrite create_fold_lookup, patch_fold_lookup.
  case_bool_decide as Hk; [|done].
  specialize (Hdef k Hk). unfold get.
  destruct (payload !! k) as [[| | | |]|]; simpl; done.
Qed.

End SanitizerProperties.

(* ===================================================================== *)
(** * Deleting departments and statuses *)
(* ===================================================================== *)

Section LookupRouteProperties.
Context {P : Platform}.

Ltac unfold_delete :=
  unfold departments_delete, statuses_delete, try_catch, mbind, M_bind,
    mret, M_ret, pool_statement, next_fault, set_db.

(** No row has the identifier: the delete keeps every row. *)
Lemma delete_none (id : Z) (rows : list lookup_row) :
  length (filter (fun r => row_id r = id) rows) = 0%nat ->
  filter (fun r => row_id r ≠ id) rows = rows.
Proof.
  induction rows as [|r rows IH]; [done|].
  rewrite !filter_cons. destruct (decide (row_id r = id)) as [Hr|Hr].
  - discriminate.
  - intros Hlen. rewrite decide_True by done. by rewrite IH.
Qed.

Lemma delete_some (id : Z) (rows : list lookup_row) :
  length (filter (fun r => row_id r = id) rows) <> 0%nat ->
  exists r, r ∈ rows /\ row_id r = id.
Proof.
  intros Hlen. destruct (filter _ rows) as [|r rs] eqn:Hf; [done|].
  assert (r ∈ filter (fun r => row_id r = id) rows) as Hin
    by (rewrite Hf; by left).
  apply list_elem_of_filter in Hin. exists r. tauto.
Qed.

Lemma deleted_gone (id : Z) (rows : list lookup_row) :
  length (filter (fun r => row_id r = id)
            (filter (fun r => row_id r ≠ id) rows)) = 0%nat.
Proof.
  induction rows as [|r rows IH]; [done|].
  rewrite filter_cons. destruct (decide (row_id r ≠ id)) as [Hr|Hr]; [|done].
  rewrite filter_cons. by rewrite decide_False.
Qed.

(** X17. Deleting a department, for every id text and every store: the
    handler returns with status 204, 400, 404 or 500 and never touches
    accounts, sessions or statuses. An id that is not an integer is
    answered 400 without a call to the store. Unless the status is 204 the
    tables are as they were; 404 means no department had the id; 204 means
    one had it, and the departments left are exactly those with another
    id. *)
Theorem departments_delete_outcome department_id w :
  let id := Number (JStr department_id) in
  exists res w',
    departments_delete department_id w = (Ok res, w') /\
    statusCode res ∈ [204; 400; 404; 500] /\
    t_user_account (db w') = t_user_account (db w) /\
    t_user_session (db w') = t_user_session (db w) /\
    t_status (db w') = t_status (db w) /\
    (isInteger id = false ->
     res = respond 400 (ErrorBody "Invalid department_id") /\ w' = w) /\
    (statusCode res <> 204 -> db w' = db w) /\
    (statusCode res = 404 ->
     forall r, r ∈ t_department (db w) -> row_id r <> integer_of id) /\
    (statusCode res = 204 ->
     isInteger id = true /\
     (exists r, r ∈ t_department (db w) /\ row_id r = integer_of id) /\
     forall r, r ∈ t_department (db w') <->
               r ∈ t_department (db w) /\ row_id r <> integer_of id).
Proof.
  destruct w as [d t l fs tr]. unfold_delete. simpl.
  destruct (isInteger _) eqn:Hint; simpl.
  2: { eexists _, _. split; [reflexivity|]. simpl.
       split; [set_solver|]. do 3 (split; [done|]).
       split; [done|]. split; [done|]. split; intros; discriminate. }
  destruct (hd false fs); simpl.
  { eexists _, _. split; [reflexivity|]. simpl.
    split; [set_solver|]. do 3 (split; [done|]).
    split; [done|]. split; [done|]. split; intros; discriminate. }
  destruct (length _ =? 0)%nat eqn:Hcount; simpl.
  - apply Nat.eqb_eq in Hcount.
    eexists _, _. split; [reflexivity|]. simpl.
    split; [set_solver|]. do 3 (split; [done|]).
    split; [done|]. split; [|split; [|intros; discriminate]].
    + intros _. destruct d. simpl in *. f_equal. by apply delete_none.
    + intros _ r Hin Hr.
      assert (r ∈ filter (fun r => row_id r = integer_of
                            (StringToNumber department_id))
                (t_department d)) as Hf
        by (apply list_elem_of_filter; done).
      destruct (filter _ (t_department d)); [|done].
      by apply elem_of_nil in Hf.
  - apply Nat.eqb_neq in Hcount.
    eexists _, _. split; [reflexivity|]. simpl.
    split; [set_solver|]. do 3 (split; [done|]).
    split; [done|]. split; [done|]. split; [intros; discriminate|].
    intros _. split; [done|]. split; [by apply delete_some|].
    intros r. rewrite list_elem_of_filter. tauto.
Qed.

(** X18. Deleting a status, for every id text and every store: the same
    outcomes as for a department, on the status table. *)
Theorem statuses_delete_outcome status_id w :
  let id := Number (JStr status_id) in
  exists res w',
    statuses_delete status_id w = (Ok res, w') /\
    statusCode res ∈ [204; 400; 404; 500] /\
    t_user_account (db w') = t_user_account (db w) /\
    t_user_session (db w') = t_user_session (db w) /\
    t_department (db w') = t_department (db w) /\
    (isInteger id = false ->
     res = respond 400 (ErrorBody "Invalid status_id") /\ w' = w) /\
    (statusCode res <> 204 -> db w' = db w) /\
    (statusCode res = 404 ->
     forall r, r ∈ t_status (db w) -> row_id r <> integer_of id) /\
    (statusCode res = 204 ->
     isInteger id = true /\
     (exists r, r ∈ t_status (db w) /\ row_id r = integer_of id) /\
     forall r, r ∈ t_status (db w') <->
               r ∈ t_status (db w) /\ row_id r <> integer_of id).
Proof.
  destruct w as [d t l fs tr]. unfold_delete. simpl.
  destruct (isInteger _) eqn:Hint; simpl.
  2: { eexists _, _. split; [reflexivity|]. simpl.
       split; [set_solver|]. do 3 (split; [done|]).
       split; [done|]. split; [done|]. split; intros; discriminate. }
  destruct (hd false fs); simpl.
  { eexists _, _. split; [reflexivity|]. simpl.
    split; [set_solver|]. do 3 (split; [done|]).
    split; [done|]. split; [done|]. split; intros; discriminate. }
  destruct (length _ =? 0)%nat eqn:Hcount; simpl.
  - apply Nat.eqb_eq in Hcount.
    eexists _, _. split; [reflexivity|]. simpl.
    split; [set_solver|]. do 3 (split; [done|]).
    split; [done|]. split; [|split; [|intros; discriminate]].
    + intros _. destruct d. simpl in *. f_equal. by apply delete_none.
    + intros _ r Hin Hr.
      assert (r ∈ filter (fun r => row_id r = integer_of
                            (StringToNumber status_id))
                (t_status d)) as Hf
        by (apply list_elem_of_filter; done).
      destruct (filter _ (t_status d)); [|done].
      by apply elem_of_nil in Hf.
  - apply Nat.eqb_neq in Hcount.
    eexists _, _. split; [reflexivity|]. simpl.
    split; [set_solver|]. do 3 (split; [done|]).
    split; [done|]. split; [done|]. split; [intros; discriminate|].
    intros _. split; [done|]. split; [by apply delete_some|].
    intros r. rewrite list_elem_of_filter. tauto.
Qed.

(** X19. A delete that the store ran, asked again: the second request for
    the same id, department or status, is answered 404 and changes
    nothing. *)
Theorem delete_twice id w w1 :
  isInteger (Number (JStr id)) = true ->
  hd false (faults w) = false ->
  hd false (faults w1) = false ->
  (db w1 = db (departments_delete id w).2 ->
   (departments_delete id w1).1 =
     Ok (respond 404 (ErrorBody "Department not found")) /\
   db (departments_delete id w1).2 = db w1) /\
  (db w1 = db (statuses_delete id w).2 ->
   (statuses_delete id w1).1 =
     Ok (respond 404 (ErrorBody "Status not found")) /\
   db (statuses_delete id w1).2 = db w1).
Proof.
  destruct w as [d t l fs tr], w1 as [d1 t1 l1 fs1 tr1]. simpl.
  intros Hint Hf Hf1.
  split; unfold_delete; simpl; rewrite Hint; simpl; rewrite Hf, Hf1; simpl.
  - destruct (length _ =? 0)%nat; simpl; intros ->; simpl;
      rewrite deleted_gone; simpl; (split; [done|]); f_equal;
      apply delete_none, deleted_gone.
  - destruct (length _ =? 0)%nat; simpl; intros ->; simpl;
      rewrite deleted_gone; simpl; (split; [done|]); f_equal;
      apply delete_none, deleted_gone.
Qed.

End LookupRouteProperties.

(* ===================================================================== *)
(** * The two readings of the session identifier *)
(* ===================================================================== *)

Section FallbackProperties.
Context {P : Platform}.

Lemma to_ustring_nil s : to_ustring s = [] -> s = "".
Proof. by destruct s. Qed.

Lemma header_session_id_given req t :
  header_session_id req = Some t -> t <> [].
Proof.
  unfold header_session_id.
  destruct (headers req !! "x-session-id") as [h|]; [|done].
  destruct (0 <? strlen (trim h))%nat eqn:Hlen; [|done].
  intros [= <-] Hnil. apply to_ustring_nil in Hnil. by rewrite Hnil in Hlen.
Qed.

Lemma bearer_session_id_given req t :
  bearer_session_id req = Some t -> t <> [].
Proof.
  unfold bearer_session_id.
  destruct (headers req !! "authorization") as [auth|]; [|done].
  destruct (startsWith _ _); [|done].
  destruct (String.eqb (trim (slice 7 auth)) "") eqn:He; [done|].
  cbn [negb]. intros [= <-] Hnil. apply to_ustring_nil in Hnil.
  apply String.eqb_neq in He. exact (He Hnil).
Qed.

(** X20. The header fallbacks of the session identifier are fallbacks only:
    whenever the cookie-only reading of [src/unnamed/part_001] gives an
    identifier or throws, the reading with fallbacks gives the same; when
    the cookie-only reading gives null, the reading with fallbacks does
    not throw and gives null or an identifier that is not empty. *)
Theorem header_fallback_only req :
  (CookieOnly.extractSessionId req <> Ok None ->
   extractSessionId req = CookieOnly.extractSessionId req) /\
  (CookieOnly.extractSessionId req = Ok None ->
   exists r, extractSessionId req = Ok r /\ session_id_given r = r).
Proof.
  unfold CookieOnly.extractSessionId, extractSessionId.
  assert (exists r,
            match header_session_id req with
            | Some t => Ok (Some t)
            | None => match bearer_session_id req with
                      | Some t => Ok (Some t)
                      | None => Ok None
                      end
            end = Ok r /\ session_id_given r = r) as Hfallback.
  { destruct (header_session_id req) as [t|] eqn:Hh.
    - exists (Some t). split; [done|].
      apply header_session_id_given in Hh. by destruct t.
    - destruct (bearer_session_id req) as [t|] eqn:Hb.
      + exists (Some t). split; [done|].
        apply bearer_session_id_given in Hb. by destruct t.
      + by exists None. }
  destruct (headers req !! "cookie") as [h|]; [|by split].
  destruct (negb (String.eqb h "")); [|by split].
  destruct (find_session_cookie (split ";" h)) as [raw|]; [|by split].
  destruct (decodeURIComponent raw) as [v|e]; split; try done.
Qed.

End FallbackProperties.

(* ===================================================================== *)
(** * The session routes, for every store *)
(* ===================================================================== *)

Section SessionRouteProperties.
Context {P : Platform}.

Ltac unfold_session_route :=
  unfold me, logout, fetchUserBySession, try_catch, lift, mbind, M_bind,
    mret, M_ret, pool_query, next_fault, record_event, set_db.

(** X21. [/auth/me] for every request and every store: the handler returns
    with status 200, 401 or 500 and writes nothing. A 200 carries the
    normalised account row that the session joins to, whatever its
    must-change flag; a 401 clears the session cookie. *)
Theorem me_outcome req w :
  exists res w',
    me req w = (Ok res, w') /\
    db w' = db w /\ tx w' = tx w /\ leased w' = leased w /\
    statusCode res ∈ [200; 401; 500] /\
    (statusCode res = 200 ->
     exists sid row,
       extractSessionId req = Ok (Some sid) /\ sid <> [] /\
       head (select_account_by_session sid (db w)).1 = Some row /\
       res = respond 200 (UserBody (normalizeUserRow row))) /\
    (statusCode res = 401 -> cookie res = CookieCleared).
Proof.
  destruct w as [d t l fs tr]. unfold_session_route. simpl.
  destruct (extractSessionId req) as [[[|c sid]|]|e]; simpl;
    try (eexists _, _; split; [reflexivity|]; simpl;
         do 3 (split; [done|]); split; [set_solver|];
         split; [intros; discriminate
                | first [done | intros; discriminate]]).
  destruct (hd false fs); simpl.
  { eexists _, _; split; [reflexivity|]; simpl.
    do 3 (split; [done|]); split; [set_solver|].
    split; intros; discriminate. }
  destruct (take 1 _) as [|row rows] eqn:Hrows; simpl.
  { eexists _, _; split; [reflexivity|]; simpl.
    do 3 (split; [done|]); split; [set_solver|].
    split; [intros; discriminate | done]. }
  eexists _, _; split; [reflexivity|]; simpl.
  do 3 (split; [done|]); split; [set_solver|].
  split; [|intros; discriminate].
  intros _. exists (c :: sid), row. do 2 (split; [done|]).
  split; [|done]. unfold select_account_by_session. simpl. by rewrite Hrows.
Qed.

(** X22. Logout for every request and every store: the handler returns with
    status 204 or 500 and touches the session table only. On 500 the
    tables are as they were. On 204 the cookie is cleared and the sessions
    left are exactly those whose identifier is not the one the request
    carried (all of them when it carried none or an empty one). *)
Theorem logout_outcome req w :
  exists res w',
    logout req w = (Ok res, w') /\
    statusCode res ∈ [204; 500] /\
    t_user_account (db w') = t_user_account (db w) /\
    t_department (db w') = t_department (db w) /\
    t_status (db w') = t_status (db w) /\
    (statusCode res = 500 -> db w' = db w) /\
    (statusCode res = 204 ->
     cookie res = CookieCleared /\
     exists sessionId,
       extractSessionId req = Ok sessionId /\
       forall s, s ∈ t_user_session (db w') <->
                 s ∈ t_user_session (db w) /\
                 session_id_given sessionId <> Some (s_session_id s)).
Proof.
  destruct w as [d t l fs tr]. unfold_session_route. simpl.
  destruct (extractSessionId req) as [sessionId|e] eqn:Hx; simpl.
  2: { eexists _, _; split; [reflexivity|]; simpl.
       split; [set_solver|]. do 3 (split; [done|]).
       split; [done | intros; discriminate]. }
  destruct (session_id_given sessionId) as [sid|] eqn:Hsid; simpl.
  2: { eexists _, _; split; [reflexivity|]; simpl.
       split; [set_solver|]. do 3 (split; [done|]).
       split; [intros; discriminate|]. intros _. split; [done|].
       exists sessionId. split; [done|]. intros s. rewrite Hsid.
       split; [intros ?; by split | tauto]. }
  destruct (hd false fs); simpl.
  { eexists _, _; split; [reflexivity|]; simpl.
    split; [set_solver|]. do 3 (split; [done|]).
    split; [done | intros; discriminate]. }
  eexists _, _; split; [reflexivity|]; simpl.
  split; [set_solver|]. do 3 (split; [done|]).
  split; [intros; discriminate|]. intros _. split; [done|].
  exists sessionId. split; [done|]. intros s. rewrite Hsid.
  rewrite list_elem_of_filter.
  split; intros [H1 H2]; split; try done; congruence.
Qed.

End SessionRouteProperties.

(* ===================================================================== *)
(** * The gate on concrete requests *)
(* ===================================================================== *)

Import Example.

Lemma options_never_rejected_witness :
  method (request0 OPTIONS "/contracts") = OPTIONS /\
  middlewares (P:=platform) 5 (request0 OPTIONS "/contracts") (world0 state)
  = (Ok (Responds (respond 204 NoBody)), world0 state).
Proof.
  split; [reflexivity|].
  apply (options_never_rejected (P:=platform) 5
           (request0 OPTIONS "/contracts") (world0 state)).
  reflexivity.
Defined.

(** C1 as stated fails on an OPTIONS request: on the path /contracts, which
    is not exempt, and without any session identifier, the gate answers
    nothing and calls [next()], and the chain answers 204, not 401. *)
Lemma gate_unauthenticated_OPTIONS_counterexample :
  let req := request0 OPTIONS "/contracts" in
  let w := world0 state in
  isAuthExemptPath (path req) = false /\
  extractSessionId (P:=platform) req = Ok None /\
  gate (P:=platform) 5 req w = (Ok (Next None), w) /\
  middlewares (P:=platform) 5 req w = (Ok (Responds (respond 204 NoBody)), w) /\
  middlewares (P:=platform) 5 req w <> (Ok (Responds not_authenticated), w).
Proof.
  repeat split; try (vm_compute; reflexivity).
  vm_compute. discriminate.
Qed.

Lemma gate_rejects_unauthenticated_witness :
  let req := request0 GET "/contracts" in
  method req <> OPTIONS /\
  isAuthExemptPath (path req) = false /\
  extractSessionId (P:=platform) req = Ok None /\
  exists w', middlewares (P:=platform) 5 req (world0 state)
             = (Ok (Responds not_authenticated), w') /\
             statusCode not_authenticated = 401 /\
             cookie not_authenticated = CookieCleared /\
             db w' = db (world0 state).
Proof.
  split; [discriminate|]. split; [reflexivity|]. split; [reflexivity|].
  apply (gate_rejects_unauthenticated (P:=platform) 5
           (request0 GET "/contracts") (world0 state) None).
  - discriminate.
  - reflexivity.
  - reflexivity.
  - left. reflexivity.
Defined.

Lemma gate_password_change_witness :
  let req := with_header "x-session-id" "s1" (request0 GET "/departments") in
  exists w',
    middlewares (P:=platform) 5 req (world0 must_change_state)
    = (Ok (Responds (respond 403 (ErrorBody "Password change required"))), w').
Proof.
  pose (req := with_header "x-session-id" "s1" (request0 GET "/departments")).
  pose (user := normalizeUserRow
                  (default defaultUser (head (t_user_account must_change_state)))).
  destruct (gate_password_change (P:=platform) 5 req
              (world0 must_change_state) (Some (to_ustring "s1"))
              (to_ustring "s1") user
              (fetchUserBySession (to_ustring "s1")
                 (world0 must_change_state)).2)
    as (w' & Hgate & _).
  - discriminate.
  - vm_compute. reflexivity.
  - vm_compute. reflexivity.
  - reflexivity.
  - vm_compute. reflexivity.
  - reflexivity.
  - exists w'. exact Hgate.
Defined.

(** The suffix test of the allow-list asks for a slash in front of the
    exempt path, which itself starts with one. *)
Example isAuthExemptPath_examples :
  isAuthExemptPath "/auth/login" = true /\
  isAuthExemptPath "/auth/logout/" = true /\
  isAuthExemptPath "/api//auth/login" = true /\
  isAuthExemptPath "/api/auth/login" = false /\
  isAuthExemptPath "/contracts" = false.
Proof. repeat split; reflexivity. Qed.

(* ===================================================================== *)
(** * Login and logout on concrete requests *)
(* ===================================================================== *)



(** The store fails the insert of the session: the answer is 500, the
    transaction is rolled back, the client released, and the account is
    not promoted. *)
Example login_insert_fails :
  login (P:=platform) uuid1 5 (login_request "user@example.com" "secret")
    (with_faults [false; false; false; false; true] (world0 state))
  = ( Ok (respond 500 (InternalErrorBody StoreError)),
      {| db := state; tx := None; leased := 0; faults := [];
         trace := [ Connect true;
                    Query BEGIN true;
                    Query SelectAccountByCredentials true;
                    Query UpdateAccountOnLogin true;
                    Query InsertSession false;
                    Query ROLLBACK true;
                    Release ] |} ).
Proof. vm_compute. reflexivity. Qed.

(** A wrong password: 401 after a rollback, the client released. *)
Example login_wrong_password :
  login (P:=platform) uuid1 5 (login_request "user@example.com" "guess")
    (world0 state)
  = ( Ok (respond 401 (ErrorBody "Invalid username or password")),
      {| db := state; tx := None; leased := 0; faults := [];
         trace := [ Connect true;
                    Query BEGIN true;
                    Query SelectAccountByCredentials true;
                    Query ROLLBACK true;
                    Release ] |} ).
Proof. vm_compute. reflexivity. Qed.



(** C5, the failing request. A logout whose session cookie holds a
    malformed percent escape is answered 500, and the cookie is left as it
    is; the claim has 204 and a cleared cookie for every request. *)
Theorem logout_malformed_cookie w :
  logout (P:=platform)
    (with_header "cookie" "cm_session=%" (request0 POST "/auth/logout")) w
  = ( Ok {| statusCode := 500;
            payload := InternalErrorBody URIError;
            cookie := CookieUntouched |},
      w ).
Proof.
  assert (Hx : extractSessionId (P:=platform)
                 (with_header "cookie" "cm_session=%"
                    (request0 POST "/auth/logout")) = Throw URIError)
    by (vm_compute; reflexivity).
  unfold logout, try_catch, lift, mbind, M_bind. rewrite Hx. reflexivity.
Qed.

(** C6, the failing request. With the session cookie present but holding a
    malformed percent escape, extraction returns nothing at all: it throws,
    also when a later source holds an identifier. (With the same headers
    and no such cookie, the header is the result.) *)
Theorem extractSessionId_malformed_cookie :
  extractSessionId (P:=platform)
    (with_header "x-session-id" "s1"
       (with_header "cookie" "theme=dark; cm_session=%"
          (request0 GET "/contracts")))
  = Throw URIError /\
  extractSessionId (P:=platform)
    (with_header "x-session-id" "s1"
       (with_header "cookie" "theme=dark" (request0 GET "/contracts")))
  = Ok (Some (to_ustring "s1")).
Proof. split; vm_compute; reflexivity. Qed.

(* ===================================================================== *)
(** * The contract routes on concrete requests *)
(* ===================================================================== *)

Lemma sanitize_payload_witness :
  "title" ∈ FIELDS /\
  get contract_payload "title" <> JUndefined /\
  sanitizeCreatePayload (P:=platform) contract_payload !! "title"
    = Some (JStr "Lease").
Proof.
  split; [vm_compute; by left|]. split; [vm_compute; discriminate|].
  apply (proj1 (proj2 (sanitize_payload (P:=platform)
                         contract_payload "title"))).
  - vm_compute. by left.
  - vm_compute. discriminate.
Defined.

Example sanitizeCreatePayload_example :
  sanitizeCreatePayload (P:=platform) contract_payload =
  <["title" := JStr "Lease"]>
    (<["department" := JStr "Operations"]>
       (<["status" := JStr "archived"]>
          (<["auto_renew" := JBool true]>
             (<["renewal_term_months" := JNum (of_Z 12)]>
                (<["notes" := JNull]> ∅))))).
Proof. vm_compute. reflexivity. Qed.

Lemma resolve_ids_from_names_witness :
  quiet (world0 state) = true /\
  exists resolved w',
    resolveIdsFromNames (P:=platform)
      (sanitizeCreatePayload (P:=platform) contract_payload) (world0 state)
      = (Ok resolved, w') /\
    db w' = db (world0 state) /\
    resolution (P:=platform) (t_department state) "department_id" "department"
      (sanitizeCreatePayload (P:=platform) contract_payload) resolved /\
    resolution (P:=platform) (t_status state) "status_id" "status"
      (sanitizeCreatePayload (P:=platform) contract_payload) resolved.
Proof.
  split; [reflexivity|].
  destruct (resolve_ids_from_names (P:=platform) contract_payload
              (sanitizeCreatePayload (P:=platform) contract_payload)
              (world0 state))
    as (resolved & w' & Hrun & Hdb & _ & Hdep & Hst).
  - left. reflexivity.
  - reflexivity.
  - exists resolved, w'. auto.
Defined.

(** C8 as stated fails on a name that no row has: the request is not
    rejected and the id stays absent, but the name is not dropped. It is
    still in the record that name resolution returns, and the create
    route sends it on: [status] is a key of the record it inserts. *)
Lemma resolve_name_kept_counterexample :
  get (sanitizeCreatePayload (P:=platform) contract_payload) "status"
    = JStr "archived" /\
  select_id_by_name (P:=platform) (t_status state) "archived" = [] /\
  match (resolveIdsFromNames (P:=platform)
           (sanitizeCreatePayload (P:=platform) contract_payload)
           (world0 state)).1 with
  | Ok resolved =>
      resolved !! "status_id" = None /\
      resolved !! "status" = Some (JStr "archived")
  | Throw _ => False
  end /\
  match (create_record (P:=platform) None contract_payload (world0 state)).1
  with
  | Ok (inr record) =>
      record !! "status_id" = None /\
      record !! "status" = Some (JStr "archived")
  | _ => False
  end.
Proof.
  split; [vm_compute; reflexivity|].
  split; [vm_compute; reflexivity|].
  split; vm_compute; split; reflexivity.
Qed.

(** The department named is found whatever its case, the status named
    does not exist: the one id is filled, the other stays absent, and both
    names stay in the record. *)
Example resolveIdsFromNames_example :
  (resolveIdsFromNames (P:=platform)
     (sanitizeCreatePayload (P:=platform) contract_payload) (world0 state)).1
  = Ok (<["department_id" := JNum (of_Z 1)]>
          (sanitizeCreatePayload (P:=platform) contract_payload)).
Proof. vm_compute. reflexivity. Qed.

Lemma list_pagination_witness :
  query (with_query (<["limit" := "5000"]> (<["offset" := "-3"]> ∅))
           (request0 GET "/contracts")) !! "limit" = Some "5000" /\
  list_limit (P:=platform)
    (with_query (<["limit" := "5000"]> (<["offset" := "-3"]> ∅))
       (request0 GET "/contracts")) = of_Z 1000 /\
  list_offset (P:=platform)
    (with_query (<["limit" := "5000"]> (<["offset" := "-3"]> ∅))
       (request0 GET "/contracts")) = of_Z 0.
Proof.
  destruct (list_pagination (P:=platform)
              (with_query (<["limit" := "5000"]> (<["offset" := "-3"]> ∅))
                 (request0 GET "/contracts")))
    as (_ & _ & Hlimit & _ & _ & Hoffset).
  split; [vm_compute; reflexivity|]. split.
  - destruct (Hlimit "5000") as (_ & _ & _ & Habove);
      [vm_compute; reflexivity|].
    apply Habove. reflexivity.
  - destruct (Hoffset "-3") as (Hbelow & _); [vm_compute; reflexivity|].
    apply Hbelow. discriminate.
Defined.

(** C9 as stated fails on a limit of zero: the parameter is there, it is
    below 1, and the limit sent is the default 200, not the bound 1 that
    clamping gives. *)
Lemma list_limit_zero_counterexample :
  let req := with_query (<["limit" := "0"]> ∅) (request0 GET "/contracts") in
  query req !! "limit" = Some "0" /\
  Number (P:=platform) (query_param req "limit") = of_Z 0 /\
  Math_min (Math_max (of_Z 0) (of_Z 1)) (of_Z 1000) = of_Z 1 /\
  list_limit (P:=platform) req = of_Z 200 /\
  list_limit (P:=platform) req <> of_Z 1.
Proof.
  repeat (split; [vm_compute; reflexivity|]).
  vm_compute. discriminate.
Qed.

Example list_pagination_examples :
  let req l o :=
    with_query (<["limit" := l]> (<["offset" := o]> ∅))
      (request0 GET "/contracts") in
  list_limit (P:=platform) (req "5000" "-3") = of_Z 1000 /\
  list_offset (P:=platform) (req "5000" "-3") = of_Z 0 /\
  list_limit (P:=platform) (req "-7" "40") = of_Z 1 /\
  list_offset (P:=platform) (req "-7" "40") = of_Z 40 /\
  list_limit (P:=platform) (req "0" "x") = of_Z 200 /\
  list_limit (P:=platform) (request0 GET "/contracts") = of_Z 200 /\
  list_offset (P:=platform) (request0 GET "/contracts") = of_Z 0.
Proof. repeat split; vm_compute; reflexivity. Qed.

(* ===================================================================== *)
(** * The other routes on concrete requests *)
(* ===================================================================== *)

Lemma cookie_round_trip_witness :
  extractSessionId (P:=platform)
    (with_header "x-session-id" "other"
       (with_header "cookie" "theme=dark; cm_session=6f1c-01"
          (request0 GET "/contracts")))
  = Ok (Some (to_ustring "6f1c-01")).
Proof.
  apply (cookie_round_trip (P:=platform) _
           "theme=dark; cm_session=6f1c-01" "6f1c-01");
    [reflexivity | reflexivity | reflexivity | reflexivity
    | vm_compute; reflexivity |].
  right. exists "theme=dark". split; reflexivity.
Defined.

Lemma gate_accepts_witness :
  exists w',
    gate (P:=platform) 5
      (with_header "x-session-id" "s1" (request0 GET "/auth/me"))
      (world0 must_change_state)
    = (Ok (Next (Some (to_ustring "s1",
                       {| user_id := 101;
                          username := "user@example.com";
                          name := Some "Example User";
                          status := Some "active";
                          last_login_at := None;
                          created_at := 0;
                          password_must_change := true |}))), w') /\
    (hd false (tail (faults (world0 must_change_state))) = true ->
     db w' = must_change_state) /\
    (hd false (tail (faults (world0 must_change_state))) = false ->
     forall s, s ∈ t_user_session (db w') ->
               s_session_id s = to_ustring "s1" -> s_last_seen_at s = 5).
Proof.
  apply (gate_accepts (P:=platform) 5
           (with_header "x-session-id" "s1" (request0 GET "/auth/me"))
           (world0 must_change_state) (to_ustring "s1")
           {| ua_user_id := 101;
              ua_username := "user@example.com";
              ua_name := Some "Example User";
              ua_status := Some "active";
              ua_created_at := 0;
              ua_last_login_at := None;
              ua_password_hash := "$salt$secret";
              ua_password_must_change := Some true |});
    [ discriminate | reflexivity | vm_compute; reflexivity | discriminate
    | reflexivity | reflexivity | ].
  intros _. simpl. unfold allowedWhenMustChange.
  rewrite !elem_of_cons. right. right. by left.
Defined.

Lemma me_after_login_witness :
  (login (P:=platform) uuid1 5 (login_request "user@example.com" "secret")
     (world0 state)).1 =
    Ok (setSessionCookie
          (respond 200 (LoginBody uuid1 (normalizeUserRow defaultUser)))
          uuid1) /\
  (me (P:=platform)
     (with_header "x-session-id" "6f1c2d9e-0000-4000-8000-000000000001"
        (request0 GET "/auth/me"))
     (world0 (db (login (P:=platform) uuid1 5
                    (login_request "user@example.com" "secret")
                    (world0 state)).2))).1 =
    Ok (respond 200 (UserBody (normalizeUserRow (promote 5 defaultUser)))).
Proof.
  apply (me_after_login (P:=platform) uuid1 5
           (login_request "user@example.com" "secret") (world0 state)
           defaultUser);
    [ vm_compute; reflexivity | vm_compute; reflexivity | reflexivity
    | reflexivity | vm_compute; reflexivity | | | | discriminate
    | vm_compute; reflexivity | reflexivity | reflexivity ].
  - change (normalizedStatus defaultUser) with "active".
    rewrite !elem_of_cons. right. by left.
  - intros ua Hin _. by apply list_elem_of_singleton in Hin.
  - intros s Hin. by apply elem_of_nil in Hin.
Defined.

Lemma session_ends_at_logout_witness :
  (logout (P:=platform)
     (with_header "x-session-id" "s1" (request0 POST "/auth/logout"))
     (world0 must_change_state)).1 =
    Ok (clearSessionCookie (respond 204 NoBody)) /\
  (gate (P:=platform) 5
     (with_header "x-session-id" "s1" (request0 GET "/contracts"))
     (world0 (db (logout (P:=platform)
                    (with_header "x-session-id" "s1"
                       (request0 POST "/auth/logout"))
                    (world0 must_change_state)).2))).1 =
    Ok (Responds not_authenticated) /\
  (me (P:=platform)
     (with_header "x-session-id" "s1" (request0 GET "/contracts"))
     (world0 (db (logout (P:=platform)
                    (with_header "x-session-id" "s1"
                       (request0 POST "/auth/logout"))
                    (world0 must_change_state)).2))).1 =
    Ok not_authenticated /\
  forall sid', sid' <> to_ustring "s1" ->
    (select_account_by_session sid'
       (db (world0 (db (logout (P:=platform)
                          (with_header "x-session-id" "s1"
                             (request0 POST "/auth/logout"))
                          (world0 must_change_state)).2)))).1 =
    (select_account_by_session sid' (db (world0 must_change_state))).1.
Proof.
  apply (session_ends_at_logout (P:=platform) 5
           (with_header "x-session-id" "s1" (request0 POST "/auth/logout"))
           (world0 must_change_state) (to_ustring "s1")
           (with_header "x-session-id" "s1" (request0 GET "/contracts")));
    [ vm_compute; reflexivity | discriminate | reflexivity | discriminate
    | reflexivity | vm_compute; reflexivity | reflexivity | reflexivity ].
Defined.

Lemma change_password_unblocks_witness :
  (change_password (P:=platform) (fun p => "$salt$" +:+ p) change_request
     (world0 must_change_state)).1 = Ok (respond 204 NoBody) /\
  forall now req' w1,
    method req' <> OPTIONS ->
    isAuthExemptPath (path req') = false ->
    extractSessionId (P:=platform) req' = Ok (Some (to_ustring "s1")) ->
    db w1 = db (change_password (P:=platform) (fun p => "$salt$" +:+ p)
                  change_request (world0 must_change_state)).2 ->
    hd false (faults w1) = false ->
    exists user,
      (gate (P:=platform) now req' w1).1 =
        Ok (Next (Some (to_ustring "s1", user))) /\
      user_id user = 101 /\
      password_must_change user = false.
Proof.
  apply (change_password_unblocks (P:=platform) (fun p => "$salt$" +:+ p)
           change_request (world0 must_change_state) (to_ustring "s1")
           {| ua_user_id := 101;
              ua_username := "user@example.com";
              ua_name := Some "Example User";
              ua_status := Some "active";
              ua_created_at := 0;
              ua_last_login_at := None;
              ua_password_hash := "$salt$secret";
              ua_password_must_change := Some true |});
    [ vm_compute; reflexivity | discriminate | reflexivity | reflexivity
    | vm_compute; discriminate | vm_compute; lia | vm_compute; reflexivity ].
Defined.

Lemma gate_answers_witness :
  exists out w',
    gate (P:=platform) 5
      (with_header "x-session-id" "s1" (request0 GET "/contracts"))
      (with_faults [false; true] (world0 must_change_state)) = (Ok out, w') /\
    (forall res, out = Responds res -> statusCode res ∈ [401; 403; 500]) /\
    same_but_last_seen must_change_state (db w').
Proof.
  destruct (gate_answers (P:=platform) 5
              (with_header "x-session-id" "s1" (request0 GET "/contracts"))
              (with_faults [false; true] (world0 must_change_state)))
    as (out & w' & Hrun & Hstatus & Hsame & _).
  exists out, w'. split; [exact Hrun|]. split; [exact Hstatus | exact Hsame].
Defined.

Lemma change_password_outcome_witness :
  exists res w',
    change_password (P:=platform) (fun p => "$salt$" +:+ p) change_request
      (with_faults [false; false; true] (world0 must_change_state))
    = (Ok res, w') /\
    statusCode res ∈ [204; 400; 401; 500] /\
    (statusCode res <> 204 -> db w' = must_change_state).
Proof.
  destruct (change_password_outcome (P:=platform) (fun p => "$salt$" +:+ p)
              change_request
              (with_faults [false; false; true] (world0 must_change_state)))
    as (res & w' & Hrun & Hstatus & Hkept & _).
  exists res, w'. split; [exact Hrun|]. split; [exact Hstatus | exact Hkept].
Defined.

Lemma resolveIdsFromNames_reads_witness :
  exists r w',
    resolveIdsFromNames (P:=platform) (sanitizeCreatePayload (P:=platform) contract_payload)
      (with_faults [false; true] (world0 state)) = (r, w') /\
    db w' = state.
Proof.
  destruct (resolveIdsFromNames_reads (P:=platform)
              (sanitizeCreatePayload (P:=platform) contract_payload)
              (with_faults [false; true] (world0 state)))
    as (r & w' & Hrun & Hdb & _).
  exists r, w'. split; [exact Hrun | exact Hdb].
Defined.

Lemma create_record_columns_witness :
  match create_record (P:=platform) (Some (uuid1, normalizeUserRow defaultUser))
          (<["created_by" := JNum (of_Z 7)]> contract_payload) (world0 state)
  with
  | (Ok (inr record), w') =>
      db w' = state /\ record !! "created_by" = Some (JNum (of_Z 101))
  | _ => False
  end.
Proof.
  destruct (create_record (P:=platform)
              (Some (uuid1, normalizeUserRow defaultUser))
              (<["created_by" := JNum (of_Z 7)]> contract_payload)
              (world0 state))
    as [[[res|record]|e] w'] eqn:Hrun;
    try (vm_compute in Hrun; discriminate).
  destruct (create_record_columns (P:=platform) _ _ _ _ _ Hrun)
    as (Hdb & _ & _ & Hby & _).
  split; [exact Hdb | exact Hby].
Defined.

Lemma build_update_placeholders_witness :
  values (build_update [("title", JStr "a"); ("notes", JNull)] (of_Z 7)
            (Some 101)) !! 2%nat = Some (JNum (of_Z 7)) /\
  where_placeholder (build_update [("title", JStr "a"); ("notes", JNull)]
                       (of_Z 7) (Some 101)) = 3%nat.
Proof.
  destruct (build_update_placeholders [("title", JStr "a"); ("notes", JNull)]
              (of_Z 7) (Some 101))
    as (_ & _ & Hwhere & Hid & _).
  split; [exact Hid | exact Hwhere].
Defined.

Lemma patch_record_nothing_to_update_witness :
  patch_record (P:=platform) "7" None (<["owner_ssn" := JStr "x"]> ∅)
    (world0 state) =
    (Ok (inl (respond 400 (ErrorBody "No fields provided for update"))),
     world0 state).
Proof.
  apply (patch_record_nothing_to_update (P:=platform) "7" None
           (<["owner_ssn" := JStr "x"]> ∅) (world0 state));
    [vm_compute; reflexivity|].
  intros k Hk. unfold FIELDS in Hk. rewrite !elem_of_cons in Hk.
  repeat (destruct Hk as [->|Hk]; [reflexivity|]).
  by apply elem_of_nil in Hk.
Defined.

Lemma patch_record_columns_witness :
  match patch_record (P:=platform) "7"
          (Some (uuid1, normalizeUserRow defaultUser))
          (<["title" := JStr " New "]> (<["owner_ssn" := JStr "x"]> ∅))
          (world0 state)
  with
  | (Ok (inr st), w') => db w' = state
  | _ => False
  end.
Proof.
  destruct (patch_record (P:=platform) "7"
              (Some (uuid1, normalizeUserRow defaultUser))
              (<["title" := JStr " New "]> (<["owner_ssn" := JStr "x"]> ∅))
              (world0 state))
    as [[[res|st]|e] w'] eqn:Hrun;
    try (vm_compute in Hrun; discriminate).
  destruct (patch_record_columns (P:=platform) _ _ _ _ _ _ Hrun)
    as (_ & Hdb & _).
  exact Hdb.
Defined.

Lemma sanitizers_agree_witness :
  sanitizeCreatePayload (P:=platform) contract_payload =
  sanitizePatchPayload (P:=platform) contract_payload.
Proof.
  apply (sanitizers_agree (P:=platform) contract_payload).
  intros k Hk. unfold FIELDS in Hk. rewrite !elem_of_cons in Hk.
  repeat (destruct Hk as [->|Hk]; [vm_compute; discriminate|]).
  by apply elem_of_nil in Hk.
Defined.

Lemma departments_delete_outcome_witness :
  exists res w',
    departments_delete (P:=platform) "2" (world0 state) = (Ok res, w') /\
    statusCode res ∈ [204; 400; 404; 500] /\
    t_status (db w') = t_status state.
Proof.
  destruct (departments_delete_outcome (P:=platform) "2" (world0 state))
    as (res & w' & Hrun & Hstatus & _ & _ & Hother & _).
  exists res, w'. split; [exact Hrun|]. split; [exact Hstatus | exact Hother].
Defined.

Lemma statuses_delete_outcome_witness :
  exists res w',
    statuses_delete (P:=platform) "x" (world0 state) = (Ok res, w') /\
    res = respond 400 (ErrorBody "Invalid status_id") /\ w' = world0 state.
Proof.
  destruct (statuses_delete_outcome (P:=platform) "x" (world0 state))
    as (res & w' & Hrun & _ & _ & _ & _ & Hinvalid & _).
  exists res, w'. split; [exact Hrun|]. apply Hinvalid.
  vm_compute. reflexivity.
Defined.

Lemma delete_twice_witness :
  (departments_delete (P:=platform) "2"
     (world0 (db (departments_delete (P:=platform) "2" (world0 state)).2))).1 =
    Ok (respond 404 (ErrorBody "Department not found")) /\
  db (departments_delete (P:=platform) "2"
        (world0 (db (departments_delete (P:=platform) "2"
                       (world0 state)).2))).2 =
    db (departments_delete (P:=platform) "2" (world0 state)).2.
Proof.
  apply (delete_twice (P:=platform) "2" (world0 state)
           (world0 (db (departments_delete (P:=platform) "2"
                          (world0 state)).2)));
    [vm_compute; reflexivity | reflexivity | reflexivity | reflexivity].
Defined.

Lemma header_fallback_only_witness :
  extractSessionId (P:=platform)
    (with_header "x-session-id" "other"
       (with_header "cookie" "cm_session=6f1c-01" (request0 GET "/contracts")))
  = CookieOnly.extractSessionId (P:=platform)
      (with_header "x-session-id" "other"
         (with_header "cookie" "cm_session=6f1c-01"
            (request0 GET "/contracts"))).
Proof.
  apply (header_fallback_only (P:=platform)
           (with_header "x-session-id" "other"
              (with_header "cookie" "cm_session=6f1c-01"
                 (request0 GET "/contracts")))).
  vm_compute. discriminate.
Defined.

Lemma me_outcome_witness :
  exists res w',
    me (P:=platform)
      (with_header "x-session-id" "s1" (request0 GET "/auth/me"))
      (with_faults [true] (world0 must_change_state)) = (Ok res, w') /\
    db w' = must_change_state /\
    statusCode res ∈ [200; 401; 500].
Proof.
  destruct (me_outcome (P:=platform)
              (with_header "x-session-id" "s1" (request0 GET "/auth/me"))
              (with_faults [true] (world0 must_change_state)))
    as (res & w' & Hrun & Hdb & _ & _ & Hstatus & _).
  exists res, w'. split; [exact Hrun|]. split; [exact Hdb | exact Hstatus].
Defined.

Lemma logout_outcome_witness :
  exists res w',
    logout (P:=platform)
      (with_header "cookie" "cm_session=%E0%A4%A" (request0 POST "/auth/logout"))
      (world0 must_change_state) = (Ok res, w') /\
    statusCode res ∈ [204; 500] /\
    (statusCode res = 500 -> db w' = must_change_state).
Proof.
  destruct (logout_outcome (P:=platform)
              (with_header "cookie" "cm_session=%E0%A4%A"
                 (request0 POST "/auth/logout"))
              (world0 must_change_state))
    as (res & w' & Hrun & Hstatus & _ & _ & _ & Hkept & _).
  exists res, w'. split; [exact Hrun|]. split; [exact Hstatus | exact Hkept].
Defined.
